(** * The cagent chat clients: authentication, credential store, retry
      policy and event-stream dispatch

    A shallow embedding of [MultiTenant/AuthAgentChat.py] and
    [MultiTenant/cagent_chat.py], with the parser of
    [MultiTenant/test_cagent_sse.py].

    Python values that come out of [json.loads] are values of [json];
    Python's [None] is [JNull].  A method of a client is a computation in
    a state-and-exception monad over the client object and the world
    (console, network, credentials file).  Text built by an f-string is a
    list of fragments, so that no rendering of numbers, lists or
    exceptions has to be invented.  The message texts are given without
    the pictograph that starts some of them in the source.

    [json.loads] on the text of an event is a parameter of the methods
    that call it.  The libraries are taken by their contracts: a request
    is answered by a response or by an exception; [raise_for_status]
    raises on the statuses 400 to 599 and on no other; a stream is the
    list of the events (or lines) it delivers, after which it ends or is
    cut by a transport error.  A string is held as its UTF-8 encoding:
    [len] and slices count characters, not bytes, and [strip] removes
    the white space of Unicode.  The mode of the credentials file
    ([os.chmod]) and failures of the file system are left out.  A
    [while True] loop is run with fuel, one unit a turn, and says so
    when the fuel is used up; the command line of a [main] is taken as
    [argparse] hands it over, and [KeyboardInterrupt] is not
    considered. *)

From Stdlib Require Import String Ascii List ZArith QArith Bool Arith Lia.
Import ListNotations.
Local Open Scope nat_scope.
Local Open Scope string_scope.
Local Open Scope list_scope.

(** ** JSON values and the Python operations used on them *)

#[local] Unset Elimination Schemes.
Inductive json : Type :=
| JNull
| JBool (b : bool)
| JNum (q : Q)
| JStr (s : string)
| JArr (l : list json)
| JObj (kvs : list (string * json)).
#[local] Set Elimination Schemes.

(** Exceptions the two programs meet.  [Timeout], [HTTPError],
    [ConnectionError] and [InvalidJSONError] are the ones that derive from
    [requests.exceptions.RequestException]. *)
Inductive exn : Type :=
| AttributeError
| TypeError
| KeyError
| ValueError
| JSONDecodeError
| EOFError
| FileNotFoundError
| UnboundLocalError
| Timeout
| HTTPError (status : Z)
| ConnectionError
| InvalidJSONError.

Definition is_RequestException (e : exn) : bool :=
  match e with
  | Timeout | HTTPError _ | ConnectionError | InvalidJSONError => true
  | _ => false
  end.

Inductive res (A : Type) : Type :=
| Ret (a : A)
| Raise (e : exn).
Arguments Ret {A} a.
Arguments Raise {A} e.

(** Truth value of a Python object in [if x:]. *)
Definition truthy (v : json) : bool :=
  match v with
  | JNull => false
  | JBool b => b
  | JNum q => negb (Qeq_bool q 0)
  | JStr s => negb (String.eqb s EmptyString)
  | JArr l => match l with [] => false | _ => true end
  | JObj kvs => match kvs with [] => false | _ => true end
  end.

(** [v == s] for a string literal [s]. *)
Definition is_str (v : json) (s : string) : bool :=
  match v with
  | JStr t => String.eqb t s
  | _ => false
  end.

Module Dict.
(** A Python dict with string keys, in insertion order. *)
Definition t := list (string * json).

Fixpoint get (k : string) (d : t) : option json :=
  match d with
  | [] => None
  | (k', v) :: d' => if String.eqb k' k then Some v else get k d'
  end.

(** [d[k] = v]: an existing key keeps its place. *)
Fixpoint set (k : string) (v : json) (d : t) : t :=
  match d with
  | [] => [(k, v)]
  | (k', v') :: d' =>
      if String.eqb k' k then (k, v) :: d' else (k', v') :: set k v d'
  end.

(** [del d[k]]. *)
Definition del (k : string) (d : t) : t :=
  filter (fun kv => negb (String.eqb (fst kv) k)) d.

Definition keys (d : t) : list string := map fst d.
End Dict.

(** [x.get(k, default)]: only a dict has [get]. *)
Definition py_get (x : json) (k : string) (default : json) : res json :=
  match x with
  | JObj d => Ret (match Dict.get k d with Some v => v | None => default end)
  | _ => Raise AttributeError
  end.

(** [x[k]] for a string key [k]. *)
Definition py_item (x : json) (k : string) : res json :=
  match x with
  | JObj d => match Dict.get k d with Some v => Ret v | None => Raise KeyError end
  | _ => Raise TypeError
  end.

(** [k in x] for a string [k]. *)
Fixpoint str_contains (k s : string) : bool :=
  String.prefix k s ||
  match s with
  | EmptyString => false
  | String _ s' => str_contains k s'
  end.

Definition py_in (k : string) (x : json) : res bool :=
  match x with
  | JObj d => Ret (existsb (fun k' => String.eqb k' k) (Dict.keys d))
  | JArr l => Ret (existsb (fun v => is_str v k) l)
  | JStr s => Ret (str_contains k s)
  | _ => Raise TypeError
  end.

(** A [str] is held as its UTF-8 encoding.  A byte of the form
    [10xxxxxx] continues the character that the bytes before it began. *)
Definition is_continuation (c : ascii) : bool :=
  let n := nat_of_ascii c in
  Nat.leb 128 n && Nat.ltb n 192.

(** [len(s)]: the number of characters. *)
Fixpoint len_str (s : string) : nat :=
  match s with
  | EmptyString => 0
  | String c s' => if is_continuation c then len_str s' else S (len_str s')
  end.

(** [s[:n]]: the first [n] characters. *)
Fixpoint take_chars (n : nat) (s : string) : string :=
  match s with
  | EmptyString => EmptyString
  | String c s' =>
      if is_continuation c then String c (take_chars n s')
      else
        match n with
        | O => EmptyString
        | S n' => String c (take_chars n' s')
        end
  end.

(** The characters of a string, each as a string. *)
Fixpoint chars (s : string) : list json :=
  match s with
  | EmptyString => []
  | String c s' =>
      match s' with
      | String c' _ =>
          if is_continuation c' then
            match chars s' with
            | JStr first :: others => JStr (String c first) :: others
            | others => JStr (String c EmptyString) :: others
            end
          else JStr (String c EmptyString) :: chars s'
      | EmptyString => [JStr (String c EmptyString)]
      end
  end.

(** The items a [for] loop sees. *)
Definition py_iter (x : json) : res (list json) :=
  match x with
  | JArr l => Ret l
  | JObj d => Ret (map JStr (Dict.keys d))
  | JStr s => Ret (chars s)
  | _ => Raise TypeError
  end.

(** [x[:n]]. *)
Definition py_slice_to (n : nat) (x : json) : res json :=
  match x with
  | JStr s => Ret (JStr (take_chars n s))
  | JArr l => Ret (JArr (firstn n l))
  | _ => Raise TypeError
  end.

(** [''.join(parts)]: every part has to be a string. *)
Fixpoint join (parts : list json) : res string :=
  match parts with
  | [] => Ret EmptyString
  | JStr s :: rest =>
      match join rest with
      | Ret t => Ret (s ++ t)%string
      | Raise e => Raise e
      end
  | _ :: _ => Raise TypeError
  end.

(** [x > 0]. *)
Definition py_gt0 (x : json) : res bool :=
  match x with
  | JNum q => Ret (negb (Qle_bool q 0))
  | JBool b => Ret b
  | _ => Raise TypeError
  end.

(** ** Python string methods *)

Definition startswith (s p : string) : bool := String.prefix p s.

Definition endswith (s suf : string) : bool :=
  Nat.leb (String.length suf) (String.length s) &&
  String.eqb (substring (String.length s - String.length suf) (String.length suf) s) suf.

(** [s[n:]]. *)
Fixpoint drop (n : nat) (s : string) : string :=
  match n, s with
  | S n', String _ s' => drop n' s'
  | _, _ => s
  end.

(** [s.replace(old, new)] for a non-empty [old]: the occurrences are
    replaced from left to right without overlap.  [skip] counts the
    characters of an occurrence that are still to be passed over. *)
Fixpoint replace_from (old new : string) (skip : nat) (s : string) : string :=
  match s with
  | EmptyString => EmptyString
  | String c s' =>
      match skip with
      | S k => replace_from old new k s'
      | O =>
          if String.prefix old s
          then (new ++ replace_from old new (String.length old - 1) s')%string
          else String c (replace_from old new 0 s')
      end
  end.

Definition replace (s old new : string) : string := replace_from old new 0 s.

(** The white space [str.strip()] removes: the characters for which
    [str.isspace()] holds.  In one byte U+0009 to U+000D and U+001C to
    U+0020; in two bytes U+0085 and U+00A0; in three bytes U+1680, U+2000
    to U+200A, U+2028, U+2029, U+202F, U+205F and U+3000. *)
Definition is_space (c : ascii) : bool :=
  let n := nat_of_ascii c in
  (Nat.leb 9 n && Nat.leb n 13) || (Nat.leb 28 n && Nat.leb n 32).

Definition is_space2 (c1 c2 : ascii) : bool :=
  Nat.eqb (nat_of_ascii c1) 194 &&
  (Nat.eqb (nat_of_ascii c2) 133 || Nat.eqb (nat_of_ascii c2) 160).

Definition is_space3 (c1 c2 c3 : ascii) : bool :=
  let n1 := nat_of_ascii c1 in
  let n2 := nat_of_ascii c2 in
  let n3 := nat_of_ascii c3 in
  (Nat.eqb n1 225 && Nat.eqb n2 154 && Nat.eqb n3 128) ||
  (Nat.eqb n1 226 && Nat.eqb n2 128 &&
   ((Nat.leb 128 n3 && Nat.leb n3 138) ||
    Nat.eqb n3 168 || Nat.eqb n3 169 || Nat.eqb n3 175)) ||
  (Nat.eqb n1 226 && Nat.eqb n2 129 && Nat.eqb n3 159) ||
  (Nat.eqb n1 227 && Nat.eqb n2 128 && Nat.eqb n3 128).

(** [s.lstrip()]. *)
Fixpoint lstrip (s : string) : string :=
  match s with
  | EmptyString => EmptyString
  | String c1 s1 =>
      if is_space c1 then lstrip s1
      else
        match s1 with
        | EmptyString => s
        | String c2 s2 =>
            if is_space2 c1 c2 then lstrip s2
            else
              match s2 with
              | EmptyString => s
              | String c3 s3 => if is_space3 c1 c2 c3 then lstrip s3 else s
              end
        end
  end.

(** [s.rstrip()]: the text is cut where what follows is white space
    only. *)
Fixpoint rstrip (s : string) : string :=
  match s with
  | EmptyString => EmptyString
  | String c s' =>
      if String.eqb (lstrip s) EmptyString then EmptyString
      else String c (rstrip s')
  end.

(** [s.rstrip(chars)] for one-byte characters, given by [p]. *)
Fixpoint rstrip_with (p : ascii -> bool) (s : string) : string :=
  match s with
  | EmptyString => EmptyString
  | String c s' =>
      match rstrip_with p s' with
      | EmptyString => if p c then EmptyString else String c EmptyString
      | t => String c t
      end
  end.

(** [s.strip()]. *)
Definition strip (s : string) : string := rstrip (lstrip s).

(** [s.rstrip('/')]. *)
Definition rstrip_slash (s : string) : string :=
  rstrip_with (fun c => Ascii.eqb c "/"%char) s.

Definition nl : string := String (ascii_of_nat 10) EmptyString.
Definition cr : string := String (ascii_of_nat 13) EmptyString.

Fixpoint times (n : nat) (s : string) : string :=
  match n with
  | O => EmptyString
  | S n' => (s ++ times n' s)%string
  end.

Definition lower_char (c : ascii) : ascii :=
  let n := nat_of_ascii c in
  if Nat.leb 65 n && Nat.leb n 90 then ascii_of_nat (n + 32) else c.

Fixpoint map_chars (f : ascii -> ascii) (s : string) : string :=
  match s with
  | EmptyString => EmptyString
  | String c s' => String (f c) (map_chars f s')
  end.

(** [s.lower()] as far as the programs need it: the letters A to Z are
    lowered and every other byte is kept.  The programs only compare the
    result with a command written in the letters a to z without k (and
    the slash); no character outside ASCII is lowered by Python to one
    of these, so the comparison decides as [str.lower()] does. *)
Definition lower (s : string) : string := map_chars lower_char s.

(** [len(x)]. *)
Definition py_len (x : json) : res nat :=
  match x with
  | JStr s => Ret (len_str s)
  | JArr l => Ret (List.length l)
  | JObj d => Ret (List.length d)
  | _ => Raise TypeError
  end.

(** How a loop that is run with fuel ends: by itself, or by lack of
    fuel. *)
Inductive ended (A : Type) : Type :=
| Ended (a : A)
| OutOfFuel.
Arguments Ended {A} a.
Arguments OutOfFuel {A}.

(** ** The world: console, network and the credentials file *)

(** A piece of formatted text: a literal, [str(v)] of a value,
    [json.dumps(v, indent=2)], the message of an exception, a number
    formatted with [:.6f], or [s.upper()] of a string. *)
Inductive frag : Type :=
| Lit (s : string)
| Val (v : json)
| Dumps (v : json)
| Exc (e : exn)
| Fixed6 (v : json)
| Upper (s : string).

(** [x.upper()]: only a string has it. *)
Definition py_upper (x : json) : res frag :=
  match x with
  | JStr s => Ret (Upper s)
  | _ => Raise AttributeError
  end.

Definition text := list frag.

(** What reaches the terminal: a call of [print] with its [end], or the
    prompt of [input] / [getpass]. *)
Inductive out : Type :=
| Print (t : text) (end_ : string)
| Prompt (p : string).

Inductive method : Type := GET | POST.

Record request : Type := mkRequest {
  meth : method;
  url : text;
  headers : list (string * text);
  body : option json;
  req_timeout : option Z;
  stream : bool
}.

(** A response of [requests]: [content] is the body as [json()] reads
    it, [events] the [data] of the events [sseclient] yields from it and
    [lines] the decoded chunks of [iter_lines()].  A streamed body is
    read while it is iterated: [cut] is the exception that ends the
    reading after the last of these events or lines, if the body does
    not arrive whole. *)
Record response : Type := mkResponse {
  status_code : Z;
  content : string;
  events : list string;
  lines : list string;
  cut : option exn
}.

(** [Response.ok]: false exactly when [raise_for_status()] raises, which
    it does for the statuses from 400 to 599. *)
Definition ok (r : response) : bool :=
  negb ((400 <=? status_code r)%Z && (status_code r <? 600)%Z).

Inductive reply : Type :=
| Fails (e : exn)
| Responds (r : response).

(** The credentials file holds a JSON document or something [json.load]
    rejects; [json.dump] of a document followed by [json.load] gives the
    document back. *)
Inductive file : Type :=
| Corrupt
| Doc (d : json).

(** [net] answers a request from the requests sent so far, the current
    one last. *)
Record World : Type := mkWorld {
  stdin : list string;
  stdout : list out;
  sent : list request;
  net : list request -> reply;
  creds : option file;
  clock : string
}.

Definition set_stdin (l : list string) (w : World) : World :=
  mkWorld l (stdout w) (sent w) (net w) (creds w) (clock w).
Definition set_stdout (o : list out) (w : World) : World :=
  mkWorld (stdin w) o (sent w) (net w) (creds w) (clock w).
Definition set_sent (l : list request) (w : World) : World :=
  mkWorld (stdin w) (stdout w) l (net w) (creds w) (clock w).
Definition set_creds (f : option file) (w : World) : World :=
  mkWorld (stdin w) (stdout w) (sent w) (net w) f (clock w).

(** ** Computations: state and exceptions *)

Definition M (S A : Type) : Type := S -> res A * S.

Definition ret {S A} (a : A) : M S A := fun s => (Ret a, s).

Definition raise {S A} (e : exn) : M S A := fun s => (Raise e, s).

Definition bind {S A B} (m : M S A) (k : A -> M S B) : M S B :=
  fun s =>
    match m s with
    | (Ret a, s') => k a s'
    | (Raise e, s') => (Raise e, s')
    end.

(** [try: m  except ... as e: h e]; a handler that does not cover [e]
    raises it again. *)
Definition try_except {S A} (m : M S A) (h : exn -> M S A) : M S A :=
  fun s =>
    match m s with
    | (Ret a, s') => (Ret a, s')
    | (Raise e, s') => h e s'
    end.

Definition lift {S A} (r : res A) : M S A := fun s => (r, s).

Declare Scope py_scope.
Delimit Scope py_scope with py.
Notation "x <- m ;; k" := (bind m (fun x => k))
  (at level 61, m at next level, right associativity) : py_scope.
Notation "m ;; k" := (bind m (fun _ => k))
  (at level 61, right associativity) : py_scope.
Local Open Scope py_scope.

Definition when {S} (b : bool) (m : M S unit) : M S unit :=
  if b then m else ret tt.

(** A program state that carries the world. *)
Class Stateful (S : Type) : Type := {
  world_of : S -> World;
  with_world : World -> S -> S
}.

Section WorldOps.
Context {S : Type} `{Stateful S}.

Definition print_end (t : text) (end_ : string) : M S unit :=
  fun s =>
    let w := world_of s in
    (Ret tt, with_world (set_stdout (stdout w ++ [Print t end_]) w) s).

Definition print (t : text) : M S unit := print_end t nl.

(** [input(p)] and [getpass.getpass(p)]. *)
Definition input (p : string) : M S string :=
  fun s =>
    let w := set_stdout (stdout (world_of s) ++ [Prompt p]) (world_of s) in
    match stdin w with
    | [] => (Raise EOFError, with_world w s)
    | l :: rest => (Ret l, with_world (set_stdin rest w) s)
    end.

(** [requests.get] / [requests.post]. *)
Definition http (r : request) : M S response :=
  fun s =>
    let w := world_of s in
    let log := sent w ++ [r] in
    let s' := with_world (set_sent log w) s in
    match net w log with
    | Fails e => (Raise e, s')
    | Responds resp => (Ret resp, s')
    end.

Definition raise_for_status (r : response) : M S unit :=
  if ok r then ret tt else raise (HTTPError (status_code r)).

(** [os.path.exists(self.creds_file)]. *)
Definition creds_exists : M S bool :=
  fun s => (Ret (match creds (world_of s) with Some _ => true | None => false end), s).

(** [with open(self.creds_file, 'r') as f: json.load(f)]. *)
Definition creds_load : M S json :=
  fun s =>
    match creds (world_of s) with
    | None => (Raise FileNotFoundError, s)
    | Some Corrupt => (Raise JSONDecodeError, s)
    | Some (Doc d) => (Ret d, s)
    end.

(** [with open(self.creds_file, 'w') as f: json.dump(data, f, indent=2)]. *)
Definition creds_dump (data : json) : M S unit :=
  fun s => (Ret tt, with_world (set_creds (Some (Doc data)) (world_of s)) s).

(** [datetime.now().isoformat()]. *)
Definition now_isoformat : M S string :=
  fun s => (Ret (clock (world_of s)), s).
End WorldOps.

Definition num (z : Z) : json := JNum (inject_Z z).

(** [data[k] = v] and [del data[k]] for a string key. *)
Definition py_setitem (x : json) (k : string) (v : json) : res json :=
  match x with
  | JObj d => Ret (JObj (Dict.set k v d))
  | _ => Raise TypeError
  end.

Definition py_delitem (x : json) (k : string) : res json :=
  match x with
  | JObj d => Ret (JObj (Dict.del k d))
  | _ => Raise TypeError
  end.

(** [a or b]. *)
Definition py_or (a b : json) : json := if truthy a then a else b.

(** The world alone is a program state: the code of [main] outside any
    client. *)
#[global] Instance World_Stateful : Stateful World :=
  {| world_of := fun w => w; with_world := fun w _ => w |}.

(** [os.remove(creds_file)], after [os.path.exists] has said yes. *)
Definition creds_remove {S : Type} `{Stateful S} : M S unit :=
  fun s => (Ret tt, with_world (set_creds None (world_of s)) s).

(** [for x in l: f x]. *)
Fixpoint for_in {S A : Type} (l : list A) (f : A -> M S unit) : M S unit :=
  match l with
  | [] => ret tt
  | x :: rest => f x ;; for_in rest f
  end.

(** How a [main] ends: by returning, or by [sys.exit(code)]. *)
Inductive main_exit : Type :=
| Return
| SysExit (code : Z).

(** ** AuthAgentChat.py *)

Module AuthAgentChat.

Record Self : Type := mkSelf {
  api_url : string;
  agent_yaml : string;
  verbose : bool;
  timeout : Z;
  session_id : json;
  token : json;
  user : json;
  auth_enabled : bool
}.

Record St : Type := mkSt { self : Self; world : World }.

#[global] Instance St_Stateful : Stateful St :=
  {| world_of := world; with_world := fun w s => mkSt (self s) w |}.

Definition getself : M St Self := fun s => (Ret (self s), s).

Definition set_token (v : json) : M St unit :=
  fun s =>
    let me := self s in
    (Ret tt, mkSt (mkSelf (api_url me) (agent_yaml me) (verbose me) (timeout me)
                     (session_id me) v (user me) (auth_enabled me)) (world s)).

Definition set_user (v : json) : M St unit :=
  fun s =>
    let me := self s in
    (Ret tt, mkSt (mkSelf (api_url me) (agent_yaml me) (verbose me) (timeout me)
                     (session_id me) (token me) v (auth_enabled me)) (world s)).

Definition set_auth_enabled (b : bool) : M St unit :=
  fun s =>
    let me := self s in
    (Ret tt, mkSt (mkSelf (api_url me) (agent_yaml me) (verbose me) (timeout me)
                     (session_id me) (token me) (user me) b) (world s)).

(** [self.creds_file], before [os.path.expanduser] expands it. *)
Definition creds_file : string := "~/.cagent_auth.json".

Definition max_retries : nat := 3.

Inductive ctl : Type := Continue | Break.

(** How the retry loop of [send_message] is left. *)
Inductive loop_exit : Type :=
| Returned
| Broke (response : response)
| Exhausted.

Section Methods.
Variable json_loads : string -> option json.

(** [response.json()]. *)
Definition response_json (r : response) : M St json :=
  match json_loads (content r) with
  | Some v => ret v
  | None => raise InvalidJSONError
  end.

Definition _check_auth_enabled : M St bool :=
  me <- getself ;;
  try_except
    (response <- http (mkRequest GET [Lit (api_url me); Lit "/api/sessions"]
                         [] None (Some 5%Z) false) ;;
     if (status_code response =? 401)%Z || (status_code response =? 403)%Z then
       when (verbose me) (print [Lit "Authentication is enabled on the server"]) ;;
       ret true
     else if (status_code response =? 200)%Z then
       when (verbose me) (print [Lit "Authentication is disabled on the server"]) ;;
       ret false
     else
       when (verbose me)
         (print [Lit "Unexpected response: "; Val (num (status_code response))]) ;;
       ret false)
    (fun e =>
       when (verbose me) (print [Lit "Error checking auth status: "; Exc e]) ;;
       ret false).

Definition _load_credentials : M St unit :=
  me <- getself ;;
  present <- creds_exists ;;
  if present then
    try_except
      (data <- creds_load ;;
       found <- lift (py_in (api_url me) data) ;;
       if found then
         creds <- lift (py_item data (api_url me)) ;;
         tok <- lift (py_get creds "token" JNull) ;;
         set_token tok ;;
         usr <- lift (py_get creds "user" JNull) ;;
         set_user usr ;;
         if verbose me && truthy tok then
           email <- lift (py_get usr "email" (JStr "unknown")) ;;
           print [Lit "Loaded saved credentials for "; Val email]
         else ret tt
       else ret tt)
      (fun e =>
         when (verbose me) (print [Lit "Could not load saved credentials: "; Exc e]))
  else ret tt.

Definition _save_credentials : M St unit :=
  me <- getself ;;
  try_except
    (present <- creds_exists ;;
     data <- (if present then creds_load else ret (JObj [])) ;;
     saved_at <- now_isoformat ;;
     data <- lift (py_setitem data (api_url me)
                     (JObj [("token", token me); ("user", user me);
                            ("saved_at", JStr saved_at)])) ;;
     creds_dump data ;;
     when (verbose me) (print [Lit "Saved credentials to "; Lit creds_file]))
    (fun e =>
       when (verbose me) (print [Lit "Could not save credentials: "; Exc e])).

Definition _clear_credentials : M St unit :=
  set_token JNull ;;
  set_user JNull ;;
  me <- getself ;;
  present <- creds_exists ;;
  if present then
    try_except
      (data <- creds_load ;;
       found <- lift (py_in (api_url me) data) ;;
       data <- (if found then lift (py_delitem data (api_url me)) else ret data) ;;
       creds_dump data)
      (fun _ => ret tt)
  else ret tt.

Definition _headers : M St (list (string * text)) :=
  me <- getself ;;
  ret ([("Content-Type", [Lit "application/json"])] ++
       (if truthy (token me)
        then [("Authorization", [Lit "Bearer "; Val (token me)])]
        else [])).

(** [getpass.getpass] reads the console like [input]. *)
Definition getpass (p : string) : M St string := input p.

Definition register : M St bool :=
  me <- getself ;;
  print [Lit (nl ++ "=== User Registration ===")%string] ;;
  email <- input "Email: " ;;
  let email := strip email in
  name <- input "Name: " ;;
  let name := strip name in
  password <- getpass "Password: " ;;
  confirm <- getpass "Confirm Password: " ;;
  if negb (String.eqb password confirm) then
    print [Lit "Passwords do not match"] ;;
    ret false
  else if Nat.ltb (len_str password) 8 then
    print [Lit "Password must be at least 8 characters"] ;;
    ret false
  else
    try_except
      (response <- http (mkRequest POST [Lit (api_url me); Lit "/api/auth/register"]
                           []
                           (Some (JObj [("email", JStr email);
                                        ("password", JStr password);
                                        ("name", JStr name)]))
                           (Some 10%Z) false) ;;
       if (status_code response =? 200)%Z then
         data <- response_json response ;;
         tok <- lift (py_get data "token" JNull) ;;
         set_token tok ;;
         usr <- lift (py_get data "user" JNull) ;;
         set_user usr ;;
         _save_credentials ;;
         print [Lit "Registration successful! Welcome, "; Lit name] ;;
         ret true
       else
         data <- response_json response ;;
         error <- lift (py_get data "message" (JStr "Registration failed")) ;;
         print [Lit "Registration failed: "; Val error] ;;
         ret false)
      (fun e =>
         print [Lit "Registration error: "; Exc e] ;;
         ret false).

Definition login : M St bool :=
  me <- getself ;;
  print [Lit (nl ++ "=== User Login ===")%string] ;;
  email <- input "Email: " ;;
  let email := strip email in
  password <- getpass "Password: " ;;
  try_except
    (response <- http (mkRequest POST [Lit (api_url me); Lit "/api/auth/login"]
                         []
                         (Some (JObj [("email", JStr email);
                                      ("password", JStr password)]))
                         (Some 10%Z) false) ;;
     if (status_code response =? 200)%Z then
       data <- response_json response ;;
       tok <- lift (py_get data "token" JNull) ;;
       set_token tok ;;
       usr <- lift (py_get data "user" JNull) ;;
       set_user usr ;;
       _save_credentials ;;
       name <- lift (py_get usr "name" (JStr email)) ;;
       print [Lit "Login successful! Welcome back, "; Val name] ;;
       ret true
     else
       data <- response_json response ;;
       error <- lift (py_get data "message" (JStr "Login failed")) ;;
       print [Lit "Login failed: "; Val error] ;;
       ret false)
    (fun e =>
       print [Lit "Login error: "; Exc e] ;;
       ret false).
(** The names one entry of the catalog adds to [agent_names]. *)
Definition agent_names_of (agent : json) : list json :=
  match agent with
  | JObj d =>
      let name :=
        py_or (match Dict.get "name" d with Some v => v | None => JNull end)
              (match Dict.get "path" d with Some v => v | None => JStr EmptyString end) in
      if truthy name then [name] else []
  | _ => [agent]
  end.

Fixpoint for_each {A} (l : list A) (f : A -> M St unit) : M St unit :=
  match l with
  | [] => ret tt
  | x :: rest => f x ;; for_each rest f
  end.

Definition agent_check_of (agent_yaml : string) : string :=
  if negb (endswith agent_yaml ".yaml")
  then (agent_yaml ++ ".yaml")%string
  else agent_yaml.

Definition verify_agent : M St bool :=
  me <- getself ;;
  try_except
    (hs <- _headers ;;
     response <- http (mkRequest GET [Lit (api_url me); Lit "/api/agents"]
                         hs None (Some 10%Z) false) ;;
     raise_for_status response ;;
     agents <- response_json response ;;
     items <- lift (py_iter agents) ;;
     let agent_names := flat_map agent_names_of items in
     let agent_check := agent_check_of (agent_yaml me) in
     if negb (existsb (fun v => is_str v agent_check) agent_names) then
       print [Lit nl; Lit "Agent '"; Lit (agent_yaml me); Lit "' not found!"] ;;
       print [Lit nl; Lit "Available agents:"] ;;
       for_each agent_names (fun agent => print [Lit "  - "; Val agent]) ;;
       ret false
     else
       print [Lit "Agent '"; Lit (agent_yaml me); Lit "' verified"] ;;
       ret true)
    (fun e =>
       print [Lit "Error verifying agent: "; Exc e] ;;
       ret false).

(** The [while retry_count < max_retries] loop of [send_message];
    [remaining] is [max_retries - retry_count], zero when the
    condition of the loop is false. *)
Fixpoint retry_loop (payload : json) (remaining retry_count : nat)
  : M St loop_exit :=
  match remaining with
  | O => ret Exhausted
  | S remaining' =>
      me <- getself ;;
      try_except
        (hs <- _headers ;;
         response <- http (mkRequest POST
                             [Lit (api_url me); Lit "/api/sessions/";
                              Val (session_id me); Lit "/agent/";
                              Lit (agent_yaml me)]
                             hs (Some payload) (Some (timeout me)) true) ;;
         raise_for_status response ;;
         ret (Broke response))
        (fun e =>
           match e with
           | Timeout =>
               let retry_count := S retry_count in
               if Nat.ltb retry_count max_retries then
                 print [Lit nl; Lit "Request timed out. Retrying... (";
                        Val (num (Z.of_nat retry_count)); Lit "/";
                        Val (num (Z.of_nat max_retries)); Lit ")"] ;;
                 retry_loop payload remaining' retry_count
               else
                 print [Lit nl; Lit "Request timed out after ";
                        Val (num (Z.of_nat max_retries));
                        Lit " attempts. The agent might be processing a complex request."] ;;
                 print [Lit "Try again with a simpler query or increase timeout with --timeout flag."] ;;
                 ret Returned
           | HTTPError status =>
               (if (status =? 401)%Z then
                  print [Lit "Authentication expired. Please restart the chat."] ;;
                  _clear_credentials
                else
                  print [Lit "HTTP Error: "; Exc e]) ;;
               ret Returned
           | _ =>
               print [Lit "Error sending message: "; Exc e] ;;
               ret Returned
           end)
  end.

(** [(tool_call.get('name', 'unknown'))] of [data.get('tool_call', {})]. *)
Definition tool_name_of (data : json) : M St (json * json) :=
  tool_call <- lift (py_get data "tool_call" (JObj [])) ;;
  tool_name <- lift (py_get tool_call "name" (JStr "unknown")) ;;
  ret (tool_call, tool_name).

Definition py_not_in (v : json) (l : list string) : bool :=
  negb (existsb (fun s => is_str v s) l).

(** The body of [for event in client.events()]: the accumulators
    after the event, and whether the loop goes on. *)
Definition handle_event (show_progress : bool) (event_data : string)
    (full_response : list json) (token_usage : json)
  : M St (ctl * (list json * json)) :=
  me <- getself ;;
  let same := ret (Continue, (full_response, token_usage)) in
  try_except
    (data <- lift (match json_loads event_data with
                   | Some v => Ret v
                   | None => Raise JSONDecodeError
                   end) ;;
     event_type <- lift (py_get data "type" (JStr EmptyString)) ;;
     if is_str event_type "agent_choice" then
       content <- lift (py_get data "content" (JStr EmptyString)) ;;
       if truthy content then
         print_end [Val content] EmptyString ;;
         ret (Continue, (full_response ++ [content], token_usage))
       else same
     else if is_str event_type "token_usage" then
       usage <- lift (py_get data "usage" (JObj [])) ;;
       ret (Continue, (full_response, usage))
     else if is_str event_type "error" then
       message <- lift (py_get data "message" (JStr "Unknown error")) ;;
       print [Lit nl; Lit "Error: "; Val message] ;;
       ret (Break, (full_response, token_usage))
     else if is_str event_type "tool_call" && show_progress then
       tc <- tool_name_of data ;;
       print [Lit nl; Lit "[Calling tool: "; Val (snd tc); Lit "]"] ;;
       (if verbose me then
          args <- lift (py_get (fst tc) "arguments" (JObj [])) ;;
          when (truthy args) (print [Lit "   Arguments: "; Dumps args])
        else ret tt) ;;
       same
     else if is_str event_type "partial_tool_call" && show_progress && verbose me then
       tc <- tool_name_of data ;;
       print [Lit nl; Lit "[Preparing tool: "; Val (snd tc); Lit "]"] ;;
       same
     else if is_str event_type "tool_call_response" && show_progress then
       tc <- tool_name_of data ;;
       print [Lit nl; Lit "[Tool "; Val (snd tc); Lit " completed]"] ;;
       same
     else if is_str event_type "agent_choice_reasoning" && show_progress then
       content <- lift (py_get data "content" (JStr EmptyString)) ;;
       (if truthy content then
          head <- lift (py_slice_to 100 content) ;;
          print [Lit nl; Lit "[Reasoning: "; Val head; Lit "...]"]
        else ret tt) ;;
       same
     else if is_str event_type "warning" && show_progress then
       warning_msg <- lift (py_get data "message" (JStr EmptyString)) ;;
       when (truthy warning_msg) (print [Lit nl; Lit "Warning: "; Val warning_msg]) ;;
       same
     else if is_str event_type "shell" && show_progress then
       output <- lift (py_get data "output" (JStr EmptyString)) ;;
       (if truthy output && verbose me then
          head <- lift (py_slice_to 200 output) ;;
          print [Lit nl; Lit "Shell output:"; Lit nl; Val head; Lit "..."]
        else ret tt) ;;
       same
     else if verbose me then
       when (py_not_in event_type ["stream_started"; "stream_stopped"; "user_message"] &&
             py_not_in event_type ["tool_call"; "partial_tool_call"; "tool_call_response";
                                   "agent_choice_reasoning"; "warning"; "shell"])
         (print [Lit nl; Lit "["; Val event_type; Lit "]: "; Dumps data]) ;;
       same
     else same)
    (fun e =>
       match e with
       | JSONDecodeError =>
           when (verbose me) (print [Lit nl; Lit "Raw event: "; Lit event_data]) ;;
           same
       | _ =>
           when (verbose me) (print [Lit nl; Lit "Error processing event: "; Exc e]) ;;
           same
       end).

(** [for event in client.events()]: the events that arrive, [evs], are
    handled in turn; after the last of them the iterator ends, or raises
    [cut] when the body did not arrive whole.  The loop is in no [try]. *)
Fixpoint events_loop (show_progress : bool) (cut : option exn) (evs : list string)
    (full_response : list json) (token_usage : json)
  : M St (list json * json) :=
  match evs with
  | [] =>
      match cut with
      | None => ret (full_response, token_usage)
      | Some e => raise e
      end
  | event_data :: rest =>
      r <- handle_event show_progress event_data full_response token_usage ;;
      match fst r with
      | Break => ret (snd r)
      | Continue => events_loop show_progress cut rest (fst (snd r)) (snd (snd r))
      end
  end.

Definition send_message (message : string) (show_progress : bool) : M St unit :=
  me <- getself ;;
  if negb (truthy (session_id me)) then
    print [Lit "No active session"]
  else
    let payload := JArr [JObj [("role", JStr "user"); ("content", JStr message)]] in
    exit <- retry_loop payload (max_retries - 0) 0 ;;
    match exit with
    | Returned => ret tt
    | _ =>
        when show_progress
          (print [Lit nl; Lit (times 50 "=")] ;;
           print [Lit "Agent Response:"] ;;
           print [Lit (times 50 "="); Lit nl]) ;;
        response <- (match exit with
                     | Broke response => ret response
                     | _ => raise UnboundLocalError
                     end) ;;
        acc <- events_loop show_progress (cut response) (events response) [] (JObj []) ;;
        let token_usage := snd acc in
        print [Lit nl] ;;
        if truthy token_usage && show_progress then
          print [Lit nl; Lit (times 50 "-")] ;;
          input_tokens <- lift (py_get token_usage "input_tokens" (num 0)) ;;
          output_tokens <- lift (py_get token_usage "output_tokens" (num 0)) ;;
          total_tokens <- lift (py_get token_usage "total_tokens" (num 0)) ;;
          print [Lit "Tokens - Input: "; Val input_tokens;
                 Lit ", Output: "; Val output_tokens;
                 Lit ", Total: "; Val total_tokens]
        else ret tt
    end.

Definition __init__ (api_url agent_yaml : string) (verbose : bool) (timeout : Z)
    (w : World) : res unit * St :=
  (enabled <- _check_auth_enabled ;;
   set_auth_enabled enabled ;;
   _load_credentials)
    (mkSt (mkSelf (rstrip_slash api_url) agent_yaml verbose timeout
             JNull JNull JNull false) w).
Definition set_session_id (v : json) : M St unit :=
  fun s =>
    let me := self s in
    (Ret tt, mkSt (mkSelf (api_url me) (agent_yaml me) (verbose me) (timeout me)
                     v (token me) (user me) (auth_enabled me)) (world s)).

(** [datetime.now().strftime('%Y-%m-%d %H:%M')], read off the ISO form
    of the clock. *)
Definition now_minutes : M St string :=
  iso <- now_isoformat ;;
  ret (substring 0 10 iso ++ " " ++ substring 11 5 iso)%string.

Definition rule (c : string) : string := times 50 c.

(** [title] is [None] or a string; [tools_approved] defaults to [True]. *)
Definition create_session (title : option string) (tools_approved : bool) : M St bool :=
  me <- getself ;;
  title <- (match title with
            | Some t =>
                if negb (String.eqb t EmptyString) then ret t
                else minutes <- now_minutes ;;
                     ret ("Chat with " ++ agent_yaml me ++ " - " ++ minutes)%string
            | None =>
                minutes <- now_minutes ;;
                ret ("Chat with " ++ agent_yaml me ++ " - " ++ minutes)%string
            end) ;;
  try_except
    (hs <- _headers ;;
     response <- http (mkRequest POST [Lit (api_url me); Lit "/api/sessions"] hs
                         (Some (JObj [("title", JStr title);
                                      ("workingDir", JStr "/tmp");
                                      ("tools_approved", JBool tools_approved)]))
                         (Some 10%Z) false) ;;
     raise_for_status response ;;
     session <- response_json response ;;
     sid <- lift (py_item session "id") ;;
     set_session_id sid ;;
     print [Lit nl; Lit "Session created: "; Val sid] ;;
     when (verbose me) (print [Lit "   Title: "; Lit title]) ;;
     ret true)
    (fun e =>
       print [Lit "Error creating session: "; Exc e] ;;
       ret false).

(** The request of [get_session_history] and [show_session_summary]. *)
Definition session_get : M St response :=
  me <- getself ;;
  hs <- _headers ;;
  http (mkRequest GET [Lit (api_url me); Lit "/api/sessions/"; Val (session_id me)]
          hs None (Some 10%Z) false).

Definition get_session_history : M St unit :=
  me <- getself ;;
  if negb (truthy (session_id me)) then
    print [Lit "No active session"]
  else
    try_except
      (response <- session_get ;;
       raise_for_status response ;;
       session <- response_json response ;;
       messages <- lift (py_get session "messages" (JArr [])) ;;
       if truthy messages then
         print [Lit nl; Lit (rule "=")] ;;
         print [Lit "Session History:"] ;;
         print [Lit (rule "=")] ;;
         items <- lift (py_iter messages) ;;
         for_each items
           (fun msg =>
              role <- lift (py_get msg "role" (JStr "unknown")) ;;
              content <- lift (py_get msg "content" (JStr EmptyString)) ;;
              shout <- lift (py_upper role) ;;
              head <- lift (py_slice_to 200 content) ;;
              print [Lit nl; Lit "["; shout; Lit "]: "; Val head; Lit "..."])
       else
         print [Lit nl; Lit "No messages in history yet."])
      (fun e => print [Lit "Error retrieving history: "; Exc e]).

Definition show_session_summary : M St unit :=
  me <- getself ;;
  if negb (truthy (session_id me)) then ret tt
  else
    try_except
      (response <- session_get ;;
       raise_for_status response ;;
       session <- response_json response ;;
       print [Lit nl; Lit (rule "=")] ;;
       print [Lit "Session Summary:"] ;;
       print [Lit (rule "=")] ;;
       v <- lift (py_get session "id" (JStr "N/A")) ;;
       print [Lit "ID: "; Val v] ;;
       v <- lift (py_get session "title" (JStr "N/A")) ;;
       print [Lit "Title: "; Val v] ;;
       v <- lift (py_get session "created_at" (JStr "N/A")) ;;
       print [Lit "Created: "; Val v] ;;
       messages <- lift (py_get session "messages" (JArr [])) ;;
       n <- lift (py_len messages) ;;
       print [Lit "Messages: "; Val (num (Z.of_nat n))] ;;
       v <- lift (py_get session "input_tokens" (num 0)) ;;
       print [Lit "Input Tokens: "; Val v] ;;
       v <- lift (py_get session "output_tokens" (num 0)) ;;
       print [Lit "Output Tokens: "; Val v])
      (fun e =>
         when (verbose me) (print [Lit "Could not retrieve session summary: "; Exc e])).

Definition choice_prompt : string :=
  (nl ++ "1. Login" ++ nl ++ "2. Register new account" ++ nl ++ "3. Exit" ++ nl ++ nl ++
   "Choice (1-3): ")%string.

(** The [while True] loop of [authenticate]; a turn of the loop takes one
    unit of fuel. *)
Fixpoint choice_loop (fuel : nat) : M St (ended bool) :=
  match fuel with
  | O => ret OutOfFuel
  | S fuel' =>
      choice <- input choice_prompt ;;
      let choice := strip choice in
      if String.eqb choice "1" then
        logged_in <- login ;;
        if logged_in then ret (Ended true) else choice_loop fuel'
      else if String.eqb choice "2" then
        registered <- register ;;
        if registered then ret (Ended true) else choice_loop fuel'
      else if String.eqb choice "3" then
        ret (Ended false)
      else
        print [Lit "Invalid choice. Please enter 1, 2, or 3."] ;;
        choice_loop fuel'
  end.

(** The check of the saved token in [authenticate]: [Some b] when the
    method returns [b] from inside the [try]. *)
Definition validate_token : M St (option bool) :=
  me <- getself ;;
  if truthy (token me) then
    try_except
      (hs <- _headers ;;
       response <- http (mkRequest GET [Lit (api_url me); Lit "/api/auth/me"]
                           hs None (Some 5%Z) false) ;;
       if (status_code response =? 200)%Z then
         usr <- response_json response ;;
         set_user usr ;;
         email <- lift (py_get usr "email" JNull) ;;
         print [Lit "Authenticated as "; Val email] ;;
         ret (Some true)
       else
         print [Lit "Saved token is invalid, please login again"] ;;
         _clear_credentials ;;
         ret None)
      (fun _ => ret None)
  else ret None.

Definition authenticate (fuel : nat) : M St (ended bool) :=
  me <- getself ;;
  if negb (auth_enabled me) then ret (Ended true)
  else
    returned <- validate_token ;;
    match returned with
    | Some b => ret (Ended b)
    | None =>
        print [Lit nl; Lit (rule "=")] ;;
        print [Lit "Authentication Required"] ;;
        print [Lit (rule "=")] ;;
        choice_loop fuel
    end.

Definition you_prompt : string := (nl ++ "You: ")%string.

(** The [while True] loop of [interactive_chat]. *)
Fixpoint chat_loop (fuel : nat) : M St (ended unit) :=
  match fuel with
  | O => ret OutOfFuel
  | S fuel' =>
      me <- getself ;;
      broke <-
        try_except
          (user_input <- input you_prompt ;;
           let user_input := strip user_input in
           if String.eqb user_input EmptyString then ret false
           else if String.eqb (lower user_input) "/exit" then
             print [Lit nl; Lit "Goodbye!"] ;;
             ret true
           else if String.eqb (lower user_input) "/history" then
             get_session_history ;;
             ret false
           else if String.eqb (lower user_input) "/summary" then
             show_session_summary ;;
             ret false
           else if String.eqb (lower user_input) "/logout" then
             _clear_credentials ;;
             print [Lit "Logged out and credentials cleared"] ;;
             ret true
           else
             print_end [Lit nl; Lit "Agent: "] EmptyString ;;
             send_message user_input true ;;
             ret false)
          (fun e =>
             print [Lit nl; Lit "Error: "; Exc e] ;;
             when (verbose me) (print [Lit "Traceback (most recent call last):"; Exc e]) ;;
             ret false) ;;
      if broke then ret (Ended tt) else chat_loop fuel'
  end.

(** [initial_prompt] is [None] or a string. *)
Definition interactive_chat (initial_prompt : option string) (fuel : nat)
  : M St (ended unit) :=
  me <- getself ;;
  print [Lit nl; Lit (rule "=")] ;;
  print [Lit "Chat with "; Lit (agent_yaml me)] ;;
  (if auth_enabled me && truthy (user me) then
     email <- lift (py_get (user me) "email" (JStr "Unknown")) ;;
     print [Lit "User: "; Val email]
   else ret tt) ;;
  print [Lit (rule "=")] ;;
  print [Lit nl; Lit "Commands:"] ;;
  print [Lit "  /exit    - Exit the chat"] ;;
  print [Lit "  /history - Show session history"] ;;
  print [Lit "  /summary - Show session summary"] ;;
  print [Lit "  /logout  - Logout and clear credentials"] ;;
  print [Lit nl; Lit (rule "=")] ;;
  (match initial_prompt with
   | Some prompt =>
       if negb (String.eqb prompt EmptyString) then
         print [Lit nl; Lit "You: "; Lit prompt] ;;
         print_end [Lit nl; Lit "Agent: "] EmptyString ;;
         send_message prompt true ;;
         print [Lit nl; Lit (rule "=")]
       else ret tt
   | None => ret tt
   end) ;;
  chat_loop fuel.
End Methods.

(** The agent name [main] hands to the client (lines 694-697). *)
Definition main_agent_yaml (agent : string) : string :=
  if negb (endswith agent ".yaml") && negb (endswith agent ".yml")
  then (agent ++ ".yaml")%string
  else agent.
(** The parsed command line of [main]. *)
Record Args : Type := mkArgs {
  prog : string;
  agent : option string;
  prompt : option string;
  url : string;
  arg_verbose : bool;
  arg_timeout : Z;
  no_auth : bool;
  logout : bool;
  arg_register : bool
}.

Section Main.
Variable json_loads : string -> option json.

(** [chat = AuthAgentChat(...)] and the code that uses [chat]. *)
Definition with_chat {A} (api_url agent_yaml : string) (verbose : bool) (timeout : Z)
    (k : M St A) : M World A :=
  fun w =>
    match __init__ api_url agent_yaml verbose timeout w with
    | (Raise e, s) => (Raise e, world s)
    | (Ret _, s) => (fst (k s), world (snd (k s)))
    end.

(** [try: body  finally: cleanup], for a body run with fuel. *)
Definition try_finally (body : M St (ended unit)) (cleanup : M St unit)
  : M St (ended main_exit) :=
  fun s =>
    match body s with
    | (Ret OutOfFuel, s') => (Ret OutOfFuel, s')
    | (Ret (Ended _), s') =>
        match cleanup s' with
        | (Ret _, s'') => (Ret (Ended Return), s'')
        | (Raise e, s'') => (Raise e, s'')
        end
    | (Raise e, s') =>
        match cleanup s' with
        | (Ret _, s'') => (Raise e, s'')
        | (Raise e', s'') => (Raise e', s'')
        end
    end.

(** [main] once the client exists, in chat mode. *)
Definition chat_mode (args : Args) (fuel : nat) : M St (ended main_exit) :=
  me <- getself ;;
  authenticated <-
    (if negb (no_auth args) then
       if auth_enabled me then authenticate json_loads fuel
       else
         print [Lit "Authentication is not required for this server"] ;;
         ret (Ended true)
     else ret (Ended true)) ;;
  match authenticated with
  | OutOfFuel => ret OutOfFuel
  | Ended false =>
      print [Lit "Authentication failed. Exiting."] ;;
      ret (Ended Return)
  | Ended true =>
      found <- verify_agent json_loads ;;
      if negb found then ret (Ended Return)
      else
        created <- create_session json_loads None true ;;
        if negb created then ret (Ended Return)
        else
          try_finally (interactive_chat json_loads (prompt args) fuel)
            (show_session_summary json_loads)
  end.

(** [main] once the client exists, under [--register]. *)
Definition register_mode (args : Args) : M St (ended main_exit) :=
  me <- getself ;;
  if negb (auth_enabled me) then
    print [Lit nl; Lit "Authentication is disabled on this server."] ;;
    print [Lit "Registration is not needed - you can use the API directly."] ;;
    ret (Ended Return)
  else
    registered <- register json_loads ;;
    if registered then
      print [Lit nl; Lit (rule "=")] ;;
      print [Lit "Registration Complete!"] ;;
      print [Lit (rule "=")] ;;
      me <- getself ;;
      v <- lift (py_get (user me) "email" JNull) ;;
      print [Lit nl; Lit "You are now registered and logged in as "; Val v] ;;
      v <- lift (py_get (user me) "id" JNull) ;;
      print [Lit "   User ID: "; Val v] ;;
      v <- lift (py_get (user me) "name" JNull) ;;
      print [Lit "   Name: "; Val v] ;;
      print [Lit nl; Lit "Your credentials have been saved locally."] ;;
      print [Lit "You can now use any of the chat commands to interact with agents."] ;;
      print [Lit nl; Lit "Example:"] ;;
      print [Lit "  python3 "; Lit (prog args); Lit " pirate.yaml"] ;;
      ret (Ended Return)
    else
      print [Lit nl; Lit "Registration failed. Please try again."] ;;
      ret (Ended (SysExit 1)).

Definition main (args : Args) (fuel : nat) : M World (ended main_exit) :=
  if logout args then
    present <- creds_exists ;;
    (if present then
       creds_remove ;;
       print [Lit "Credentials cleared"]
     else print [Lit "No saved credentials found"]) ;;
    ret (Ended Return)
  else if arg_register args then
    print [Lit nl; Lit (rule "=")] ;;
    print [Lit "Cagent User Registration"] ;;
    print [Lit (rule "=")] ;;
    with_chat (url args) "dummy" (arg_verbose args) (arg_timeout args)
      (register_mode args)
  else
    match agent args with
    | Some name =>
        if negb (String.eqb name EmptyString) then
          with_chat (url args) (main_agent_yaml name) (arg_verbose args)
            (arg_timeout args) (chat_mode args fuel)
        else
          print [Lit (prog args);
                 Lit ": error: agent is required unless using --register or --logout"] ;;
          ret (Ended (SysExit 2))
    | None =>
        print [Lit (prog args);
               Lit ": error: agent is required unless using --register or --logout"] ;;
        ret (Ended (SysExit 2))
    end.
End Main.
End AuthAgentChat.

(** ** cagent_chat.py *)

Module CagentChatClient.

(** The class [Colors]; [main] blanks every code under [--no-color]. *)
Record Colors : Type := mkColors {
  BLUE : string; GREEN : string; YELLOW : string; RED : string;
  CYAN : string; RESET : string; BOLD : string; DIM : string
}.

Definition esc (code : string) : string :=
  String (ascii_of_nat 27) code.

Definition ansi : Colors :=
  mkColors (esc "[94m") (esc "[92m") (esc "[93m") (esc "[91m")
           (esc "[96m") (esc "[0m") (esc "[1m") (esc "[2m").

Definition no_color : Colors :=
  mkColors EmptyString EmptyString EmptyString EmptyString
           EmptyString EmptyString EmptyString EmptyString.

Definition API_URL : string :=
  "https://cagent-api-950783879036.us-central1.run.app".

Record Self : Type := mkSelf {
  agent_name : string;
  session_id : json;
  messages_history : list json
}.

Record St : Type := mkSt { self : Self; world : World; colors : Colors }.

#[global] Instance St_Stateful : Stateful St :=
  {| world_of := world; with_world := fun w s => mkSt (self s) w (colors s) |}.

Definition getself : M St Self := fun s => (Ret (self s), s).
Definition getcolors : M St Colors := fun s => (Ret (colors s), s).

(** [self.messages_history.append(m)]. *)
Definition history_append (m : json) : M St unit :=
  fun s =>
    let me := self s in
    (Ret tt, mkSt (mkSelf (agent_name me) (session_id me) (messages_history me ++ [m]))
               (world s) (colors s)).

Definition __init__ (agent_name : string) : Self :=
  mkSelf (replace agent_name ".yaml" EmptyString) JNull [].

(** [agent['name'].replace('.yaml', '')]. *)
Definition stripped_name (agent : json) : res string :=
  match py_item agent "name" with
  | Ret (JStr s) => Ret (replace s ".yaml" EmptyString)
  | Ret _ => Raise AttributeError
  | Raise e => Raise e
  end.

(** A list comprehension. *)
Fixpoint comprehension {A} (f : json -> res A) (items : list json) : res (list A) :=
  match items with
  | [] => Ret []
  | x :: rest =>
      match f x with
      | Raise e => Raise e
      | Ret a =>
          match comprehension f rest with
          | Raise e => Raise e
          | Ret l => Ret (a :: l)
          end
      end
  end.

(** The erasing of the "Thinking..." indicator. *)
Definition clear_indicator : M St unit :=
  print_end [Lit (cr ++ times 20 " " ++ cr)%string] EmptyString.

Section Methods.
Variable json_loads : string -> option json.

Definition response_json (r : response) : M St json :=
  match json_loads (content r) with
  | Some v => ret v
  | None => raise InvalidJSONError
  end.

Definition get_available_agents : M St json :=
  try_except
    (response <- http (mkRequest GET [Lit API_URL; Lit "/api/agents"]
                         [] None None false) ;;
     raise_for_status response ;;
     response_json response)
    (fun e => if is_RequestException e then ret (JArr []) else raise e).

Definition verify_agent_exists : M St bool :=
  me <- getself ;;
  agents <- get_available_agents ;;
  items <- lift (py_iter agents) ;;
  agent_names <- lift (comprehension stripped_name items) ;;
  if existsb (String.eqb (agent_name me)) agent_names then ret true
  else
    names <- lift (comprehension (fun agent => py_item agent "name") items) ;;
    ret (existsb (fun v => is_str v (agent_name me ++ ".yaml")%string) names).

(** One chunk of [response.iter_lines()]: [None] when the method
    returns [None] from inside the loop, else the accumulators. *)
Definition handle_line (line : string)
    (full_response : list json) (token_usage : json)
  : M St (option (list json * json)) :=
  c <- getcolors ;;
  let same := ret (Some (full_response, token_usage)) in
  if negb (String.eqb line EmptyString) then
    if startswith line "data: " then
      let data_str := drop 6 line in
      if negb (String.eqb data_str EmptyString) && negb (String.eqb data_str " ") then
        try_except
          (data <- lift (match json_loads data_str with
                         | Some v => Ret v
                         | None => Raise JSONDecodeError
                         end) ;;
           event_type <- lift (py_get data "type" (JStr EmptyString)) ;;
           if is_str event_type "agent_choice" then
             when (match full_response with [] => true | _ => false end)
               clear_indicator ;;
             content <- lift (py_get data "content" (JStr EmptyString)) ;;
             ret (Some (full_response ++ [content], token_usage))
           else if is_str event_type "token_usage" then
             usage <- lift (py_get data "usage" (JObj [])) ;;
             ret (Some (full_response, usage))
           else if is_str event_type "error" then
             clear_indicator ;;
             message <- lift (py_get data "message" (JStr "Unknown error")) ;;
             error_msg <- lift (py_get data "error" message) ;;
             print [Lit (RED c); Lit "Error: "; Val error_msg; Lit (RESET c)] ;;
             ret None
           else same)
          (fun e =>
             match e with
             | JSONDecodeError => same
             | _ => raise e
             end)
      else same
    else same
  else same.

(** [for chunk in response.iter_lines()]: after the last line that
    arrives the iterator ends, or raises [cut]. *)
Fixpoint lines_loop (cut : option exn) (chunks : list string)
    (full_response : list json) (token_usage : json)
  : M St (option (list json * json)) :=
  match chunks with
  | [] =>
      match cut with
      | None => ret (Some (full_response, token_usage))
      | Some e => raise e
      end
  | line :: rest =>
      r <- handle_line line full_response token_usage ;;
      match r with
      | None => ret None
      | Some acc => lines_loop cut rest (fst acc) (snd acc)
      end
  end.

Definition send_message (message : string) : M St (option string) :=
  me <- getself ;;
  c <- getcolors ;;
  if negb (truthy (session_id me)) then
    print [Lit (RED c); Lit "No active session"; Lit (RESET c)] ;;
    ret None
  else
    try_except
      (history_append (JObj [("role", JStr "user"); ("content", JStr message)]) ;;
       response <- http (mkRequest POST
                           [Lit API_URL; Lit "/api/sessions/"; Val (session_id me);
                            Lit "/agent/"; Lit (agent_name me)]
                           [] (Some (JArr [JObj [("content", JStr message)]]))
                           None true) ;;
       raise_for_status response ;;
       print_end [Lit (DIM c); Lit "Thinking..."; Lit (RESET c)] EmptyString ;;
       r <- lines_loop (cut response) (lines response) [] JNull ;;
       match r with
       | None => ret None
       | Some acc =>
           let token_usage := snd acc in
           clear_indicator ;;
           complete_response <- lift (join (fst acc)) ;;
           if negb (String.eqb complete_response EmptyString) then
             history_append (JObj [("role", JStr "assistant");
                                   ("content", JStr complete_response)]) ;;
             (if truthy token_usage then
                cost <- lift (py_get token_usage "cost" (num 0)) ;;
                positive <- lift (py_gt0 cost) ;;
                if positive then
                  input_tokens <- lift (py_get token_usage "input_tokens" (num 0)) ;;
                  output_tokens <- lift (py_get token_usage "output_tokens" (num 0)) ;;
                  print [Lit (DIM c); Lit "[Tokens: in="; Val input_tokens;
                         Lit ", out="; Val output_tokens;
                         Lit ", cost=$"; Fixed6 cost; Lit "]"; Lit (RESET c)]
                else ret tt
              else ret tt) ;;
             ret (Some complete_response)
           else ret None
       end)
      (fun e =>
         if is_RequestException e then
           print [Lit (RED c); Lit "Error sending message: "; Exc e; Lit (RESET c)] ;;
           ret None
         else raise e).
Definition set_session_id (v : json) : M St unit :=
  fun s =>
    let me := self s in
    (Ret tt, mkSt (mkSelf (agent_name me) v (messages_history me)) (world s) (colors s)).

Definition create_session : M St bool :=
  me <- getself ;;
  c <- getcolors ;;
  try_except
    (response <- http (mkRequest POST [Lit API_URL; Lit "/api/sessions"] []
                         (Some (JObj [("title", JStr ("Chat with " ++ agent_name me))]))
                         None false) ;;
     raise_for_status response ;;
     session_data <- response_json response ;;
     sid <- lift (py_item session_data "id") ;;
     set_session_id sid ;;
     ret true)
    (fun e =>
       if is_RequestException e then
         print [Lit (RED c); Lit "Error creating session: "; Exc e; Lit (RESET c)] ;;
         ret false
       else raise e).

Definition dashes : string := times 60 "-".

(** The bullet that starts the lines of a listing, in UTF-8. *)
Definition bullet : string :=
  String (ascii_of_nat 226) (String (ascii_of_nat 128) (String (ascii_of_nat 162) EmptyString)).

Definition show_history : M St unit :=
  me <- getself ;;
  c <- getcolors ;;
  print [Lit nl; Lit (BOLD c); Lit "Chat History:"; Lit (RESET c)] ;;
  print [Lit dashes] ;;
  for_in (messages_history me)
    (fun msg =>
       role <- lift (py_item msg "role") ;;
       content <- lift (py_item msg "content") ;;
       if is_str role "user" then
         print [Lit (BLUE c); Lit "You:"; Lit (RESET c); Lit " "; Val content]
       else
         print [Lit (GREEN c); Lit (agent_name me); Lit ":"; Lit (RESET c); Lit " ";
                Val content]) ;;
  print [Lit dashes].

Definition show_summary : M St unit :=
  me <- getself ;;
  c <- getcolors ;;
  if truthy (session_id me) then
    try_except
      (response <- http (mkRequest GET [Lit API_URL; Lit "/api/sessions/";
                                        Val (session_id me)] [] None None false) ;;
       if (status_code response =? 200)%Z then
         info <- response_json response ;;
         print [Lit nl; Lit (BOLD c); Lit "Session Summary:"; Lit (RESET c)] ;;
         print [Lit "  "; Lit bullet; Lit " Messages exchanged: ";
                Val (num (Z.of_nat (List.length (messages_history me))))] ;;
         v <- lift (py_get info "input_tokens" (num 0)) ;;
         print [Lit "  "; Lit bullet; Lit " Input tokens: "; Val v] ;;
         v <- lift (py_get info "output_tokens" (num 0)) ;;
         print [Lit "  "; Lit bullet; Lit " Output tokens: "; Val v] ;;
         title <- lift (py_get info "title" JNull) ;;
         if truthy title then
           title <- lift (py_item info "title") ;;
           print [Lit "  "; Lit bullet; Lit " Title: "; Val title]
         else ret tt
       else ret tt)
      (fun _ => ret tt)
  else ret tt.

Definition you_prompt (c : Colors) : string :=
  (nl ++ BOLD c ++ BLUE c ++ "You:" ++ RESET c ++ " ")%string.

Definition is_quit (user_input : string) : bool :=
  String.eqb (lower user_input) "quit" || String.eqb (lower user_input) "exit" ||
  String.eqb (lower user_input) "q".

(** The [while True] loop of [run_chat]; it is left by a [break] at the
    end of the input or at a quit command, or by an exception. *)
Fixpoint chat_loop (fuel : nat) : M St (ended unit) :=
  match fuel with
  | O => ret OutOfFuel
  | S fuel' =>
      me <- getself ;;
      c <- getcolors ;;
      line <- try_except
                (user_input <- input (you_prompt c) ;; ret (Some user_input))
                (fun e => match e with EOFError => ret None | _ => raise e end) ;;
      match line with
      | None => ret (Ended tt)
      | Some user_input =>
          if is_quit user_input then ret (Ended tt)
          else if String.eqb (lower user_input) "clear" then
            print [Lit (esc "[2J"); Lit (esc "[H")] ;;
            print [Lit (BOLD c); Lit "Chat with "; Lit (agent_name me); Lit (RESET c)] ;;
            print [Lit dashes] ;;
            chat_loop fuel'
          else if String.eqb (lower user_input) "history" then
            show_history ;;
            chat_loop fuel'
          else if String.eqb (strip user_input) EmptyString then
            chat_loop fuel'
          else
            response <- send_message user_input ;;
            (match response with
             | Some text =>
                 print [Lit nl; Lit (BOLD c); Lit (GREEN c); Lit (agent_name me);
                        Lit ":"; Lit (RESET c); Lit " "; Lit text]
             | None =>
                 print [Lit (YELLOW c); Lit "No response received"; Lit (RESET c)]
             end) ;;
            chat_loop fuel'
      end
  end.

(** The listing of the catalog when the agent was not found. *)
Definition list_agents (agents : json) : M St unit :=
  items <- lift (py_iter agents) ;;
  for_in items
    (fun agent =>
       name <- lift (py_item agent "name") ;;
       description <- lift (py_item agent "description") ;;
       print [Lit "  "; Lit bullet; Lit " "; Val name; Lit ": "; Val description]).

Definition run_chat (fuel : nat) : M St (ended unit) :=
  me <- getself ;;
  c <- getcolors ;;
  print [Lit (CYAN c); Lit "Checking agent availability..."; Lit (RESET c)] ;;
  found <- verify_agent_exists ;;
  if negb found then
    print [Lit (RED c); Lit "Agent '"; Lit (agent_name me); Lit "' not found!";
           Lit (RESET c)] ;;
    print [Lit (YELLOW c); Lit "Available agents:"; Lit (RESET c)] ;;
    agents <- get_available_agents ;;
    list_agents agents ;;
    ret (Ended tt)
  else
    print [Lit (CYAN c); Lit "Starting chat session with "; Lit (agent_name me);
           Lit "..."; Lit (RESET c)] ;;
    created <- create_session ;;
    if negb created then
      print [Lit (RED c); Lit "Failed to create session"; Lit (RESET c)] ;;
      ret (Ended tt)
    else
      me <- getself ;;
      print [Lit (GREEN c); Lit "Session created: "; Val (session_id me); Lit (RESET c)] ;;
      print [Lit nl; Lit (BOLD c); Lit "Chat with "; Lit (agent_name me); Lit (RESET c)] ;;
      print [Lit (DIM c); Lit "Type 'quit', 'exit', or press Ctrl+C to end the chat";
             Lit (RESET c)] ;;
      print [Lit (DIM c); Lit "Type 'clear' to clear the screen"; Lit (RESET c)] ;;
      print [Lit (DIM c); Lit "Type 'history' to see message history"; Lit (RESET c)] ;;
      print [Lit dashes] ;;
      r <- chat_loop fuel ;;
      match r with
      | OutOfFuel => ret OutOfFuel
      | Ended _ =>
          print [Lit nl; Lit (CYAN c); Lit "Chat session ended"; Lit (RESET c)] ;;
          show_summary ;;
          ret (Ended tt)
      end.
End Methods.

(** The parsed command line of [main]. *)
Record Args : Type := mkArgs {
  prog : string;
  agent : option string;
  arg_list : bool;
  arg_no_color : bool
}.

Section Main.
Variable json_loads : string -> option json.

(** The listing of [main] under [--list] or without an agent. *)
Definition list_mode (args : Args) (c : Colors) : M World unit :=
  print [Lit (BOLD c); Lit "Available agents on cagent API:"; Lit (RESET c)] ;;
  try_except
    (response <- http (mkRequest GET [Lit API_URL; Lit "/api/agents"] [] None None false) ;;
     raise_for_status response ;;
     agents <- (match json_loads (content response) with
                | Some v => ret v
                | None => raise InvalidJSONError
                end) ;;
     items <- lift (py_iter agents) ;;
     for_in items
       (fun agent =>
          name <- lift (py_item agent "name") ;;
          description <- lift (py_item agent "description") ;;
          print [Lit "  "; Lit bullet; Lit " "; Lit (CYAN c); Val name; Lit (RESET c);
                 Lit ": "; Val description]) ;;
     print [Lit nl; Lit (DIM c); Lit "Usage: "; Lit (prog args); Lit " <agent_name>";
            Lit (RESET c)])
    (fun e =>
       if is_RequestException e then
         print [Lit (RED c); Lit "Error fetching agents: "; Exc e; Lit (RESET c)]
       else raise e).

Definition main (args : Args) (fuel : nat) : M World (ended unit) :=
  let c := if arg_no_color args then no_color else ansi in
  match (if arg_list args then None else agent args) with
  | Some name =>
      if negb (String.eqb name EmptyString) then
        fun w =>
          let r := run_chat json_loads fuel (mkSt (__init__ name) w c) in
          (fst r, world (snd r))
      else list_mode args c ;; ret (Ended tt)
  | None => list_mode args c ;; ret (Ended tt)
  end.
End Main.
End CagentChatClient.

(** ** Vocabulary of the statements *)

(** The entry the credentials store holds for a server URL. *)
Definition stored (k : string) (f : option file) : option json :=
  match f with
  | Some (Doc (JObj d)) => Dict.get k d
  | _ => None
  end.

(** The credentials file after the entry of a server URL has been
    deleted from the object it holds; any other file is left alone. *)
Definition cleared (k : string) (f : option file) : option file :=
  match f with
  | Some (Doc (JObj d)) => Some (Doc (JObj (Dict.del k d)))
  | _ => f
  end.

(** The client after [self.token = None; self.user = None]. *)
Definition logged_out (me : AuthAgentChat.Self) : AuthAgentChat.Self :=
  AuthAgentChat.mkSelf (AuthAgentChat.api_url me) (AuthAgentChat.agent_yaml me)
    (AuthAgentChat.verbose me) (AuthAgentChat.timeout me)
    (AuthAgentChat.session_id me) JNull JNull (AuthAgentChat.auth_enabled me).

(** The store is usable: no file yet, or a file that holds an object. *)
Definition store_ok (f : option file) : Prop :=
  f = None \/ exists d, f = Some (Doc (JObj d)).

(** The exception one attempt of a request ends with, if any: the one
    [requests] raises, or the [HTTPError] of [raise_for_status]. *)
Definition raised_by (r : reply) : option exn :=
  match r with
  | Fails e => Some e
  | Responds resp => if ok resp then None else Some (HTTPError (status_code resp))
  end.

(** The unauthenticated probe of [_check_auth_enabled]. *)
Definition probe_request (api : string) : request :=
  mkRequest GET [Lit api; Lit "/api/sessions"] [] None (Some 5%Z) false.

(** The console before [register] decides on the two passwords. *)
Definition register_prompts : list out :=
  [Print [Lit (nl ++ "=== User Registration ===")%string] nl;
   Prompt "Email: "; Prompt "Name: "; Prompt "Password: ";
   Prompt "Confirm Password: "].

(** The headers [_headers] builds from the token. *)
Definition auth_headers (tok : json) : list (string * text) :=
  [("Content-Type", [Lit "application/json"])] ++
  (if truthy tok then [("Authorization", [Lit "Bearer "; Val tok])] else []).

(** The request of [verify_agent]. *)
Definition agents_request (me : AuthAgentChat.Self) : request :=
  mkRequest GET [Lit (AuthAgentChat.api_url me); Lit "/api/agents"]
    (auth_headers (AuthAgentChat.token me)) None (Some 10%Z) false.


(** The request of [get_available_agents]. *)
Definition catalog_request : request :=
  mkRequest GET [Lit CagentChatClient.API_URL; Lit "/api/agents"] [] None None false.

(** The request one attempt of [send_message] issues. *)
Definition send_request (me : AuthAgentChat.Self) (payload : json) : request :=
  mkRequest POST
    [Lit (AuthAgentChat.api_url me); Lit "/api/sessions/";
     Val (AuthAgentChat.session_id me); Lit "/agent/";
     Lit (AuthAgentChat.agent_yaml me)]
    (auth_headers (AuthAgentChat.token me)) (Some payload)
    (Some (AuthAgentChat.timeout me)) true.

Definition user_payload (message : string) : json :=
  JArr [JObj [("role", JStr "user"); ("content", JStr message)]].

(** The answer to the attempt number [i] (from 0) when every attempt
    sends [rq]. *)
Definition answer_at (w : World) (rq : request) (i : nat) : reply :=
  net w (sent w ++ repeat rq (S i)).

Definition retry_notice (retry_count : nat) : out :=
  Print [Lit nl; Lit "Request timed out. Retrying... (";
         Val (num (Z.of_nat retry_count)); Lit "/";
         Val (num (Z.of_nat AuthAgentChat.max_retries)); Lit ")"] nl.

Definition auth_expired_notice : out :=
  Print [Lit "Authentication expired. Please restart the chat."] nl.

(** The world after an attempt that sent [rq] and printed [o]. *)
Definition after_attempt (rq : request) (o : list out) (w : World) : World :=
  set_stdout (stdout w ++ o) (set_sent (sent w ++ [rq]) w).

(** The decoded events the dispatcher tells apart. *)
Inductive event : Type :=
| AgentChoice (content : json)
| TokenUsage (usage : json)
| ErrorEvent
| OtherEvent
| NotAnObject
| Unparsable.

Definition dict_get_default (k : string) (d : Dict.t) (default : json) : json :=
  match Dict.get k d with Some v => v | None => default end.

(** The event a payload decodes to. *)
Definition decode (payload : option json) : event :=
  match payload with
  | None => Unparsable
  | Some (JObj d) =>
      let event_type := dict_get_default "type" d (JStr EmptyString) in
      if is_str event_type "agent_choice" then
        AgentChoice (dict_get_default "content" d (JStr EmptyString))
      else if is_str event_type "token_usage" then
        TokenUsage (dict_get_default "usage" d (JObj []))
      else if is_str event_type "error" then ErrorEvent
      else OtherEvent
  | Some _ => NotAnObject
  end.

(** The accumulators of [AuthAgentChat.send_message] after one event. *)
Definition dispatch (e : event) (acc : list json * json)
  : AuthAgentChat.ctl * (list json * json) :=
  match e with
  | AgentChoice content =>
      (AuthAgentChat.Continue,
       (if truthy content then fst acc ++ [content] else fst acc, snd acc))
  | TokenUsage usage => (AuthAgentChat.Continue, (fst acc, usage))
  | ErrorEvent => (AuthAgentChat.Break, acc)
  | _ => (AuthAgentChat.Continue, acc)
  end.

(** The accumulators after a whole stream: the events are dispatched in
    order until an error event stops the loop. *)
Fixpoint dispatch_all (evs : list event) (acc : list json * json)
  : list json * json :=
  match evs with
  | [] => acc
  | e :: rest =>
      match fst (dispatch e acc) with
      | AuthAgentChat.Break => snd (dispatch e acc)
      | AuthAgentChat.Continue => dispatch_all rest (snd (dispatch e acc))
      end
  end.

Definition decode_all (json_loads : string -> option json) (evs : list string)
  : list event :=
  map (fun event_data => decode (json_loads event_data)) evs.

(** The events the dispatcher consumes: those before the first error
    event. *)
Fixpoint consumed (evs : list event) : list event :=
  match evs with
  | [] => []
  | ErrorEvent :: _ => []
  | e :: rest => e :: consumed rest
  end.

(** The content fields of the agent_choice events, in arrival order. *)
Definition text_parts (evs : list event) : list json :=
  flat_map (fun e => match e with AgentChoice content => [content] | _ => [] end) evs.

(** The usage field of the last token_usage event. *)
Fixpoint last_usage (evs : list event) : option json :=
  match evs with
  | [] => None
  | e :: rest =>
      match last_usage rest with
      | Some usage => Some usage
      | None => match e with TokenUsage usage => Some usage | _ => None end
      end
  end.


Definition is_error (e : event) : bool :=
  match e with ErrorEvent => true | _ => false end.

(** The payload of a chunk of [iter_lines()], when it carries one. *)
Definition line_payload (line : string) : option string :=
  if negb (String.eqb line EmptyString) && startswith line "data: " &&
     negb (String.eqb (drop 6 line) EmptyString) &&
     negb (String.eqb (drop 6 line) " ")
  then Some (drop 6 line)
  else None.

Definition decode_lines (json_loads : string -> option json) (chunks : list string)
  : list event :=
  flat_map (fun line =>
              match line_payload line with
              | Some payload => [decode (json_loads payload)]
              | None => []
              end) chunks.

(** The accumulators of [CagentChatClient.send_message] after one event;
    [None] when the method returns [None] at an error event. *)
Definition dispatch_line (e : event) (acc : list json * json)
  : res (option (list json * json)) :=
  match e with
  | AgentChoice c => Ret (Some (fst acc ++ [c], snd acc))
  | TokenUsage usage => Ret (Some (fst acc, usage))
  | ErrorEvent => Ret None
  | NotAnObject => Raise AttributeError
  | _ => Ret (Some acc)
  end.

(** The accumulators after the lines of a stream that ends, or is cut
    by [cut]. *)
Fixpoint dispatch_lines (cut : option exn) (evs : list event) (acc : list json * json)
  : res (option (list json * json)) :=
  match evs with
  | [] =>
      match cut with
      | None => Ret (Some acc)
      | Some e => Raise e
      end
  | e :: rest =>
      match dispatch_line e acc with
      | Ret (Some acc') => dispatch_lines cut rest acc'
      | r => r
      end
  end.

(** How the loop of [AuthAgentChat.send_message] is left with the
    result [a]: by the [break] of an error event, at the end of the
    stream, or by the exception that cuts the stream. *)
Definition stream_end {A : Type} (cut : option exn) (evs : list event) (a : A) : res A :=
  if existsb is_error evs then Ret a
  else
    match cut with
    | None => Ret a
    | Some e => Raise e
    end.


Definition is_dict (v : json) : bool :=
  match v with JObj _ => true | _ => false end.


(** A reading of a few payloads, for the examples: each text stands for
    the JSON text of the value it is mapped to, any other text is not
    JSON. *)
Definition sample_loads (s : string) : option json :=
  if String.eqb s "choice a" then
    Some (JObj [("type", JStr "agent_choice"); ("content", JStr "a")])
  else if String.eqb s "choice b" then
    Some (JObj [("type", JStr "agent_choice"); ("content", JStr "b")])
  else if String.eqb s "failure" then
    Some (JObj [("type", JStr "error"); ("message", JStr "overloaded")])
  else if String.eqb s "usage" then
    Some (JObj [("type", JStr "token_usage");
                ("usage", JObj [("total_tokens", num 7)])])
  else if String.eqb s "stopped" then
    Some (JObj [("type", JStr "stream_stopped")])
  else if String.eqb s "catalog" then
    Some (JArr [JObj [("name", JStr "pirate.yaml")]; JStr "haiku.yaml"])
  else None.

Definition sample_world : World :=
  mkWorld [] [] [] (fun _ => Fails ConnectionError) None "2025-01-01T00:00:00".

Definition sample_self : AuthAgentChat.Self :=
  AuthAgentChat.mkSelf "http://localhost:8080" "pirate" false 120 (JStr "s1")
    (JStr "t0") (JObj [("email", JStr "a@b.c")]) true.

Definition sample_state : AuthAgentChat.St :=
  AuthAgentChat.mkSt sample_self sample_world.


(** The client holds the same agent name in both states. *)
Definition same_agent (s s' : AuthAgentChat.St) : Prop :=
  AuthAgentChat.agent_yaml (AuthAgentChat.self s')
  = AuthAgentChat.agent_yaml (AuthAgentChat.self s).

(** A method that leaves [self.agent_yaml] as it is. *)
Definition keeps_name {A} (m : M AuthAgentChat.St A) : Prop :=
  forall s, AuthAgentChat.agent_yaml (AuthAgentChat.self (snd (m s)))
            = AuthAgentChat.agent_yaml (AuthAgentChat.self s).

(** The request of [CagentChatClient.send_message]. *)
Definition cagent_send_request (me : CagentChatClient.Self) (message : string) : request :=
  mkRequest POST
    [Lit CagentChatClient.API_URL; Lit "/api/sessions/";
     Val (CagentChatClient.session_id me); Lit "/agent/";
     Lit (CagentChatClient.agent_name me)]
    [] (Some (JArr [JObj [("content", JStr message)]])) None true.

Definition sample_cagent_state : CagentChatClient.St :=
  CagentChatClient.mkSt
    (CagentChatClient.mkSelf
       (CagentChatClient.agent_name (CagentChatClient.__init__ "pirate.yaml"))
       (JStr "s1") [])
    sample_world CagentChatClient.ansi.



(** An answer with status 304, which is neither 2xx nor an error for
    [raise_for_status], and a client whose server gives it. *)
Definition not_modified : response := mkResponse 304 EmptyString ["choice a"] [] None.

Definition not_modified_state : AuthAgentChat.St :=
  AuthAgentChat.mkSt sample_self
    (mkWorld [] [] [] (fun _ => Responds not_modified) None "2025-01-01T00:00:00").

(** C3 as the specification words it: an answer to the first attempt
    whose status is not 2xx ends [send_message] there, the retry loop
    being left by a [return]. *)
Definition aborts_on_non_2xx : Prop :=
  forall (message : string) (s : AuthAgentChat.St) (r : response),
    let me := AuthAgentChat.self s in
    let w := AuthAgentChat.world s in
    truthy (AuthAgentChat.session_id me) = true ->
    net w (sent w ++ [send_request me (user_payload message)]) = Responds r ->
    (status_code r < 200 \/ 300 <= status_code r)%Z ->
    fst (AuthAgentChat.retry_loop (user_payload message) AuthAgentChat.max_retries 0 s)
    = Ret AuthAgentChat.Returned.

(** The string of the given bytes, and a password of four characters
    of three bytes each (U+65E5 U+672C U+8A9E U+5B57): [len] counts 4,
    its encoding has 12 bytes. *)
Definition utf8 (bytes : list nat) : string :=
  fold_right (fun n s => String (ascii_of_nat n) s) EmptyString bytes.

Definition kanji_password : string :=
  utf8 [230; 151; 165; 230; 156; 172; 232; 170; 158; 229; 173; 151].

(** An email typed between a no-break space (U+00A0) and an
    ideographic space (U+3000) followed by a tab. *)
Definition padded_email : string :=
  (utf8 [194; 160] ++ "a@b.c" ++ utf8 [227; 128; 128; 9])%string.

Definition padded_login_state : AuthAgentChat.St :=
  AuthAgentChat.mkSt sample_self
    (set_stdin [padded_email; "secret"] sample_world).

Definition kanji_state : AuthAgentChat.St :=
  AuthAgentChat.mkSt sample_self
    (set_stdin ["a@b.c"; "Ann"; kanji_password; kanji_password] sample_world).




(** A server that answers every request with status 401. *)
Definition unauthorized : response := mkResponse 401 EmptyString [] [] None.

(** A console with the lines of a registration whose password has four
    characters, at a server that requires authentication. *)
Definition weak_signup_world : World :=
  mkWorld ["a@b.c"; "Ann"; kanji_password; kanji_password] [] []
    (fun _ => Responds unauthorized) None "2025-01-01T00:00:00".

Definition streamed : response :=
  mkResponse 200 EmptyString ["choice a"; "usage"] [] None.

(** The same stream, cut by a transport error after its two events. *)
Definition broken_stream : response :=
  mkResponse 200 EmptyString ["choice a"; "usage"] [] (Some ConnectionError).

Definition catalog_response : response := mkResponse 200 "catalog" [] [] None.

Definition other_entry : string * json :=
  ("http://other:9090", JObj [("token", JStr "t9"); ("user", JNull)]).

(** A client whose credentials file holds the login of another server
    only. *)
Definition other_server_state : AuthAgentChat.St :=
  AuthAgentChat.mkSt sample_self
    (mkWorld [] [] [] (fun _ => Fails ConnectionError)
       (Some (Doc (JObj [other_entry]))) "2025-01-01T00:00:00").

Definition stored_world (answer : list request -> reply) : World :=
  mkWorld ["a@b.c"; "Ann"; "secret"; "secret"] [] [] answer
    (Some (Doc (JObj [other_entry;
                      ("http://localhost:8080", JObj [("token", JStr "old")])])))
    "2025-01-01T00:00:00".

Definition unauthorized_state : AuthAgentChat.St :=
  AuthAgentChat.mkSt sample_self (stored_world (fun _ => Responds unauthorized)).

(** Two timeouts, then a response. *)
Definition third_time_lucky (log : list request) : reply :=
  match List.length log with
  | 1 | 2 => Fails Timeout
  | _ => Responds streamed
  end.

Definition flaky_state : AuthAgentChat.St :=
  AuthAgentChat.mkSt sample_self (stored_world third_time_lucky).


(** ** Vocabulary of the further properties *)

(** The request of [login]. *)
Definition login_request (api email password : string) : request :=
  mkRequest POST [Lit api; Lit "/api/auth/login"] []
    (Some (JObj [("email", JStr email); ("password", JStr password)]))
    (Some 10%Z) false.

(** The request of [register]. *)
Definition register_request (api email name password : string) : request :=
  mkRequest POST [Lit api; Lit "/api/auth/register"] []
    (Some (JObj [("email", JStr email); ("password", JStr password);
                 ("name", JStr name)]))
    (Some 10%Z) false.

(** The client after [self.token = tok; self.user = usr]. *)
Definition logged_in (tok usr : json) (me : AuthAgentChat.Self) : AuthAgentChat.Self :=
  AuthAgentChat.mkSelf (AuthAgentChat.api_url me) (AuthAgentChat.agent_yaml me)
    (AuthAgentChat.verbose me) (AuthAgentChat.timeout me)
    (AuthAgentChat.session_id me) tok usr (AuthAgentChat.auth_enabled me).

(** The entry [_save_credentials] writes for a client. *)
Definition entry_of (me : AuthAgentChat.Self) (saved_at : string) : json :=
  JObj [("token", AuthAgentChat.token me); ("user", AuthAgentChat.user me);
        ("saved_at", JStr saved_at)].


(** A reading of a few more payloads, for the examples. *)
Definition more_loads (s : string) : option json :=
  if String.eqb s "auth" then
    Some (JObj [("token", JStr "t1");
                ("user", JObj [("email", JStr "a@b.c"); ("name", JStr "Ann")])])
  else if String.eqb s "token only" then
    Some (JObj [("token", JStr "t1")])
  else if String.eqb s "session" then
    Some (JObj [("id", JStr "s7"); ("title", JStr "t")])
  else if String.eqb s "no id" then
    Some (JObj [("title", JStr "t")])
  else if String.eqb s "list" then
    Some (JArr [num 1])
  else sample_loads s.

Definition answered (body : string) : response := mkResponse 200 body [] [] None.

Definition refused : response := mkResponse 403 "auth" [] [] None.

(** A stream of [CagentChatClient] with a payload that is a list, and a
    client whose server answers with it. *)
Definition listy_stream : response :=
  mkResponse 200 EmptyString [] ["data: choice a"; "data: list"; "data: choice b"] None.

Definition listy_state : CagentChatClient.St :=
  CagentChatClient.mkSt (CagentChatClient.mkSelf "pirate" (JStr "s1") [])
    (mkWorld [] [] [] (fun _ => Responds listy_stream) None "2025-01-01T00:00:00")
    CagentChatClient.ansi.

(** A console with the lines of a registration, no file yet. *)
Definition signup_world (answer : list request -> reply) : World :=
  mkWorld [" a@b.c "; "Ann"; "longpassword"; "longpassword"] [] [] answer None
    "2025-01-01T00:00:00".

(** The entries [CagentChatClient.send_message] appends to the history. *)
Definition user_entry (message : string) : json :=
  JObj [("role", JStr "user"); ("content", JStr message)].

Definition assistant_entry (text : string) : json :=
  JObj [("role", JStr "assistant"); ("content", JStr text)].

Definition no_session_notice (c : CagentChatClient.Colors) : out :=
  Print [Lit (CagentChatClient.RED c); Lit "No active session";
         Lit (CagentChatClient.RESET c)] nl.

(** The events at which the loop of [CagentChatClient.send_message]
    stops: an error event, and a payload that is not an object. *)
Definition stops (e : event) : bool :=
  match e with ErrorEvent | NotAnObject => true | _ => false end.

(** The title [create_session] sends: the given one, or a default made
    of the agent and the minute on the clock. *)
Definition session_title (me : AuthAgentChat.Self) (w : World) (title : option string)
  : string :=
  let default :=
    ("Chat with " ++ AuthAgentChat.agent_yaml me ++ " - " ++
     substring 0 10 (clock w) ++ " " ++ substring 11 5 (clock w))%string in
  match title with
  | Some t => if String.eqb t EmptyString then default else t
  | None => default
  end.

(** The request of [create_session]. *)
Definition session_request (me : AuthAgentChat.Self) (title : string)
    (tools_approved : bool) : request :=
  mkRequest POST [Lit (AuthAgentChat.api_url me); Lit "/api/sessions"]
    (auth_headers (AuthAgentChat.token me))
    (Some (JObj [("title", JStr title); ("workingDir", JStr "/tmp");
                 ("tools_approved", JBool tools_approved)]))
    (Some 10%Z) false.

(** The session id an answer of the server carries: the [id] member of
    the JSON object of a response with a success status. *)
Definition session_id_of (json_loads : string -> option json) (answer : reply)
  : option json :=
  match answer with
  | Fails _ => None
  | Responds resp =>
      if ok resp then
        match json_loads (content resp) with
        | Some (JObj d) => Dict.get "id" d
        | _ => None
        end
      else None
  end.

(** The client after [self.session_id = sid]. *)
Definition with_session (sid : json) (me : AuthAgentChat.Self) : AuthAgentChat.Self :=
  AuthAgentChat.mkSelf (AuthAgentChat.api_url me) (AuthAgentChat.agent_yaml me)
    (AuthAgentChat.verbose me) (AuthAgentChat.timeout me)
    sid (AuthAgentChat.token me) (AuthAgentChat.user me) (AuthAgentChat.auth_enabled me).

(** A server that answers every request with a given body. *)
Definition always (body : string) (log : list request) : reply :=
  Responds (answered body).

(** A reading in which one body is a session whose id is null. *)
Definition null_id_loads (s : string) : option json :=
  if String.eqb s "null id" then Some (JObj [("id", JNull)]) else more_loads s.

(** The request of [CagentChatClient.create_session]. *)
Definition cagent_session_request (me : CagentChatClient.Self) : request :=
  mkRequest POST [Lit CagentChatClient.API_URL; Lit "/api/sessions"] []
    (Some (JObj [("title", JStr ("Chat with " ++ CagentChatClient.agent_name me))]))
    None false.

(** The client after [self.session_id = sid]. *)
Definition cagent_with_session (sid : json) (me : CagentChatClient.Self)
  : CagentChatClient.Self :=
  CagentChatClient.mkSelf (CagentChatClient.agent_name me) sid
    (CagentChatClient.messages_history me).

(** The request of [get_session_history] and [show_session_summary]. *)
Definition session_get_request (me : AuthAgentChat.Self) : request :=
  mkRequest GET
    [Lit (AuthAgentChat.api_url me); Lit "/api/sessions/"; Val (AuthAgentChat.session_id me)]
    (auth_headers (AuthAgentChat.token me)) None (Some 10%Z) false.

(** The requests a view of the session sends: one when there is a
    session, none otherwise. *)
Definition view_requests (me : AuthAgentChat.Self) : list request :=
  if truthy (AuthAgentChat.session_id me) then [session_get_request me] else [].

(** A method that only looks: it returns normally, and changes nothing
    but the console and the request log, to which it adds [rqs]. *)
Definition read_only (m : M AuthAgentChat.St unit) (rqs : AuthAgentChat.Self -> list request)
  : Prop :=
  forall s : AuthAgentChat.St,
    fst (m s) = Ret tt /\
    AuthAgentChat.self (snd (m s)) = AuthAgentChat.self s /\
    creds (AuthAgentChat.world (snd (m s))) = creds (AuthAgentChat.world s) /\
    stdin (AuthAgentChat.world (snd (m s))) = stdin (AuthAgentChat.world s) /\
    sent (AuthAgentChat.world (snd (m s)))
    = sent (AuthAgentChat.world s) ++ rqs (AuthAgentChat.self s).

(** ** Relations between the state before and after a method *)

(** [m] respects [R]: [R] relates every state to the one [m] leaves,
    whether [m] returns or raises. *)
Definition respects (R : AuthAgentChat.St -> AuthAgentChat.St -> Prop) {A : Type}
    (m : M AuthAgentChat.St A) : Prop :=
  forall s, R s (snd (m s)).

(** The relations that hold across the steps every method is made of:
    a step on the world that adds no console input, and an assignment
    of the token and the user. *)
Class Frame (R : AuthAgentChat.St -> AuthAgentChat.St -> Prop) : Prop := {
  frame_refl : forall s, R s s;
  frame_trans : forall a b c, R a b -> R b c -> R a c;
  frame_world :
    forall me w w',
      List.length (stdin w') <= List.length (stdin w) ->
      R (AuthAgentChat.mkSt me w) (AuthAgentChat.mkSt me w');
  frame_auth :
    forall me w tok usr,
      R (AuthAgentChat.mkSt me w) (AuthAgentChat.mkSt (logged_in tok usr me) w)
}.

(** The client differs at most in its token and user. *)
Definition only_credentials (s s' : AuthAgentChat.St) : Prop :=
  exists tok usr,
    AuthAgentChat.self s' = logged_in tok usr (AuthAgentChat.self s).

(** No line was added to the console input. *)
Definition input_shrinks (s s' : AuthAgentChat.St) : Prop :=
  List.length (stdin (AuthAgentChat.world s')) <= List.length (stdin (AuthAgentChat.world s)).

(** The console after the chat read one line and printed [said]. *)
Definition after_command (said : list out) (rest : list string) (w : World) : World :=
  set_stdout (stdout w ++ Prompt AuthAgentChat.you_prompt :: said) (set_stdin rest w).

(** A file with the saved login of two servers, and the line that logs out. *)
Definition logout_world : World :=
  mkWorld [" /LogOut "] [] [] (fun _ => Fails ConnectionError)
    (Some (Doc (JObj [other_entry;
                      ("http://localhost:8080", JObj [("token", JStr "t0")])])))
    "2025-01-01T00:00:00".

(** What [get_available_agents] makes of the answer to the catalog
    request: every failure of the request gives the empty list. *)
Definition catalog_of (json_loads : string -> option json) (answer : reply) : res json :=
  match answer with
  | Fails e => if is_RequestException e then Ret (JArr []) else Raise e
  | Responds resp =>
      if ok resp then
        match json_loads (content resp) with
        | Some agents => Ret agents
        | None => Ret (JArr [])
        end
      else Ret (JArr [])
  end.

(** The search of [verify_agent_exists] in a catalog. *)
Definition found_in (name : string) (agents : res json) : res bool :=
  match agents with
  | Raise e => Raise e
  | Ret agents =>
      match py_iter agents with
      | Raise e => Raise e
      | Ret items =>
          match CagentChatClient.comprehension CagentChatClient.stripped_name items with
          | Raise e => Raise e
          | Ret agent_names =>
              if existsb (String.eqb name) agent_names then Ret true
              else
                match CagentChatClient.comprehension
                        (fun agent => py_item agent "name") items with
                | Raise e => Raise e
                | Ret names =>
                    Ret (existsb (fun v => is_str v (name ++ ".yaml")%string) names)
                end
          end
      end
  end.

(** The command line [--logout], whatever else is given. *)
Definition logout_args (agent : option string) : AuthAgentChat.Args :=
  AuthAgentChat.mkArgs "AuthAgentChat.py" agent None "http://localhost:8080"
    false 120 false true false.

(** Whether [main] has no agent to chat with. *)
Definition no_agent (agent : option string) : Prop :=
  agent = None \/ agent = Some EmptyString.

(** What the probe of [_check_auth_enabled] concludes from its answer. *)
Definition probe_says (answer : reply) : bool :=
  match answer with
  | Responds resp => (status_code resp =? 401)%Z || (status_code resp =? 403)%Z
  | Fails _ => false
  end.

(** The command line [--register]. *)
Definition register_args (url : string) : AuthAgentChat.Args :=
  AuthAgentChat.mkArgs "AuthAgentChat.py" None None url false 120 false false true.

(** The request by which [authenticate] checks a saved token. *)
Definition me_request (me : AuthAgentChat.Self) : request :=
  mkRequest GET [Lit (AuthAgentChat.api_url me); Lit "/api/auth/me"]
    (auth_headers (AuthAgentChat.token me)) None (Some 5%Z) false.

(** The menu of [authenticate] answered with [choice]. *)
Definition menu_left (choice : string) (rest : list string) (w : World) : Prop :=
  stdin w = choice :: rest /\ strip choice = "3".

(** A console on which the menu is left at once. *)
Definition leaving_world (answer : list request -> reply) : World :=
  mkWorld [" 3 "] [] [] answer
    (Some (Doc (JObj [other_entry;
                      ("http://localhost:8080", JObj [("token", JStr "t0")])])))
    "2025-01-01T00:00:00".

(** ** test_cagent_sse.py *)

Module TestCagentSse.

(** [s.split('\n')]: the pieces between the line feeds, in order; the
    empty text has the one piece that is empty. *)
Fixpoint split_lines (s : string) : list string :=
  match s with
  | EmptyString => [EmptyString]
  | String c s' =>
      if Ascii.eqb c (ascii_of_nat 10) then EmptyString :: split_lines s'
      else
        match split_lines s' with
        | piece :: pieces => String c piece :: pieces
        | [] => [String c EmptyString]
        end
  end.

(** The generator [parse_sse_stream], as the list of what it yields. *)
Definition parse_sse_stream (json_loads : string -> option json) (response_text : string)
  : list json :=
  flat_map
    (fun line =>
       if startswith line "data: " then
         let data_str := drop 6 line in
         if negb (String.eqb data_str EmptyString) && negb (String.eqb data_str " ") then
           match json_loads data_str with
           | Some data => [data]
           | None => []
           end
         else []
       else [])
    (split_lines response_text).

End TestCagentSse.

(** A line as [response.iter_lines()] delivers it: [bytes.splitlines]
    cuts at every line feed and carriage return, so a chunk holds
    neither. *)
Fixpoint one_line (s : string) : bool :=
  match s with
  | EmptyString => true
  | String c s' =>
      negb (Ascii.eqb c (ascii_of_nat 10)) && negb (Ascii.eqb c (ascii_of_nat 13))
      && one_line s'
  end.

(** The lines of a stream put together the way the server sends them. *)
Fixpoint unlines (lines : list string) : string :=
  match lines with
  | [] => EmptyString
  | [line] => line
  | line :: rest => (line ++ nl ++ unlines rest)%string
  end.

(** The events of a decoded stream that carry a JSON value. *)
Definition parsed (e : event) : bool :=
  match e with Unparsable => false | _ => true end.

(** An entry [show_history] can print: a dict with a role and a content. *)
Definition chat_entry (m : json) : Prop :=
  exists role text, m = JObj [("role", JStr role); ("content", JStr text)].

Definition printable_history (me : CagentChatClient.Self) : Prop :=
  Forall chat_entry (CagentChatClient.messages_history me).

(** * Properties *)

Ltac run1 :=
  cbv beta iota zeta delta
    [bind ret raise lift when try_except print print_end http raise_for_status
     creds_exists creds_load creds_dump now_isoformat input
     world_of with_world set_stdin set_stdout set_sent set_creds
     stdin stdout sent net creds clock fst snd
     AuthAgentChat.St_Stateful AuthAgentChat.self AuthAgentChat.world
     AuthAgentChat.getself AuthAgentChat.set_token AuthAgentChat.set_user
     AuthAgentChat.set_auth_enabled AuthAgentChat.getpass
     AuthAgentChat.api_url AuthAgentChat.agent_yaml AuthAgentChat.verbose
     AuthAgentChat.timeout AuthAgentChat.session_id AuthAgentChat.token
     AuthAgentChat.user AuthAgentChat.auth_enabled
     CagentChatClient.St_Stateful CagentChatClient.self CagentChatClient.world
     CagentChatClient.colors CagentChatClient.getself CagentChatClient.getcolors
     CagentChatClient.history_append CagentChatClient.clear_indicator
     CagentChatClient.agent_name CagentChatClient.session_id
     CagentChatClient.messages_history].

Ltac run :=
  repeat (progress (run1; cbn [py_in py_get py_item py_setitem py_delitem orb andb negb])).

(** C6: the probe answers "auth required" exactly on status 401 or 403 of
    the unauthenticated GET of the sessions endpoint; status 200, any
    other status and any transport error give "not required", and the
    probe never raises. *)
Theorem check_auth_enabled_iff :
  forall (s : AuthAgentChat.St),
    let w := AuthAgentChat.world s in
    let rq := probe_request (AuthAgentChat.api_url (AuthAgentChat.self s)) in
    let answer := net w (sent w ++ [rq]) in
    exists b : bool,
      fst (AuthAgentChat._check_auth_enabled s) = Ret b /\
      sent (AuthAgentChat.world (snd (AuthAgentChat._check_auth_enabled s)))
        = sent w ++ [rq] /\
      meth rq = GET /\ headers rq = [] /\
      (b = true <->
       exists r, answer = Responds r /\
                 (status_code r = 401%Z \/ status_code r = 403%Z)) /\
      (b = false <->
       (exists e, answer = Fails e) \/
       (exists r, answer = Responds r /\
                  status_code r <> 401%Z /\ status_code r <> 403%Z)).
Proof.
  intros [[url ay vb tmo sid tok usr ae] [i o sn nt f ck]].
  unfold AuthAgentChat._check_auth_enabled, probe_request. run.
  destruct (nt _) as [e | r] eqn:Hnet.
  - exists false. destruct vb; run;
      (repeat split; try reflexivity; try discriminate;
       [ intros (r & Hr & _); discriminate | intros _; left; eauto ]).
  - destruct (Z.eqb_spec (status_code r) 401) as [H1 | H1];
      [| destruct (Z.eqb_spec (status_code r) 403) as [H3 | H3]]; cbn [orb].
    + exists true. destruct vb; run;
        (repeat split; try reflexivity; try discriminate; eauto;
         intros [(e & He) | (r' & Hr & N1 & N3)]; [discriminate | congruence]).
    + exists true. destruct vb; run;
        (repeat split; try reflexivity; try discriminate; eauto;
         intros [(e & He) | (r' & Hr & N1 & N3)]; [discriminate | congruence]).
    + exists false.
      destruct (Z.eqb_spec (status_code r) 200); destruct vb; run;
        (repeat split; try reflexivity; try discriminate;
         [ intros (r' & Hr & [A | A]); congruence
         | intros _; right; exists r; auto ]).
Qed.

(** *** Dictionaries *)

Lemma dict_get_set_same (k : string) (v : json) (d : Dict.t) :
  Dict.get k (Dict.set k v d) = Some v.
Proof.
  induction d as [| [k' v'] d IH]; cbn.
  - now rewrite String.eqb_refl.
  - destruct (String.eqb k' k) eqn:E; cbn.
    + now rewrite String.eqb_refl.
    + now rewrite E.
Qed.

Lemma dict_get_set_other (k k' : string) (v : json) (d : Dict.t) :
  k' <> k -> Dict.get k' (Dict.set k v d) = Dict.get k' d.
Proof.
  intros N. induction d as [| [k0 v0] d IH]; simpl.
  - destruct (String.eqb_spec k k'); [congruence | reflexivity].
  - destruct (String.eqb_spec k0 k) as [-> | N0]; simpl.
    + destruct (String.eqb_spec k k'); [congruence | reflexivity].
    + destruct (String.eqb_spec k0 k'); auto.
Qed.

Lemma dict_get_del_same (k : string) (d : Dict.t) :
  Dict.get k (Dict.del k d) = None.
Proof.
  induction d as [| [k' v'] d IH]; cbn; auto.
  destruct (String.eqb k' k) eqn:E; cbn; auto.
  now rewrite E.
Qed.

Lemma dict_get_del_other (k k' : string) (d : Dict.t) :
  k' <> k -> Dict.get k' (Dict.del k d) = Dict.get k' d.
Proof.
  intros N. induction d as [| [k0 v0] d IH]; simpl; auto.
  destruct (String.eqb_spec k0 k) as [-> | N0]; simpl.
  - destruct (String.eqb_spec k k'); [congruence | assumption].
  - destruct (String.eqb_spec k0 k'); auto.
Qed.

Lemma dict_has_key (k : string) (d : Dict.t) :
  existsb (fun k' => String.eqb k' k) (Dict.keys d) = false -> Dict.get k d = None.
Proof.
  induction d as [| [k' v'] d IH]; cbn; auto.
  destruct (String.eqb k' k); cbn; auto. discriminate.
Qed.

Lemma dict_key_of_set (k : string) (v : json) (d : Dict.t) :
  existsb (fun k' => String.eqb k' k) (Dict.keys (Dict.set k v d)) = true.
Proof.
  induction d as [| [k' v'] d IH]; cbn.
  - now rewrite String.eqb_refl.
  - destruct (String.eqb k' k) eqn:E; cbn.
    + now rewrite String.eqb_refl.
    + now rewrite E.
Qed.

(** *** The credentials store *)

Lemma dict_del_absent (k : string) (d : Dict.t) :
  existsb (fun k' => String.eqb k' k) (Dict.keys d) = false -> Dict.del k d = d.
Proof.
  unfold Dict.del. induction d as [| [k' v'] d IH]; cbn; auto.
  destruct (String.eqb k' k); cbn; [discriminate |].
  intros H. now rewrite IH.
Qed.

(** What [_clear_credentials] does to the client and to the file. *)
Lemma clear_credentials_result (s : AuthAgentChat.St) :
  AuthAgentChat._clear_credentials s
  = (Ret tt,
     AuthAgentChat.mkSt (logged_out (AuthAgentChat.self s))
       (set_creds (cleared (AuthAgentChat.api_url (AuthAgentChat.self s))
                     (creds (AuthAgentChat.world s)))
          (AuthAgentChat.world s))).
Proof.
  destruct s as [[url ay vb tmo sid tok usr ae] [i o sn nt f ck]].
  unfold AuthAgentChat._clear_credentials, logged_out, cleared.
  destruct f as [[| d] |]; [| destruct d as [| b | q | str | l | kvs] |]; run;
    try reflexivity.
  - destruct (str_contains _ _); run; reflexivity.
  - destruct (existsb _ l); run; reflexivity.
  - destruct (existsb _ (Dict.keys kvs)) eqn:E; run; [reflexivity |].
    now rewrite dict_del_absent.
Qed.

Lemma stored_cleared_same (k : string) (f : option file) :
  stored k (cleared k f) = None.
Proof.
  destruct f as [[| []] |]; cbn; auto using dict_get_del_same.
Qed.

Lemma stored_cleared_other (k k' : string) (f : option file) :
  k' <> k -> stored k' (cleared k f) = stored k' f.
Proof.
  intros N. destruct f as [[| []] |]; cbn; auto using dict_get_del_other.
Qed.

(** C10: clearing the credentials resets the token and the user held in
    memory, removes the entry of this server URL from the store and
    leaves the entry of every other server URL as it was. *)
Theorem clear_credentials_frame :
  forall (s : AuthAgentChat.St),
    let me := AuthAgentChat.self s in
    let r := AuthAgentChat._clear_credentials s in
    let me' := AuthAgentChat.self (snd r) in
    let f' := creds (AuthAgentChat.world (snd r)) in
    fst r = Ret tt /\
    AuthAgentChat.token me' = JNull /\
    AuthAgentChat.user me' = JNull /\
    stored (AuthAgentChat.api_url me) f' = None /\
    (forall k, k <> AuthAgentChat.api_url me ->
               stored k f' = stored k (creds (AuthAgentChat.world s))) /\
    AuthAgentChat.api_url me' = AuthAgentChat.api_url me /\
    AuthAgentChat.agent_yaml me' = AuthAgentChat.agent_yaml me /\
    AuthAgentChat.session_id me' = AuthAgentChat.session_id me.
Proof.
  intros s. cbv zeta. rewrite clear_credentials_result.
  destruct s as [me w]. destruct w as [i o sn nt f ck]. cbn.
  split; [reflexivity |]. split; [reflexivity |]. split; [reflexivity |].
  split; [apply stored_cleared_same |].
  split; [| repeat split; reflexivity].
  intros k N. now apply stored_cleared_other.
Qed.

(** What [_save_credentials] writes for the client. *)
Lemma save_credentials_writes (s : AuthAgentChat.St) (d : Dict.t) :
  let me := AuthAgentChat.self s in
  let w := AuthAgentChat.world s in
  creds w = None /\ d = [] \/ creds w = Some (Doc (JObj d)) ->
  exists o',
    AuthAgentChat._save_credentials s =
    (Ret tt,
     AuthAgentChat.mkSt me
       (set_stdout o'
          (set_creds
             (Some (Doc (JObj (Dict.set (AuthAgentChat.api_url me)
                                 (JObj [("token", AuthAgentChat.token me);
                                        ("user", AuthAgentChat.user me);
                                        ("saved_at", JStr (clock w))]) d)))) w))).
Proof.
  destruct s as [[url ay vb tmo sid tok usr ae] [i o sn nt f ck]]. cbn. intros H.
  unfold AuthAgentChat._save_credentials.
  destruct H as [[-> ->] | ->]; run; destruct vb; run; eexists; reflexivity.
Qed.

(** What [_load_credentials] reads when the store has an entry for the
    server URL of the client. *)
Lemma load_credentials_reads (s : AuthAgentChat.St) (d entry : Dict.t) :
  let me := AuthAgentChat.self s in
  let w := AuthAgentChat.world s in
  creds w = Some (Doc (JObj d)) ->
  Dict.get (AuthAgentChat.api_url me) d = Some (JObj entry) ->
  exists o',
    AuthAgentChat._load_credentials s =
    (Ret tt,
     AuthAgentChat.mkSt
       (AuthAgentChat.mkSelf (AuthAgentChat.api_url me) (AuthAgentChat.agent_yaml me)
          (AuthAgentChat.verbose me) (AuthAgentChat.timeout me)
          (AuthAgentChat.session_id me)
          (match Dict.get "token" entry with Some v => v | None => JNull end)
          (match Dict.get "user" entry with Some v => v | None => JNull end)
          (AuthAgentChat.auth_enabled me))
       (set_stdout o' w)).
Proof.
  destruct s as [[url ay vb tmo sid tok usr ae] [i o sn nt f ck]]. cbn. intros -> Hget.
  unfold AuthAgentChat._load_credentials.
  run.
  assert (Hin : existsb (fun k' => String.eqb k' url) (Dict.keys d) = true).
  { destruct (existsb _ (Dict.keys d)) eqn:E; auto.
    apply dict_has_key in E. congruence. }
  rewrite Hin, Hget. run.
  destruct vb; run; [| eexists; reflexivity].
  destruct (truthy _); run; [| eexists; reflexivity].
  destruct (match Dict.get "user" entry with Some v => v | None => JNull end);
    run; eexists; reflexivity.
Qed.

(** C9: after the credentials of a client have been saved, a load by a
    client of the same server URL gets the saved token and user, whatever
    entries the store holds for other server URLs (which the save leaves
    as they were). *)
Theorem save_load_roundtrip :
  forall (s : AuthAgentChat.St) (reader : AuthAgentChat.Self),
    store_ok (creds (AuthAgentChat.world s)) ->
    AuthAgentChat.api_url reader = AuthAgentChat.api_url (AuthAgentChat.self s) ->
    let me := AuthAgentChat.self s in
    let saved := AuthAgentChat._save_credentials s in
    let loaded :=
      AuthAgentChat._load_credentials
        (AuthAgentChat.mkSt reader (AuthAgentChat.world (snd saved))) in
    fst saved = Ret tt /\
    fst loaded = Ret tt /\
    AuthAgentChat.token (AuthAgentChat.self (snd loaded)) = AuthAgentChat.token me /\
    AuthAgentChat.user (AuthAgentChat.self (snd loaded)) = AuthAgentChat.user me /\
    (forall k, k <> AuthAgentChat.api_url me ->
               stored k (creds (AuthAgentChat.world (snd saved)))
               = stored k (creds (AuthAgentChat.world s))).
Proof.
  intros s reader Hok Hurl me saved loaded.
  assert (Hd : exists d, creds (AuthAgentChat.world s) = None /\ d = [] \/
                         creds (AuthAgentChat.world s) = Some (Doc (JObj d))).
  { destruct Hok as [H | [d H]]; [exists [] | exists d]; auto. }
  destruct Hd as (d & Hd).
  destruct (save_credentials_writes s d Hd) as (o1 & Hsave).
  subst loaded saved. rewrite Hsave. cbn [fst snd AuthAgentChat.world].
  match goal with
  | |- context [AuthAgentChat._load_credentials ?st] =>
      destruct (load_credentials_reads st
                  (Dict.set (AuthAgentChat.api_url me)
                     (JObj [("token", AuthAgentChat.token me);
                            ("user", AuthAgentChat.user me);
                            ("saved_at", JStr (clock (AuthAgentChat.world s)))]) d)
                  [("token", AuthAgentChat.token me);
                   ("user", AuthAgentChat.user me);
                   ("saved_at", JStr (clock (AuthAgentChat.world s)))])
        as (o2 & Hload);
      [ reflexivity
      | cbn; rewrite Hurl; apply dict_get_set_same
      | rewrite Hload ]
  end.
  cbn.
  repeat split; auto.
  intros k N. rewrite dict_get_set_other by exact N.
  destruct Hd as [[-> ->] | ->]; reflexivity.
Qed.

(** *** Registration *)

(** C5: [register] rejects two different passwords as a mismatch and a
    matching password of fewer than 8 characters as too weak; the
    mismatch test comes first, and in both cases no request is sent and
    nothing but the console changes. *)
Theorem register_validates_locally :
  forall (json_loads : string -> option json) (s : AuthAgentChat.St)
         (email name password confirm : string) (rest : list string),
    stdin (AuthAgentChat.world s) = email :: name :: password :: confirm :: rest ->
    let w := AuthAgentChat.world s in
    let r := AuthAgentChat.register json_loads s in
    let w' := AuthAgentChat.world (snd r) in
    (password <> confirm ->
     fst r = Ret false /\
     stdout w' = stdout w ++ register_prompts ++ [Print [Lit "Passwords do not match"] nl] /\
     sent w' = sent w /\ creds w' = creds w /\
     AuthAgentChat.self (snd r) = AuthAgentChat.self s) /\
    (password = confirm -> len_str password < 8 ->
     fst r = Ret false /\
     stdout w' = stdout w ++ register_prompts ++
                 [Print [Lit "Password must be at least 8 characters"] nl] /\
     sent w' = sent w /\ creds w' = creds w /\
     AuthAgentChat.self (snd r) = AuthAgentChat.self s).
Proof.
  intros loads [[url ay vb tmo sid tok usr ae] [i o sn nt f ck]]
    email name password confirm rest H.
  cbn in H. subst i.
  unfold AuthAgentChat.register. run. split.
  - intros N. apply String.eqb_neq in N. rewrite N. run.
    repeat rewrite <- app_assoc. repeat split; reflexivity.
  - intros -> Hlen. rewrite String.eqb_refl.
    apply Nat.ltb_lt in Hlen. rewrite Hlen. run.
    repeat rewrite <- app_assoc. repeat split; reflexivity.
Qed.

(** *** The agent catalog *)

Lemma existsb_is_str (x : string) (l : list json) :
  existsb (fun v => is_str v x) l = true <-> In (JStr x) l.
Proof.
  rewrite existsb_exists. split.
  - intros (v & Hin & Hv). destruct v; try discriminate.
    cbn in Hv. apply String.eqb_eq in Hv. now subst.
  - intros Hin. exists (JStr x). split; auto. cbn. apply String.eqb_refl.
Qed.

Lemma for_each_print (names : list json) :
  forall (me : AuthAgentChat.Self) (w : World),
    AuthAgentChat.for_each names (fun agent => print [Lit "  - "; Val agent])
      (AuthAgentChat.mkSt me w)
    = (Ret tt,
       AuthAgentChat.mkSt me
         (set_stdout (stdout w ++ map (fun agent => Print [Lit "  - "; Val agent] nl) names) w)).
Proof.
  induction names as [| a names IH]; intros me [i o sn nt f ck].
  - cbn. run. now rewrite app_nil_r.
  - cbn [AuthAgentChat.for_each map]. unfold bind at 1. run.
    rewrite IH. run. now rewrite <- app_assoc.
Qed.








(** *** Suffixes *)

Lemma substring_all (s : string) : substring 0 (String.length s) s = s.
Proof. induction s as [| c s IH]; cbn; [reflexivity | now rewrite IH]. Qed.

Lemma substring_skip_append (s t : string) (m : nat) :
  substring (String.length s) m (s ++ t)%string = substring 0 m t.
Proof. induction s as [| c s IH]; cbn; auto. Qed.

Lemma length_append (s t : string) :
  String.length (s ++ t)%string = String.length s + String.length t.
Proof. induction s as [| c s IH]; cbn; auto. Qed.

Lemma endswith_append (s suf : string) : endswith (s ++ suf)%string suf = true.
Proof.
  unfold endswith. rewrite length_append.
  replace (String.length s + String.length suf - String.length suf)
    with (String.length s) by lia.
  rewrite substring_skip_append, substring_all, String.eqb_refl.
  rewrite andb_true_r. apply Nat.leb_le. lia.
Qed.


(** *** The retry loop of [send_message] *)

Lemma exn_is_timeout (e : exn) : e = Timeout \/ e <> Timeout.
Proof. destruct e; auto; right; discriminate. Qed.

Lemma raised_by_timeout (a : reply) :
  raised_by a = Some Timeout <-> a = Fails Timeout.
Proof.
  destruct a as [e | r]; cbn.
  - split; congruence.
  - destruct (ok r); split; discriminate.
Qed.

Lemma retry_step_timeout (payload : json) (remaining' retry_count : nat)
    (me : AuthAgentChat.Self) (w : World) :
  net w (sent w ++ [send_request me payload]) = Fails Timeout ->
  S retry_count < AuthAgentChat.max_retries ->
  AuthAgentChat.retry_loop payload (S remaining') retry_count (AuthAgentChat.mkSt me w)
  = AuthAgentChat.retry_loop payload remaining' (S retry_count)
      (AuthAgentChat.mkSt me
         (after_attempt (send_request me payload) [retry_notice (S retry_count)] w)).
Proof.
  destruct me as [url ay vb tmo sid tok usr ae]. destruct w as [i o sn nt f ck].
  unfold send_request, auth_headers, after_attempt, retry_notice. run.
  intros Hnet Hlt. apply Nat.ltb_lt in Hlt.
  cbn [AuthAgentChat.retry_loop]. unfold AuthAgentChat._headers. run.
  rewrite Hnet. run. rewrite Hlt. run. reflexivity.
Qed.

Lemma retry_step_last_timeout (payload : json) (remaining' retry_count : nat)
    (me : AuthAgentChat.Self) (w : World) :
  net w (sent w ++ [send_request me payload]) = Fails Timeout ->
  AuthAgentChat.max_retries <= S retry_count ->
  exists o,
    AuthAgentChat.retry_loop payload (S remaining') retry_count (AuthAgentChat.mkSt me w)
    = (Ret AuthAgentChat.Returned,
       AuthAgentChat.mkSt me (after_attempt (send_request me payload) o w)).
Proof.
  destruct me as [url ay vb tmo sid tok usr ae]. destruct w as [i o sn nt f ck].
  unfold send_request, auth_headers, after_attempt. run.
  intros Hnet Hge. apply Nat.ltb_ge in Hge.
  cbn [AuthAgentChat.retry_loop]. unfold AuthAgentChat._headers. run.
  rewrite Hnet. run. rewrite Hge. run.
  eexists. rewrite <- app_assoc. reflexivity.
Qed.

Lemma retry_step_success (payload : json) (remaining' retry_count : nat)
    (me : AuthAgentChat.Self) (w : World) (r : response) :
  net w (sent w ++ [send_request me payload]) = Responds r ->
  ok r = true ->
  AuthAgentChat.retry_loop payload (S remaining') retry_count (AuthAgentChat.mkSt me w)
  = (Ret (AuthAgentChat.Broke r),
     AuthAgentChat.mkSt me (after_attempt (send_request me payload) [] w)).
Proof.
  destruct me as [url ay vb tmo sid tok usr ae]. destruct w as [i o sn nt f ck].
  unfold send_request, auth_headers, after_attempt. run.
  intros Hnet Hok.
  cbn [AuthAgentChat.retry_loop]. unfold AuthAgentChat._headers. run.
  rewrite Hnet. run. rewrite Hok. run. now rewrite app_nil_r.
Qed.

(** An attempt that ends with an exception other than a timeout: the
    method returns; on status 401 the credentials are cleared first. *)
Lemma retry_step_error (payload : json) (remaining' retry_count : nat)
    (me : AuthAgentChat.Self) (w : World) (e : exn) :
  raised_by (net w (sent w ++ [send_request me payload])) = Some e ->
  e <> Timeout ->
  AuthAgentChat.retry_loop payload (S remaining') retry_count (AuthAgentChat.mkSt me w)
  = match e with
    | HTTPError status =>
        if (status =? 401)%Z then
          (Ret AuthAgentChat.Returned,
           snd (AuthAgentChat._clear_credentials
                  (AuthAgentChat.mkSt me
                     (after_attempt (send_request me payload) [auth_expired_notice] w))))
        else
          (Ret AuthAgentChat.Returned,
           AuthAgentChat.mkSt me
             (after_attempt (send_request me payload)
                [Print [Lit "HTTP Error: "; Exc e] nl] w))
    | _ =>
        (Ret AuthAgentChat.Returned,
         AuthAgentChat.mkSt me
           (after_attempt (send_request me payload)
              [Print [Lit "Error sending message: "; Exc e] nl] w))
    end.
Proof.
  destruct me as [url ay vb tmo sid tok usr ae]. destruct w as [i o sn nt f ck].
  unfold send_request, auth_headers, after_attempt, auth_expired_notice. run.
  intros Hr Hne.
  cbn [AuthAgentChat.retry_loop]. unfold AuthAgentChat._headers. run.
  destruct (nt _) as [e' | r]; cbn in Hr.
  - injection Hr as ->. run.
    destruct e; try contradiction; run; try reflexivity.
    destruct (status =? 401)%Z; run; [| reflexivity].
    now rewrite clear_credentials_result.
  - destruct (ok r); [discriminate |]. injection Hr as <-. run.
    destruct (status_code r =? 401)%Z; run; [| reflexivity].
    now rewrite clear_credentials_result.
Qed.

Lemma clear_credentials_keeps_console (s : AuthAgentChat.St) :
  let w := AuthAgentChat.world s in
  let w' := AuthAgentChat.world (snd (AuthAgentChat._clear_credentials s)) in
  sent w' = sent w /\ stdout w' = stdout w /\ net w' = net w /\ stdin w' = stdin w.
Proof.
  cbv zeta. rewrite clear_credentials_result.
  destruct s as [me [i o sn nt f ck]]. repeat split; reflexivity.
Qed.

Lemma answer_at_after (rq : request) (o : list out) (w : World) (i : nat) :
  answer_at (after_attempt rq o w) rq i = answer_at w rq (S i).
Proof.
  destruct w as [sin so sn nt f ck]. unfold answer_at, after_attempt. cbn.
  now rewrite <- app_assoc.
Qed.

Lemma sent_after_error (me : AuthAgentChat.Self) (w : World) (rq : request) (e : exn)
    (o1 o2 : list out) :
  sent (AuthAgentChat.world
          (snd (match e with
                | HTTPError status =>
                    if (status =? 401)%Z then
                      (Ret AuthAgentChat.Returned,
                       snd (AuthAgentChat._clear_credentials
                              (AuthAgentChat.mkSt me
                                 (after_attempt rq [auth_expired_notice] w))))
                    else
                      (Ret AuthAgentChat.Returned,
                       AuthAgentChat.mkSt me (after_attempt rq o1 w))
                | _ =>
                    (Ret AuthAgentChat.Returned,
                     AuthAgentChat.mkSt me (after_attempt rq o2 w))
                end)))
  = sent w ++ [rq].
Proof.
  assert (H : forall o, sent (after_attempt rq o w) = sent w ++ [rq])
    by (intros; destruct w; reflexivity).
  destruct e; try apply H.
  destruct (status =? 401)%Z; [| apply H].
  destruct (clear_credentials_keeps_console
              (AuthAgentChat.mkSt me (after_attempt rq [auth_expired_notice] w)))
    as (Hs & _).
  cbn [snd]. rewrite Hs. apply H.
Qed.

(** The attempts of the retry loop: [n] requests, all the same; every
    attempt but the last one timed out; the last one decides how the
    loop is left. *)
Lemma retry_loop_attempts (payload : json) :
  forall (remaining retry_count : nat) (me : AuthAgentChat.Self) (w : World),
    retry_count + remaining = AuthAgentChat.max_retries ->
    let rq := send_request me payload in
    exists (n : nat) (exit : AuthAgentChat.loop_exit) (s' : AuthAgentChat.St),
      AuthAgentChat.retry_loop payload remaining retry_count (AuthAgentChat.mkSt me w)
      = (Ret exit, s') /\
      n <= remaining /\
      sent (AuthAgentChat.world s') = sent w ++ repeat rq n /\
      (forall i, S i < n -> answer_at w rq i = Fails Timeout) /\
      (remaining = 0 -> exit = AuthAgentChat.Exhausted) /\
      (0 < remaining ->
       exists last,
         n = S last /\
         match raised_by (answer_at w rq last) with
         | None => exists r, answer_at w rq last = Responds r /\ exit = AuthAgentChat.Broke r
         | Some Timeout => exit = AuthAgentChat.Returned /\ n = remaining
         | Some _ => exit = AuthAgentChat.Returned
         end).
Proof.
  induction remaining as [| remaining' IH]; intros retry_count me w Hsum rq.
  - exists 0, AuthAgentChat.Exhausted, (AuthAgentChat.mkSt me w).
    cbn. rewrite app_nil_r. repeat split; auto; lia.
  - destruct (raised_by (answer_at w rq 0)) as [e |] eqn:Hr.
    + destruct (exn_is_timeout e) as [-> | Hne].
      * apply raised_by_timeout in Hr.
        destruct (Nat.lt_ge_cases (S retry_count) AuthAgentChat.max_retries) as [Hlt | Hge].
        -- unfold answer_at in Hr. cbn [repeat] in Hr.
           rewrite (retry_step_timeout payload remaining' retry_count me w Hr Hlt).
           destruct (IH (S retry_count) me
                       (after_attempt rq [retry_notice (S retry_count)] w))
             as (n & exit & s' & Hrun & Hle & Hsent & Htime & _ & Hlast); [lia |].
           exists (S n), exit, s'. fold rq.
           split; [exact Hrun |]. split; [lia |]. split.
           { rewrite Hsent. destruct w; cbn. now rewrite <- app_assoc. }
           split.
           { intros [| i] Hi; [exact Hr |].
             rewrite <- (answer_at_after rq [retry_notice (S retry_count)]).
             apply Htime. lia. }
           split; [discriminate |]. intros _.
           destruct Hlast as (last & -> & Hm); [lia |].
           exists (S last). split; [reflexivity |].
           rewrite answer_at_after in Hm. fold rq in Hm.
           destruct (raised_by (answer_at w rq (S last))) as [[] |]; auto.
           destruct Hm as [-> ->]. auto.
        -- unfold answer_at in Hr. cbn [repeat] in Hr.
           destruct (retry_step_last_timeout payload remaining' retry_count me w Hr Hge)
             as (o & Hrun).
           exists 1, AuthAgentChat.Returned. eexists. split; [exact Hrun |].
           split; [lia |]. split; [destruct w; reflexivity |].
           split; [intros i Hi; lia |]. split; [discriminate |].
           intros _. exists 0. split; [reflexivity |].
           unfold answer_at. cbn [repeat]. rewrite Hr. cbn.
           split; [reflexivity |]. unfold AuthAgentChat.max_retries in *. lia.
      * pose proof (retry_step_error payload remaining' retry_count me w e Hr Hne) as Hrun.
        exists 1, AuthAgentChat.Returned. eexists. split.
        { rewrite Hrun. rewrite (surjective_pairing (match e with HTTPError _ => _ | _ => _ end)).
          f_equal. destruct e; try reflexivity. destruct (status =? 401)%Z; reflexivity. }
        split; [lia |]. split; [apply sent_after_error |].
        split; [intros i Hi; lia |]. split; [discriminate |].
        intros _. exists 0. split; [reflexivity |]. rewrite Hr.
        destruct e; auto. contradiction.
    + unfold answer_at in Hr. cbn [repeat] in Hr.
      destruct (net w (sent w ++ [rq])) as [e | r] eqn:Hnet; [discriminate |].
      cbn in Hr. destruct (ok r) eqn:Hok; [| discriminate].
      exists 1, (AuthAgentChat.Broke r). eexists. split.
      { apply retry_step_success; assumption. }
      split; [lia |]. split; [destruct w; reflexivity |].
      split; [intros i Hi; lia |]. split; [discriminate |].
      intros _. exists 0. split; [reflexivity |].
      unfold answer_at. cbn [repeat]. fold rq. rewrite Hnet. cbn. rewrite Hok. eauto.
Qed.

(** *** The event stream *)

Ltac crunch :=
  repeat (run;
          match goal with
          | |- context [if ?b then _ else _] =>
              lazymatch b with
              | context [match _ with _ => _ end] => fail
              | _ => destruct b eqn:?
              end
          | |- context [match ?x with _ => _ end] =>
              lazymatch x with
              | context [match _ with _ => _ end] => fail
              | _ => destruct x eqn:?
              end
          end).

Lemma handle_event_dispatch (json_loads : string -> option json)
    (show_progress : bool) (event_data : string)
    (full_response : list json) (token_usage : json)
    (me : AuthAgentChat.Self) (w : World) :
  exists o',
    AuthAgentChat.handle_event json_loads show_progress event_data
      full_response token_usage (AuthAgentChat.mkSt me w)
    = (Ret (dispatch (decode (json_loads event_data)) (full_response, token_usage)),
       AuthAgentChat.mkSt me (set_stdout o' w)).
Proof.
  destruct me as [url ay vb tmo sid tok usr ae]. destruct w as [i o sn nt f ck].
  unfold AuthAgentChat.handle_event, AuthAgentChat.tool_name_of, decode, dispatch,
    dict_get_default.
  run.
  destruct (json_loads event_data) as [[| b | q | str | l | d] |]; run;
    try (destruct vb; run; eexists; reflexivity).
  crunch; eexists; reflexivity.
Qed.

Lemma dispatch_break (e : event) (acc : list json * json) :
  fst (dispatch e acc)
  = if is_error e then AuthAgentChat.Break else AuthAgentChat.Continue.
Proof. destruct e; reflexivity. Qed.

Lemma events_loop_dispatch (json_loads : string -> option json) (show_progress : bool)
    (cut : option exn) (evs : list string) :
  forall (full_response : list json) (token_usage : json)
         (me : AuthAgentChat.Self) (w : World),
  exists o',
    AuthAgentChat.events_loop json_loads show_progress cut evs full_response token_usage
      (AuthAgentChat.mkSt me w)
    = (stream_end cut (decode_all json_loads evs)
         (dispatch_all (decode_all json_loads evs) (full_response, token_usage)),
       AuthAgentChat.mkSt me (set_stdout o' w)).
Proof.
  induction evs as [| ev evs IH]; intros fr tu me w.
  - exists (stdout w). destruct w; destruct cut; reflexivity.
  - cbn [AuthAgentChat.events_loop decode_all map dispatch_all].
    destruct (handle_event_dispatch json_loads show_progress ev fr tu me w) as (o1 & H1).
    unfold bind at 1. rewrite H1. unfold stream_end. cbn [existsb].
    rewrite dispatch_break.
    destruct (is_error (decode (json_loads ev))); cbn [orb].
    + exists o1. reflexivity.
    + destruct (dispatch (decode (json_loads ev)) (fr, tu)) as [c [fr' tu']].
      cbn [fst snd].
      destruct (IH fr' tu' me (set_stdout o1 w)) as (o2 & H2).
      exists o2. rewrite H2. destruct w; reflexivity.
Qed.


Lemma consumed_no_error (evs : list event) :
  existsb is_error evs = false -> consumed evs = evs.
Proof.
  induction evs as [| e evs IH]; cbn; auto.
  destruct e; cbn; try discriminate; intros H; now rewrite IH.
Qed.

Lemma consumed_skip (a b : list event) (e : event) :
  (e = Unparsable \/ e = OtherEvent \/ e = NotAnObject) ->
  text_parts (consumed (a ++ e :: b)) = text_parts (consumed (a ++ b)) /\
  last_usage (consumed (a ++ e :: b)) = last_usage (consumed (a ++ b)).
Proof.
  intros He. induction a as [| x a [IH1 IH2]].
  - destruct He as [-> | [-> | ->]]; cbn; destruct (last_usage (consumed b)); auto.
  - unfold text_parts in *.
    destruct x; cbn [app consumed flat_map last_usage];
      rewrite ?IH1, ?IH2; auto.
Qed.



Lemma handle_line_dispatch (json_loads : string -> option json) (line : string)
    (full_response : list json) (token_usage : json)
    (me : CagentChatClient.Self) (w : World) (c : CagentChatClient.Colors) :
  exists o',
    CagentChatClient.handle_line json_loads line full_response token_usage
      (CagentChatClient.mkSt me w c)
    = (match line_payload line with
       | Some payload => dispatch_line (decode (json_loads payload))
                           (full_response, token_usage)
       | None => Ret (Some (full_response, token_usage))
       end,
       CagentChatClient.mkSt me (set_stdout o' w) c).
Proof.
  destruct me as [name sid hist]. destruct w as [i o sn nt f ck].
  unfold CagentChatClient.handle_line, line_payload, decode, dispatch_line,
    dict_get_default.
  destruct (String.eqb line EmptyString); destruct (startswith line "data: ");
    destruct (String.eqb (drop 6 line) EmptyString);
    destruct (String.eqb (drop 6 line) " "); run;
    try (eexists; reflexivity).
  destruct (json_loads (drop 6 line)) as [[| b | q | str | l | d] |]; run;
    try (eexists; reflexivity).
  crunch; eexists; reflexivity.
Qed.

Lemma lines_loop_dispatch (json_loads : string -> option json) (cut : option exn)
    (chunks : list string) :
  forall (full_response : list json) (token_usage : json)
         (me : CagentChatClient.Self) (w : World) (c : CagentChatClient.Colors),
  exists o',
    CagentChatClient.lines_loop json_loads cut chunks full_response token_usage
      (CagentChatClient.mkSt me w c)
    = (dispatch_lines cut (decode_lines json_loads chunks) (full_response, token_usage),
       CagentChatClient.mkSt me (set_stdout o' w) c).
Proof.
  induction chunks as [| line chunks IH]; intros fr tu me w c.
  - exists (stdout w). destruct w; destruct cut; reflexivity.
  - cbn [CagentChatClient.lines_loop decode_lines flat_map].
    fold (decode_lines json_loads chunks).
    destruct (handle_line_dispatch json_loads line fr tu me w c) as (o1 & H1).
    unfold bind at 1. rewrite H1.
    destruct (line_payload line) as [payload |]; cbn [app dispatch_lines].
    + destruct (dispatch_line (decode (json_loads payload)) (fr, tu))
        as [[[fr' tu'] |] | e]; cbn [fst snd].
      * destruct (IH fr' tu' me (set_stdout o1 w) c) as (o2 & H2).
        exists o2. rewrite H2. destruct w; reflexivity.
      * exists o1. reflexivity.
      * exists o1. reflexivity.
    + destruct (IH fr tu me (set_stdout o1 w) c) as (o2 & H2).
      exists o2. cbn [fst snd]. rewrite H2. destruct w; reflexivity.
Qed.








(** The stream "a", "b", stream_stopped of the specification: the
    finalized text is "ab". *)
Example finalized_text_ab :
  exists parts usage,
    fst (AuthAgentChat.events_loop sample_loads true None
           ["choice a"; "choice b"; "stopped"] [] (JObj []) sample_state)
    = Ret (parts, usage) /\
    join parts = Ret "ab" /\ usage = JObj [].
Proof. do 2 eexists. vm_compute. repeat split; reflexivity. Qed.

Lemma dispatch_all_skip_unparsable (a b : list event) :
  forall acc, dispatch_all (a ++ Unparsable :: b) acc = dispatch_all (a ++ b) acc.
Proof.
  induction a as [| e a IH]; intros acc; cbn [app dispatch_all].
  - reflexivity.
  - destruct (fst (dispatch e acc)); auto.
Qed.

Lemma prefix_append (p s : string) : String.prefix p (p ++ s)%string = true.
Proof.
  induction p as [| a p IH]; cbn.
  - destruct s; reflexivity.
  - destruct (ascii_dec a a); [exact IH | contradiction].
Qed.

Lemma handle_line_unparsable (json_loads : string -> option json) (bad : string)
    (full_response : list json) (token_usage : json) (s : CagentChatClient.St) :
  json_loads bad = None ->
  CagentChatClient.handle_line json_loads ("data: " ++ bad) full_response token_usage s
  = (Ret (Some (full_response, token_usage)), s).
Proof.
  intros Hbad. destruct s as [[name sid hist] [i o sn nt f ck] c].
  unfold CagentChatClient.handle_line, startswith.
  change (drop 6 ("data: " ++ bad)) with bad.
  rewrite prefix_append.
  change (String.eqb ("data: " ++ bad) EmptyString) with false.
  run. destruct (String.eqb bad EmptyString); run; [reflexivity |].
  destruct (String.eqb bad " "); run; [reflexivity |].
  rewrite Hbad. run. reflexivity.
Qed.

Lemma lines_loop_skip_unparsable (json_loads : string -> option json)
    (bad : string) (pre post : list string) :
  json_loads bad = None ->
  forall (cut : option exn) (full_response : list json) (token_usage : json)
         (s : CagentChatClient.St),
    CagentChatClient.lines_loop json_loads cut (pre ++ ("data: " ++ bad)%string :: post)
      full_response token_usage s
    = CagentChatClient.lines_loop json_loads cut (pre ++ post)
        full_response token_usage s.
Proof.
  intros Hbad. induction pre as [| line pre IH]; intros cut fr tu s;
    cbn [app CagentChatClient.lines_loop].
  - unfold bind at 1. now rewrite handle_line_unparsable.
  - unfold bind.
    destruct (CagentChatClient.handle_line json_loads line fr tu s) as [[[acc |] | e] s'];
      auto.
Qed.

(** C2: a line whose payload is not JSON is skipped and decoding goes on:
    in both clients the accumulators are those of the stream without the
    line, so a token_usage event that follows a malformed line is still
    recorded. *)
Theorem malformed_line_is_skipped :
  forall (json_loads : string -> option json) (bad : string),
    json_loads bad = None ->
    (forall (show_progress : bool) (cut : option exn) (pre post : list string)
            (full_response : list json) (token_usage : json) (s : AuthAgentChat.St),
        fst (AuthAgentChat.events_loop json_loads show_progress cut (pre ++ bad :: post)
               full_response token_usage s)
        = fst (AuthAgentChat.events_loop json_loads show_progress cut (pre ++ post)
                 full_response token_usage s)) /\
    (forall (cut : option exn) (pre post : list string)
            (full_response : list json) (token_usage : json) (s : CagentChatClient.St),
        CagentChatClient.lines_loop json_loads cut
          (pre ++ ("data: " ++ bad)%string :: post) full_response token_usage s
        = CagentChatClient.lines_loop json_loads cut (pre ++ post)
            full_response token_usage s) /\
    (forall (show_progress : bool) (good : string) (usage : json)
            (s : AuthAgentChat.St) (c : CagentChatClient.St),
        decode (json_loads good) = TokenUsage usage ->
        fst (AuthAgentChat.events_loop json_loads show_progress None [bad; good]
               [] (JObj []) s)
        = Ret ([], usage) /\
        (line_payload ("data: " ++ good) = Some good ->
         fst (CagentChatClient.lines_loop json_loads None
                [("data: " ++ bad)%string; ("data: " ++ good)%string] [] JNull c)
         = Ret (Some ([], usage)))).
Proof.
  intros loads bad Hbad. split; [| split].
  - intros show cut pre post fr tu [me w].
    destruct (events_loop_dispatch loads show cut (pre ++ bad :: post) fr tu me w)
      as (o1 & ->).
    destruct (events_loop_dispatch loads show cut (pre ++ post) fr tu me w) as (o2 & ->).
    cbn [fst]. unfold decode_all. rewrite !map_app. cbn [map]. rewrite Hbad.
    cbn [decode]. rewrite dispatch_all_skip_unparsable. unfold stream_end.
    rewrite !existsb_app. reflexivity.
  - intros cut pre post fr tu s. now apply lines_loop_skip_unparsable.
  - intros show good usage [me w] [cme cw cc] Hgood. split.
    + destruct (events_loop_dispatch loads show None [bad; good] [] (JObj []) me w)
        as (o1 & ->).
      cbn [fst decode_all map]. rewrite Hbad, Hgood. reflexivity.
    + intros Hline.
      rewrite (lines_loop_skip_unparsable loads bad [] [("data: " ++ good)%string] Hbad).
      cbn [app].
      destruct (lines_loop_dispatch loads None [("data: " ++ good)%string] [] JNull
                  cme cw cc)
        as (o1 & ->).
      cbn [fst decode_lines flat_map]. rewrite Hline. cbn [app]. rewrite Hgood.
      reflexivity.
Qed.

(** *** [send_message] as a whole *)

(** After the retry loop [send_message] sends nothing more: it returns
    at once if the loop returned, and otherwise only writes to the
    console. *)
Lemma send_message_after_loop (json_loads : string -> option json)
    (message : string) (show_progress : bool)
    (me : AuthAgentChat.Self) (w : World)
    (exit : AuthAgentChat.loop_exit) (s1 : AuthAgentChat.St) :
  truthy (AuthAgentChat.session_id me) = true ->
  AuthAgentChat.retry_loop (user_payload message) AuthAgentChat.max_retries 0
    (AuthAgentChat.mkSt me w) = (Ret exit, s1) ->
  let run := AuthAgentChat.send_message json_loads message show_progress
               (AuthAgentChat.mkSt me w) in
  (exit = AuthAgentChat.Returned -> run = (Ret tt, s1)) /\
  (exists o', snd run
              = AuthAgentChat.mkSt (AuthAgentChat.self s1)
                  (set_stdout o' (AuthAgentChat.world s1))).
Proof.
  destruct me as [url ay vb tmo sid tok usr ae]. destruct w as [i o sn nt f ck].
  cbn [AuthAgentChat.session_id]. unfold user_payload. intros Hsid Hloop.
  unfold AuthAgentChat.send_message. run. rewrite Hsid. run.
  change (AuthAgentChat.max_retries - 0) with AuthAgentChat.max_retries.
  rewrite Hloop. destruct s1 as [[url1 ay1 vb1 tmo1 sid1 tok1 usr1 ae1] [i1 o1 sn1 nt1 f1 ck1]].
  destruct exit as [| r |]; run.
  - split; [reflexivity | eexists; reflexivity].
  - split; [discriminate |].
    destruct show_progress; run;
      match goal with
      | |- context [AuthAgentChat.events_loop ?l ?sh ?ct ?evs ?fr ?tu
                      (AuthAgentChat.mkSt ?m ?ww)] =>
          destruct (events_loop_dispatch l sh ct evs fr tu m ww) as (o2 & ->)
      end;
      match goal with
      | |- context [stream_end ?ct ?evs ?a] => destruct (stream_end ct evs a)
      end; crunch; eexists; reflexivity.
  - split; [discriminate |].
    destruct show_progress; run; eexists; reflexivity.
Qed.

Lemma ok_status (r : response) :
  ok r = false <-> (400 <= status_code r < 600)%Z.
Proof.
  unfold ok.
  destruct (Z.leb_spec 400 (status_code r)); destruct (Z.ltb_spec (status_code r) 600);
    cbn; split; intros Hs; try lia; try discriminate Hs; reflexivity.
Qed.

(** C3 as worded: every answer whose status is not 2xx ends the call at
    that attempt.  It does not hold: [raise_for_status] raises on the
    statuses 400 to 599 only, so an answer with status 304 leaves the
    retry loop by its [break], as a success, and is streamed. *)
Lemma not_modified_is_streamed : ~ aborts_on_non_2xx.
Proof.
  intros H.
  specialize (H "ahoy" not_modified_state not_modified eq_refl eq_refl).
  cbv zeta in H. assert (Hs : (status_code not_modified < 200
                               \/ 300 <= status_code not_modified)%Z) by (cbn; lia).
  specialize (H Hs). vm_compute in H. discriminate H.
Qed.

(** C3, amended: only a timed-out attempt is followed by another
    attempt; every attempt sends the same request, with the timeout of
    the client; there are at most 3 attempts; two timeouts and then a
    response whose status is not 4xx or 5xx make 3 attempts and a
    success; any other exception of an attempt, a transport error or the
    [HTTPError] of a status from 400 to 599, ends the call at that
    attempt; an answer with any other status, 2xx or not, ends the loop
    as a success. *)
Theorem send_message_retry_policy :
  forall (json_loads : string -> option json) (message : string)
         (show_progress : bool) (s : AuthAgentChat.St),
    truthy (AuthAgentChat.session_id (AuthAgentChat.self s)) = true ->
    let me := AuthAgentChat.self s in
    let w := AuthAgentChat.world s in
    let rq := send_request me (user_payload message) in
    let run := AuthAgentChat.send_message json_loads message show_progress s in
    req_timeout rq = Some (AuthAgentChat.timeout me) /\
    exists (n : nat) (exit : AuthAgentChat.loop_exit) (s1 : AuthAgentChat.St),
      AuthAgentChat.retry_loop (user_payload message) AuthAgentChat.max_retries 0 s
      = (Ret exit, s1) /\
      1 <= n <= 3 /\
      sent (AuthAgentChat.world (snd run)) = sent w ++ repeat rq n /\
      (forall i, S i < n -> answer_at w rq i = Fails Timeout) /\
      (forall i e, i < n -> raised_by (answer_at w rq i) = Some e -> e <> Timeout ->
                   n = S i /\ exit = AuthAgentChat.Returned /\ run = (Ret tt, s1)) /\
      (forall i r, i < n -> answer_at w rq i = Responds r -> ok r = true ->
                   n = S i /\ exit = AuthAgentChat.Broke r) /\
      (forall r, answer_at w rq 0 = Fails Timeout ->
                 answer_at w rq 1 = Fails Timeout ->
                 answer_at w rq 2 = Responds r -> ok r = true ->
                 n = 3 /\ exit = AuthAgentChat.Broke r) /\
      (answer_at w rq 0 = Fails Timeout ->
       answer_at w rq 1 = Fails Timeout ->
       answer_at w rq 2 = Fails Timeout ->
       n = 3 /\ exit = AuthAgentChat.Returned /\ run = (Ret tt, s1)) /\
      (forall i r, i < n -> answer_at w rq i = Responds r ->
                   (400 <= status_code r < 600)%Z ->
                   n = S i /\ exit = AuthAgentChat.Returned /\ run = (Ret tt, s1)) /\
      (forall i r, i < n -> answer_at w rq i = Responds r ->
                   (status_code r < 400 \/ 600 <= status_code r)%Z ->
                   n = S i /\ exit = AuthAgentChat.Broke r).
Proof.
  intros loads message show [me w] Hsid. cbn [AuthAgentChat.self AuthAgentChat.world] in *.
  cbv zeta. split; [reflexivity |].
  destruct (retry_loop_attempts (user_payload message) AuthAgentChat.max_retries 0 me w eq_refl)
    as (n & exit & s1 & Hrun & Hle & Hsent & Htime & _ & Hlast).
  destruct Hlast as (last & -> & Hlast); [unfold AuthAgentChat.max_retries; lia |].
  destruct (send_message_after_loop loads message show me w exit s1 Hsid Hrun)
    as (Hret & o' & Hafter).
  set (rq := send_request me (user_payload message)) in *.
  assert (Hcases : forall i, i < S last -> i = last \/ answer_at w rq i = Fails Timeout).
  { intros i Hi. destruct (Nat.eq_dec i last); auto. right. apply Htime. lia. }
  exists (S last), exit, s1. unfold AuthAgentChat.max_retries in Hle, Hlast.
  split; [exact Hrun |]. split; [lia |]. split.
  { rewrite Hafter. destruct s1 as [me1 [i1 o1 sn1 nt1 f1 ck1]]. exact Hsent. }
  assert (Hraise : forall i e, i < S last -> raised_by (answer_at w rq i) = Some e ->
                               e <> Timeout ->
                               S last = S i /\ exit = AuthAgentChat.Returned /\
                               AuthAgentChat.send_message loads message show
                                 (AuthAgentChat.mkSt me w) = (Ret tt, s1)).
  { intros i e Hi He Hne.
    destruct (Hcases i Hi) as [-> | Ht]; [| rewrite Ht in He; cbn in He; congruence].
    rewrite He in Hlast. split; [reflexivity |].
    assert (exit = AuthAgentChat.Returned) as -> by (destruct e; auto; contradiction).
    auto. }
  assert (Hbreak : forall i r, i < S last -> answer_at w rq i = Responds r ->
                               ok r = true ->
                               S last = S i /\ exit = AuthAgentChat.Broke r).
  { intros i r Hi Hr Hok.
    destruct (Hcases i Hi) as [-> | Ht]; [| congruence].
    rewrite Hr in Hlast. cbn in Hlast. rewrite Hok in Hlast.
    destruct Hlast as (r' & Hr' & ->). split; congruence. }
  split; [exact Htime |]. split; [exact Hraise |]. split; [exact Hbreak |].
  split; [| split; [| split]].
  - intros r H0 H1 H2 Hok.
    assert (last = 2) as ->.
    { destruct last as [| [| [| ?]]]; try lia.
      - rewrite H0 in Hlast. cbn in Hlast. lia.
      - rewrite H1 in Hlast. cbn in Hlast. lia. }
    split; [reflexivity |].
    rewrite H2 in Hlast. cbn in Hlast. rewrite Hok in Hlast.
    destruct Hlast as (r' & Hr' & ->). congruence.
  - intros H0 H1 H2.
    assert (last = 2) as ->.
    { destruct last as [| [| [| ?]]]; try lia.
      - rewrite H0 in Hlast. cbn in Hlast. lia.
      - rewrite H1 in Hlast. cbn in Hlast. lia. }
    rewrite H2 in Hlast. cbn in Hlast. destruct Hlast as [-> _]. auto.
  - intros i r Hi Hr Hstatus. apply ok_status in Hstatus.
    apply (Hraise i (HTTPError (status_code r)) Hi); [| discriminate].
    rewrite Hr. cbn [raised_by]. now rewrite Hstatus.
  - intros i r Hi Hr Hstatus. apply (Hbreak i r Hi Hr).
    destruct (ok r) eqn:Hok; [reflexivity |]. apply ok_status in Hok. lia.
Qed.

(** The retry loop when, after [k] timeouts, an attempt is answered with
    status 401. *)
Lemma retry_loop_unauthorized (payload : json) (me : AuthAgentChat.Self) :
  forall (k remaining retry_count : nat) (w : World),
    let rq := send_request me payload in
    retry_count + remaining = AuthAgentChat.max_retries ->
    k < remaining ->
    (forall i, i < k -> answer_at w rq i = Fails Timeout) ->
    raised_by (answer_at w rq k) = Some (HTTPError 401) ->
    exists o',
      AuthAgentChat.retry_loop payload remaining retry_count (AuthAgentChat.mkSt me w)
      = (Ret AuthAgentChat.Returned,
         snd (AuthAgentChat._clear_credentials
                (AuthAgentChat.mkSt me
                   (set_stdout (o' ++ [auth_expired_notice])
                      (set_sent (sent w ++ repeat rq (S k)) w))))).
Proof.
  induction k as [| k IH]; intros remaining retry_count w rq Hsum Hk Htime H401;
    subst rq; cbv zeta in *.
  - destruct remaining as [| remaining']; [lia |].
    unfold answer_at in H401. cbn [repeat] in H401.
    rewrite (retry_step_error payload remaining' retry_count me w (HTTPError 401) H401)
      by discriminate.
    exists (stdout w). cbn [Z.eqb Pos.eqb]. destruct w; reflexivity.
  - destruct remaining as [| remaining']; [lia |].
    assert (H0 : net w (sent w ++ [send_request me payload]) = Fails Timeout)
      by (apply (Htime 0); lia).
    unfold AuthAgentChat.max_retries in Hsum.
    rewrite (retry_step_timeout payload remaining' retry_count me w H0)
      by (unfold AuthAgentChat.max_retries; lia).
    destruct (IH remaining' (S retry_count)
                (after_attempt (send_request me payload) [retry_notice (S retry_count)] w))
      as (o' & Hrun).
    + unfold AuthAgentChat.max_retries. lia.
    + lia.
    + intros i Hi. rewrite answer_at_after. apply Htime. lia.
    + rewrite answer_at_after. exact H401.
    + exists o'. rewrite Hrun. destruct w as [i o sn nt f ck]. cbn.
      now rewrite <- app_assoc.
Qed.

(** C4: when an attempt of [send_message] is answered with status 401,
    the client prints that the authentication expired, forgets the token
    and the user, removes the entry of its server URL from the store,
    and returns without another attempt. *)
Theorem send_message_unauthorized :
  forall (json_loads : string -> option json) (message : string)
         (show_progress : bool) (s : AuthAgentChat.St) (k : nat),
    let me := AuthAgentChat.self s in
    let w := AuthAgentChat.world s in
    let rq := send_request me (user_payload message) in
    let run := AuthAgentChat.send_message json_loads message show_progress s in
    truthy (AuthAgentChat.session_id me) = true ->
    k < AuthAgentChat.max_retries ->
    (forall i, i < k -> answer_at w rq i = Fails Timeout) ->
    raised_by (answer_at w rq k) = Some (HTTPError 401) ->
    fst run = Ret tt /\
    AuthAgentChat.token (AuthAgentChat.self (snd run)) = JNull /\
    AuthAgentChat.user (AuthAgentChat.self (snd run)) = JNull /\
    stored (AuthAgentChat.api_url me) (creds (AuthAgentChat.world (snd run))) = None /\
    In auth_expired_notice (stdout (AuthAgentChat.world (snd run))) /\
    sent (AuthAgentChat.world (snd run)) = sent w ++ repeat rq (S k).
Proof.
  intros loads message show [me w] k. cbv zeta.
  cbn [AuthAgentChat.self AuthAgentChat.world].
  intros Hsid Hk Htime H401.
  destruct (retry_loop_unauthorized (user_payload message) me k
              AuthAgentChat.max_retries 0 w eq_refl Hk Htime H401) as (o' & Hloop).
  destruct (send_message_after_loop loads message show me w _ _ Hsid Hloop)
    as (Hret & _).
  rewrite (Hret eq_refl). cbn [fst snd].
  rewrite clear_credentials_result. destruct w as [i o sn nt f ck]. cbn.
  split; [reflexivity |]. split; [reflexivity |]. split; [reflexivity |].
  split; [apply stored_cleared_same |]. split; [| reflexivity].
  apply in_or_app. right. now left.
Qed.

(** *** The agent name *)

Section KeepsName.
Context {A B : Type}.

Lemma keeps_ret (a : A) : keeps_name (ret a).
Proof. intros s. reflexivity. Qed.

Lemma keeps_raise (e : exn) : keeps_name (@raise _ A e).
Proof. intros s. reflexivity. Qed.

Lemma keeps_lift (r : res A) : keeps_name (lift r).
Proof. intros s. reflexivity. Qed.

Lemma keeps_bind (m : M AuthAgentChat.St A) (k : A -> M AuthAgentChat.St B) :
  keeps_name m -> (forall a, keeps_name (k a)) -> keeps_name (bind m k).
Proof.
  intros Hm Hk s. unfold bind. specialize (Hm s).
  destruct (m s) as [[a | e] s']; cbn in *; [| exact Hm].
  rewrite <- Hm. apply Hk.
Qed.

Lemma keeps_try (m : M AuthAgentChat.St A) (h : exn -> M AuthAgentChat.St A) :
  keeps_name m -> (forall e, keeps_name (h e)) -> keeps_name (try_except m h).
Proof.
  intros Hm Hh s. unfold try_except. specialize (Hm s).
  destruct (m s) as [[a | e] s']; cbn in *; [exact Hm |].
  rewrite <- Hm. apply Hh.
Qed.
End KeepsName.

Lemma keeps_when (b : bool) (m : M AuthAgentChat.St unit) :
  keeps_name m -> keeps_name (when b m).
Proof. destruct b; cbn; auto using keeps_ret. Qed.

Lemma keeps_print_end (t : text) (e : string) : keeps_name (print_end t e).
Proof. intros s. reflexivity. Qed.

Lemma keeps_print (t : text) : keeps_name (print t).
Proof. intros s. reflexivity. Qed.

Lemma keeps_input (p : string) : keeps_name (input p).
Proof. intros [me [i o sn nt f ck]]. destruct i; reflexivity. Qed.

Lemma keeps_http (r : request) : keeps_name (http r).
Proof. intros [me w]. unfold http. cbn. destruct (net w _); reflexivity. Qed.

Lemma keeps_raise_for_status (r : response) : keeps_name (raise_for_status r).
Proof. intros s. unfold raise_for_status. destruct (ok r); reflexivity. Qed.

Lemma keeps_creds_exists : keeps_name creds_exists.
Proof. intros s. reflexivity. Qed.

Lemma keeps_creds_load : keeps_name creds_load.
Proof. intros [me w]. unfold creds_load. cbn. destruct (creds w) as [[|] |]; reflexivity. Qed.

Lemma keeps_creds_dump (d : json) : keeps_name (creds_dump d).
Proof. intros s. reflexivity. Qed.

Lemma keeps_now : keeps_name now_isoformat.
Proof. intros s. reflexivity. Qed.

Lemma keeps_getself : keeps_name AuthAgentChat.getself.
Proof. intros s. reflexivity. Qed.

Lemma keeps_set_token (v : json) : keeps_name (AuthAgentChat.set_token v).
Proof. intros s. reflexivity. Qed.

Lemma keeps_set_user (v : json) : keeps_name (AuthAgentChat.set_user v).
Proof. intros s. reflexivity. Qed.

Lemma keeps_set_auth_enabled (b : bool) : keeps_name (AuthAgentChat.set_auth_enabled b).
Proof. intros s. reflexivity. Qed.

Create HintDb keeps discriminated.
#[global] Hint Resolve keeps_ret keeps_raise keeps_lift keeps_print_end keeps_print
  keeps_input keeps_http keeps_raise_for_status keeps_creds_exists keeps_creds_load
  keeps_creds_dump keeps_now keeps_getself keeps_set_token keeps_set_user
  keeps_set_auth_enabled : keeps.

Ltac keeps :=
  repeat first
    [ solve [auto with keeps]
    | apply keeps_bind; [| intros ?]
    | apply keeps_try; [| intros ?]
    | apply keeps_when
    | match goal with
      | |- keeps_name (if ?b then _ else _) => destruct b
      | |- keeps_name (match ?x with _ => _ end) => destruct x
      | |- keeps_name (let _ := _ in _) => cbv zeta
      end ].

Lemma keeps_check_auth_enabled : keeps_name AuthAgentChat._check_auth_enabled.
Proof. unfold AuthAgentChat._check_auth_enabled. keeps. Qed.

Lemma keeps_load_credentials : keeps_name AuthAgentChat._load_credentials.
Proof. unfold AuthAgentChat._load_credentials. keeps. Qed.

Lemma keeps_save_credentials : keeps_name AuthAgentChat._save_credentials.
Proof. unfold AuthAgentChat._save_credentials. keeps. Qed.

Lemma keeps_clear_credentials : keeps_name AuthAgentChat._clear_credentials.
Proof. unfold AuthAgentChat._clear_credentials. keeps. Qed.

Lemma keeps_headers : keeps_name AuthAgentChat._headers.
Proof. unfold AuthAgentChat._headers. keeps. Qed.

#[global] Hint Resolve keeps_check_auth_enabled keeps_load_credentials
  keeps_save_credentials keeps_clear_credentials keeps_headers : keeps.

Lemma keeps_response_json (json_loads : string -> option json) (r : response) :
  keeps_name (AuthAgentChat.response_json json_loads r).
Proof. unfold AuthAgentChat.response_json. keeps. Qed.

#[global] Hint Resolve keeps_response_json : keeps.

Lemma keeps_register (json_loads : string -> option json) :
  keeps_name (AuthAgentChat.register json_loads).
Proof. unfold AuthAgentChat.register, AuthAgentChat.getpass. keeps. Qed.

Lemma keeps_login (json_loads : string -> option json) :
  keeps_name (AuthAgentChat.login json_loads).
Proof. unfold AuthAgentChat.login, AuthAgentChat.getpass. keeps. Qed.

Lemma keeps_for_each {A} (l : list A) (f : A -> M AuthAgentChat.St unit) :
  (forall a, keeps_name (f a)) -> keeps_name (AuthAgentChat.for_each l f).
Proof. intros Hf. induction l; cbn [AuthAgentChat.for_each]; keeps. Qed.

Lemma keeps_verify_agent (json_loads : string -> option json) :
  keeps_name (AuthAgentChat.verify_agent json_loads).
Proof.
  unfold AuthAgentChat.verify_agent. keeps.
  apply keeps_for_each. intros agent. keeps.
Qed.

Lemma keeps_retry_loop (payload : json) (remaining : nat) :
  forall retry_count, keeps_name (AuthAgentChat.retry_loop payload remaining retry_count).
Proof.
  induction remaining as [| remaining IH]; intros retry_count;
    cbn [AuthAgentChat.retry_loop]; keeps.
Qed.

Lemma keeps_handle_event (json_loads : string -> option json) (show_progress : bool)
    (event_data : string) (full_response : list json) (token_usage : json) :
  keeps_name (AuthAgentChat.handle_event json_loads show_progress event_data
                full_response token_usage).
Proof.
  intros [me w].
  destruct (handle_event_dispatch json_loads show_progress event_data
              full_response token_usage me w) as (o' & ->).
  reflexivity.
Qed.

Lemma keeps_events_loop (json_loads : string -> option json) (show_progress : bool)
    (cut : option exn) (evs : list string) (full_response : list json)
    (token_usage : json) :
  keeps_name (AuthAgentChat.events_loop json_loads show_progress cut evs
                full_response token_usage).
Proof.
  intros [me w].
  destruct (events_loop_dispatch json_loads show_progress cut evs
              full_response token_usage me w) as (o' & ->).
  reflexivity.
Qed.

#[global] Hint Resolve keeps_retry_loop keeps_events_loop : keeps.

Lemma keeps_send_message (json_loads : string -> option json)
    (message : string) (show_progress : bool) :
  keeps_name (AuthAgentChat.send_message json_loads message show_progress).
Proof. unfold AuthAgentChat.send_message. keeps. Qed.

Lemma replace_absent (old new s : string) :
  str_contains old s = false -> replace s old new = s.
Proof.
  unfold replace. induction s as [| c s IH]; cbn [replace_from str_contains]; auto.
  intros H. apply orb_false_iff in H as [Hp Hc].
  rewrite Hp. now rewrite IH.
Qed.

Lemma cagent_send_message_request (json_loads : string -> option json)
    (message : string) (s : CagentChatClient.St) :
  let me := CagentChatClient.self s in
  let w := CagentChatClient.world s in
  let run := CagentChatClient.send_message json_loads message s in
  truthy (CagentChatClient.session_id me) = true ->
  sent (CagentChatClient.world (snd run)) = sent w ++ [cagent_send_request me message] /\
  CagentChatClient.agent_name (CagentChatClient.self (snd run))
  = CagentChatClient.agent_name me.
Proof.
  destruct s as [[name sid hist] [i o sn nt f ck] c]. cbv zeta.
  cbn [CagentChatClient.self CagentChatClient.world CagentChatClient.session_id
       CagentChatClient.agent_name].
  unfold cagent_send_request. cbn [CagentChatClient.session_id CagentChatClient.agent_name].
  intros Hsid. unfold CagentChatClient.send_message. run. rewrite Hsid. run.
  destruct (nt _) as [e | r]; run; [destruct e; run; split; reflexivity |].
  destruct (ok r); run; [| split; reflexivity].
  match goal with
  | |- context [CagentChatClient.lines_loop ?l ?ct ?ch ?fr ?tu
                  (CagentChatClient.mkSt ?m ?ww ?cc)] =>
      destruct (lines_loop_dispatch l ct ch fr tu m ww cc) as (o1 & ->)
  end.
  destruct (dispatch_lines _ _ _) as [[[fr tu] |] | e]; run;
    [| split; reflexivity | destruct e; run; split; reflexivity].
  crunch; split; reflexivity.
Qed.

(** C8, counterexample: [CagentChatClient] holds "pirate.yaml" as
    "pirate" and sends it so in the URL, and [main] of [AuthAgentChat]
    keeps "pirate.yml"; neither name ends in ".yaml". *)
Lemma held_name_may_lack_yaml :
  CagentChatClient.agent_name (CagentChatClient.__init__ "pirate.yaml") = "pirate" /\
  endswith (CagentChatClient.agent_name (CagentChatClient.__init__ "pirate.yaml")) ".yaml"
  = false /\
  map url (sent (CagentChatClient.world
                   (snd (CagentChatClient.send_message sample_loads "ahoy"
                           sample_cagent_state))))
  = [[Lit CagentChatClient.API_URL; Lit "/api/sessions/"; Val (JStr "s1");
      Lit "/agent/"; Lit "pirate"]] /\
  AuthAgentChat.main_agent_yaml "pirate.yml" = "pirate.yml" /\
  endswith (AuthAgentChat.main_agent_yaml "pirate.yml") ".yaml" = false.
Proof. repeat split; vm_compute; reflexivity. Qed.

(** ** Instances on concrete runs *)


Lemma malformed_line_is_skipped_witness :
  sample_loads "not-json" = None /\
  decode (sample_loads "usage") = TokenUsage (JObj [("total_tokens", num 7)]) /\
  fst (AuthAgentChat.events_loop sample_loads false None ["not-json"; "usage"]
         [] (JObj []) sample_state)
  = Ret ([], JObj [("total_tokens", num 7)]).
Proof.
  split; [reflexivity |]. split; [reflexivity |].
  exact (proj1 (proj2 (proj2 (malformed_line_is_skipped sample_loads "not-json" eq_refl))
                  false "usage" (JObj [("total_tokens", num 7)])
                  sample_state sample_cagent_state eq_refl)).
Defined.

Lemma send_message_retry_policy_witness :
  truthy (AuthAgentChat.session_id (AuthAgentChat.self flaky_state)) = true /\
  exists n exit s1,
    AuthAgentChat.retry_loop (user_payload "ahoy") AuthAgentChat.max_retries 0 flaky_state
    = (Ret exit, s1) /\
    n = 3 /\ exit = AuthAgentChat.Broke streamed.
Proof.
  split; [reflexivity |].
  destruct (send_message_retry_policy sample_loads "ahoy" false flaky_state eq_refl)
    as (_ & n & exit & s1 & Hrun & _ & _ & _ & _ & _ & Hthird & _).
  exists n, exit, s1. split; [exact Hrun |].
  apply (Hthird streamed); reflexivity.
Defined.

Lemma send_message_unauthorized_witness :
  truthy (AuthAgentChat.session_id (AuthAgentChat.self unauthorized_state)) = true /\
  raised_by (answer_at (AuthAgentChat.world unauthorized_state)
               (send_request sample_self (user_payload "ahoy")) 0)
  = Some (HTTPError 401) /\
  let run := AuthAgentChat.send_message sample_loads "ahoy" true unauthorized_state in
  fst run = Ret tt /\
  AuthAgentChat.token (AuthAgentChat.self (snd run)) = JNull /\
  AuthAgentChat.user (AuthAgentChat.self (snd run)) = JNull /\
  stored "http://localhost:8080" (creds (AuthAgentChat.world (snd run))) = None /\
  In auth_expired_notice (stdout (AuthAgentChat.world (snd run))) /\
  sent (AuthAgentChat.world (snd run))
  = [send_request sample_self (user_payload "ahoy")].
Proof.
  split; [reflexivity |]. split; [reflexivity |].
  apply (send_message_unauthorized sample_loads "ahoy" true unauthorized_state 0).
  - reflexivity.
  - unfold AuthAgentChat.max_retries. lia.
  - intros i Hi. lia.
  - reflexivity.
Defined.

Lemma register_validates_locally_witness :
  String.length kanji_password = 12 /\
  len_str kanji_password = 4 /\
  fst (AuthAgentChat.register sample_loads kanji_state) = Ret false /\
  In (Print [Lit "Password must be at least 8 characters"] nl)
     (stdout (AuthAgentChat.world (snd (AuthAgentChat.register sample_loads kanji_state)))) /\
  sent (AuthAgentChat.world (snd (AuthAgentChat.register sample_loads kanji_state))) = [].
Proof.
  split; [reflexivity |]. split; [reflexivity |].
  destruct (proj2 (register_validates_locally sample_loads kanji_state
                     "a@b.c" "Ann" kanji_password kanji_password [] eq_refl) eq_refl)
    as (Hret & Hout & Hsent & _).
  - vm_compute; lia.
  - split; [exact Hret |]. split; [| exact Hsent].
    rewrite Hout. rewrite !in_app_iff. right. right. left. reflexivity.
Defined.


Lemma save_load_roundtrip_witness :
  store_ok (creds (AuthAgentChat.world unauthorized_state)) /\
  let loaded :=
    AuthAgentChat._load_credentials
      (AuthAgentChat.mkSt
         (AuthAgentChat.mkSelf "http://localhost:8080" "haiku.yaml" false 120
            JNull JNull JNull true)
         (AuthAgentChat.world (snd (AuthAgentChat._save_credentials unauthorized_state)))) in
  AuthAgentChat.token (AuthAgentChat.self (snd loaded)) = JStr "t0" /\
  AuthAgentChat.user (AuthAgentChat.self (snd loaded)) = JObj [("email", JStr "a@b.c")].
Proof.
  assert (H : store_ok (creds (AuthAgentChat.world unauthorized_state)))
    by (right; eexists; reflexivity).
  split; [exact H |].
  destruct (save_load_roundtrip unauthorized_state
              (AuthAgentChat.mkSelf "http://localhost:8080" "haiku.yaml" false 120
                 JNull JNull JNull true) H eq_refl)
    as (_ & _ & Htok & Husr & _).
  split; [exact Htok | exact Husr].
Defined.

Lemma clear_credentials_frame_witness :
  "http://other:9090" <> AuthAgentChat.api_url (AuthAgentChat.self unauthorized_state) /\
  stored "http://other:9090"
    (creds (AuthAgentChat.world (snd (AuthAgentChat._clear_credentials unauthorized_state))))
  = Some (snd other_entry) /\
  stored "http://localhost:8080"
    (creds (AuthAgentChat.world (snd (AuthAgentChat._clear_credentials unauthorized_state))))
  = None.
Proof.
  assert (H : "http://other:9090"
              <> AuthAgentChat.api_url (AuthAgentChat.self unauthorized_state))
    by (intros E; discriminate E).
  split; [exact H |].
  destruct (clear_credentials_frame unauthorized_state)
    as (_ & _ & _ & Hgone & Hothers & _).
  split; [exact (Hothers "http://other:9090" H) | exact Hgone].
Defined.

(** * Further properties of the two clients *)

Ltac xrun1 :=
  cbv beta iota zeta delta
    [bind ret raise lift when try_except print print_end http raise_for_status
     creds_exists creds_load creds_dump creds_remove now_isoformat input
     world_of with_world set_stdin set_stdout set_sent set_creds
     stdin stdout sent net creds clock fst snd World_Stateful
     AuthAgentChat.St_Stateful AuthAgentChat.self AuthAgentChat.world
     AuthAgentChat.getself AuthAgentChat.set_token AuthAgentChat.set_user
     AuthAgentChat.set_auth_enabled AuthAgentChat.set_session_id
     AuthAgentChat.getpass AuthAgentChat.now_minutes
     AuthAgentChat.api_url AuthAgentChat.agent_yaml AuthAgentChat.verbose
     AuthAgentChat.timeout AuthAgentChat.session_id AuthAgentChat.token
     AuthAgentChat.user AuthAgentChat.auth_enabled
     CagentChatClient.St_Stateful CagentChatClient.self CagentChatClient.world
     CagentChatClient.colors CagentChatClient.getself CagentChatClient.getcolors
     CagentChatClient.history_append CagentChatClient.clear_indicator
     CagentChatClient.set_session_id
     CagentChatClient.agent_name CagentChatClient.session_id
     CagentChatClient.messages_history].

Ltac xrun :=
  repeat (progress (xrun1;
                    cbn [py_in py_get py_item py_setitem py_delitem py_iter py_len
                         py_upper py_slice_to orb andb negb truthy])).

Ltac xcrunch :=
  repeat (xrun;
          match goal with
          | |- context [if ?b then _ else _] =>
              lazymatch b with
              | context [match _ with _ => _ end] => fail
              | _ => destruct b eqn:?
              end
          | |- context [match ?x with _ => _ end] =>
              lazymatch x with
              | context [match _ with _ => _ end] => fail
              | _ => destruct x eqn:?
              end
          end).

(** ** The credentials store *)

Lemma dict_get_of_key (k : string) (d : Dict.t) :
  existsb (fun k' => String.eqb k' k) (Dict.keys d) = true ->
  exists v, Dict.get k d = Some v.
Proof.
  induction d as [| [k' v'] d IH]; cbn; [discriminate |].
  destruct (String.eqb k' k); cbn; eauto.
Qed.

Lemma dict_key_In (k : string) (d : Dict.t) :
  existsb (fun k' => String.eqb k' k) (Dict.keys d) = true <-> In k (Dict.keys d).
Proof.
  rewrite existsb_exists. split.
  - intros (x & Hin & Hx). apply String.eqb_eq in Hx. now subst.
  - intros Hin. exists k. split; auto. apply String.eqb_refl.
Qed.

Lemma dict_keys_set_present (k : string) (v : json) (d : Dict.t) :
  In k (Dict.keys d) -> Dict.keys (Dict.set k v d) = Dict.keys d.
Proof.
  unfold Dict.keys. induction d as [| [k' v'] d IH]; simpl; [contradiction |].
  destruct (String.eqb_spec k' k) as [-> | N]; simpl; auto.
  intros [E | Hin]; [contradiction |]. now rewrite IH.
Qed.

Lemma dict_keys_set_absent (k : string) (v : json) (d : Dict.t) :
  ~ In k (Dict.keys d) -> Dict.keys (Dict.set k v d) = Dict.keys d ++ [k].
Proof.
  unfold Dict.keys. induction d as [| [k' v'] d IH]; simpl; auto.
  intros Hn. destruct (String.eqb_spec k' k) as [-> | N]; simpl.
  - exfalso. apply Hn. now left.
  - rewrite IH; auto.
Qed.

Lemma dict_keys_del (k : string) (d : Dict.t) :
  Dict.keys (Dict.del k d) = filter (fun k' => negb (String.eqb k' k)) (Dict.keys d).
Proof.
  unfold Dict.del, Dict.keys. induction d as [| [k' v'] d IH]; cbn; auto.
  destruct (String.eqb k' k); cbn; now rewrite IH.
Qed.

(** X1: when the credentials file is not JSON, or holds JSON that is not
    an object, [_save_credentials] gives up silently: it returns, and the
    file, the client and the request log are as before. *)
Theorem save_credentials_unusable_file :
  forall (s : AuthAgentChat.St),
    (creds (AuthAgentChat.world s) = Some Corrupt \/
     exists d, creds (AuthAgentChat.world s) = Some (Doc d) /\
               forall kvs, d <> JObj kvs) ->
    let r := AuthAgentChat._save_credentials s in
    fst r = Ret tt /\
    AuthAgentChat.self (snd r) = AuthAgentChat.self s /\
    creds (AuthAgentChat.world (snd r)) = creds (AuthAgentChat.world s) /\
    sent (AuthAgentChat.world (snd r)) = sent (AuthAgentChat.world s).
Proof.
  intros [[url ay vb tmo sid tok usr ae] [i o sn nt f ck]] H. cbn in H.
  unfold AuthAgentChat._save_credentials.
  destruct H as [-> | (d & -> & Hd)].
  - xrun. destruct vb; xrun; repeat split; reflexivity.
  - destruct d as [| b | q | str | l | kvs];
      try (xrun; destruct vb; xrun; repeat split; reflexivity).
    exfalso. now apply (Hd kvs).
Qed.

Lemma save_credentials_unusable_file_witness :
  creds (AuthAgentChat.world
           (AuthAgentChat.mkSt sample_self
              (set_creds (Some Corrupt) sample_world))) = Some Corrupt /\
  creds (AuthAgentChat.world
           (snd (AuthAgentChat._save_credentials
                   (AuthAgentChat.mkSt sample_self
                      (set_creds (Some Corrupt) sample_world))))) = Some Corrupt.
Proof.
  split; [reflexivity |].
  exact (proj1 (proj2 (proj2
           (save_credentials_unusable_file
              (AuthAgentChat.mkSt sample_self (set_creds (Some Corrupt) sample_world))
              (or_introl eq_refl))))).
Defined.

(** X2: [_load_credentials] never raises, sends no request and leaves
    the file alone; it can change only the token and the user, and when
    the store has no entry for the server URL of the client it changes
    neither (a token already held is kept). *)
Theorem load_credentials_total :
  forall (s : AuthAgentChat.St),
    let me := AuthAgentChat.self s in
    let r := AuthAgentChat._load_credentials s in
    let me' := AuthAgentChat.self (snd r) in
    fst r = Ret tt /\
    sent (AuthAgentChat.world (snd r)) = sent (AuthAgentChat.world s) /\
    creds (AuthAgentChat.world (snd r)) = creds (AuthAgentChat.world s) /\
    AuthAgentChat.api_url me' = AuthAgentChat.api_url me /\
    AuthAgentChat.session_id me' = AuthAgentChat.session_id me /\
    AuthAgentChat.auth_enabled me' = AuthAgentChat.auth_enabled me /\
    (stored (AuthAgentChat.api_url me) (creds (AuthAgentChat.world s)) = None ->
     me' = me).
Proof.
  intros [[url ay vb tmo sid tok usr ae] [i o sn nt f ck]].
  unfold AuthAgentChat._load_credentials.
  destruct f as [[| d] |]; [| destruct d as [| b | q | str | l | kvs] |];
    cbn [stored AuthAgentChat.self AuthAgentChat.world AuthAgentChat.api_url creds];
    try (xrun; destruct vb; xrun; repeat split; reflexivity).
  - xrun. destruct (str_contains url str); xrun; destruct vb; xrun;
      repeat split; reflexivity.
  - xrun. destruct (existsb _ l); xrun; destruct vb; xrun; repeat split; reflexivity.
  - xrun. destruct (existsb _ (Dict.keys kvs)) eqn:E; xrun;
      [| repeat split; reflexivity].
    destruct (dict_get_of_key url kvs E) as (v & Hv). rewrite Hv. xrun.
    destruct v as [| b | q | str | l | entry]; xrun;
      try (destruct vb; xrun; repeat split; (reflexivity || discriminate)).
    destruct vb; xrun; [| repeat split; (reflexivity || discriminate)].
    xcrunch; repeat split; (reflexivity || discriminate).
Qed.

Lemma load_credentials_total_witness :
  creds (AuthAgentChat.world other_server_state) = Some (Doc (JObj [other_entry])) /\
  stored (AuthAgentChat.api_url sample_self) (creds (AuthAgentChat.world other_server_state))
  = None /\
  AuthAgentChat.self (snd (AuthAgentChat._load_credentials other_server_state))
  = sample_self.
Proof.
  split; [reflexivity |]. split; [reflexivity |].
  exact (proj2 (proj2 (proj2 (proj2 (proj2 (proj2
           (load_credentials_total other_server_state)))))) eq_refl).
Defined.

(** X3: the store keeps one entry per server URL: on a file whose keys
    are distinct, [_save_credentials] overwrites the entry of the client
    in place or appends it, [_clear_credentials] removes it, and the keys
    stay distinct. *)
Theorem store_keys_stay_unique :
  forall (s : AuthAgentChat.St) (d : Dict.t),
    let k := AuthAgentChat.api_url (AuthAgentChat.self s) in
    creds (AuthAgentChat.world s) = Some (Doc (JObj d)) ->
    NoDup (Dict.keys d) ->
    (exists d',
        creds (AuthAgentChat.world (snd (AuthAgentChat._save_credentials s)))
        = Some (Doc (JObj d')) /\
        NoDup (Dict.keys d') /\
        (In k (Dict.keys d) -> Dict.keys d' = Dict.keys d) /\
        (~ In k (Dict.keys d) -> Dict.keys d' = Dict.keys d ++ [k])) /\
    (exists d',
        creds (AuthAgentChat.world (snd (AuthAgentChat._clear_credentials s)))
        = Some (Doc (JObj d')) /\
        NoDup (Dict.keys d') /\
        ~ In k (Dict.keys d')).
Proof.
  intros s d k Hc Hnd. split.
  - destruct (save_credentials_writes s d (or_intror Hc)) as (o' & ->).
    eexists. split; [destruct s as [me [i o sn nt f ck]]; reflexivity |].
    fold k.
    destruct (in_dec string_dec k (Dict.keys d)) as [Hin | Hn].
    + rewrite dict_keys_set_present by exact Hin.
      split; [exact Hnd |]. split; [reflexivity | contradiction].
    + rewrite dict_keys_set_absent by exact Hn.
      split; [| split; [contradiction | reflexivity]].
      apply NoDup_app; [exact Hnd | apply NoDup_cons; [intros [] | apply NoDup_nil] |].
      intros x Hx [<- | []]. contradiction.
  - rewrite clear_credentials_result. fold k.
    destruct s as [me [i o sn nt f ck]]. cbn in Hc. subst f. cbn.
    eexists. split; [reflexivity |]. rewrite dict_keys_del. split.
    + now apply NoDup_filter.
    + intros Hin. apply filter_In in Hin as [_ Hk].
      now rewrite String.eqb_refl in Hk.
Qed.

Lemma store_keys_stay_unique_witness :
  NoDup (Dict.keys [other_entry;
                    ("http://localhost:8080", JObj [("token", JStr "old")])]) /\
  exists d',
    creds (AuthAgentChat.world (snd (AuthAgentChat._save_credentials unauthorized_state)))
    = Some (Doc (JObj d')) /\
    Dict.keys d' = ["http://other:9090"; "http://localhost:8080"].
Proof.
  assert (H : NoDup (Dict.keys [other_entry;
                       ("http://localhost:8080", JObj [("token", JStr "old")])])).
  { apply NoDup_cons; [intros [E | []]; discriminate E |].
    apply NoDup_cons; [intros [] | apply NoDup_nil]. }
  split; [exact H |].
  destruct (proj1 (store_keys_stay_unique unauthorized_state _ eq_refl H))
    as (d' & Hc & _ & Hin & _).
  exists d'. split; [exact Hc |]. apply Hin. right. left. reflexivity.
Defined.

(** ** Login and registration *)

Lemma save_credentials_returns (s : AuthAgentChat.St) :
  let r := AuthAgentChat._save_credentials s in
  fst r = Ret tt /\
  AuthAgentChat.self (snd r) = AuthAgentChat.self s /\
  sent (AuthAgentChat.world (snd r)) = sent (AuthAgentChat.world s) /\
  stdin (AuthAgentChat.world (snd r)) = stdin (AuthAgentChat.world s) /\
  net (AuthAgentChat.world (snd r)) = net (AuthAgentChat.world s) /\
  (store_ok (creds (AuthAgentChat.world s)) ->
   stored (AuthAgentChat.api_url (AuthAgentChat.self s))
     (creds (AuthAgentChat.world (snd r)))
   = Some (entry_of (AuthAgentChat.self s) (clock (AuthAgentChat.world s)))).
Proof.
  destruct s as [[url ay vb tmo sid tok usr ae] [i o sn nt f ck]].
  unfold AuthAgentChat._save_credentials, entry_of, store_ok.
  cbn [AuthAgentChat.self AuthAgentChat.world AuthAgentChat.api_url AuthAgentChat.token
       AuthAgentChat.user creds clock].
  destruct f as [[| d] |]; [| destruct d as [| b | q | str | l | kvs] |];
    xrun; destruct vb; xrun; repeat split; try reflexivity;
    try (intros [H | (d & H)]; discriminate H);
    intros _; cbn [stored]; try apply dict_get_set_same.
  all: cbn; now rewrite String.eqb_refl.
Qed.

(** What [login] does, case by case on the answer of the server. *)
Lemma login_run (json_loads : string -> option json) (s : AuthAgentChat.St)
    (email password : string) (rest : list string) :
  let me := AuthAgentChat.self s in
  let w := AuthAgentChat.world s in
  let rq := login_request (AuthAgentChat.api_url me) (strip email) password in
  stdin w = email :: password :: rest ->
  exists o' : list out,
    let w1 := set_stdout o' (set_sent (sent w ++ [rq]) (set_stdin rest w)) in
    match net w (sent w ++ [rq]) with
    | Fails e => AuthAgentChat.login json_loads s = (Ret false, AuthAgentChat.mkSt me w1)
    | Responds r =>
        if (status_code r =? 200)%Z then
          match json_loads (content r) with
          | Some (JObj d) =>
              let tok := dict_get_default "token" d JNull in
              let usr := dict_get_default "user" d JNull in
              exists o1 o2,
                AuthAgentChat.login json_loads s
                = (Ret (is_dict usr),
                   AuthAgentChat.mkSt (logged_in tok usr me)
                     (set_stdout o2
                        (AuthAgentChat.world
                           (snd (AuthAgentChat._save_credentials
                                   (AuthAgentChat.mkSt (logged_in tok usr me)
                                      (set_stdout o1 w1)))))))
          | _ => AuthAgentChat.login json_loads s = (Ret false, AuthAgentChat.mkSt me w1)
          end
        else AuthAgentChat.login json_loads s = (Ret false, AuthAgentChat.mkSt me w1)
    end.
Proof.
  destruct s as [[url ay vb tmo sid tok usr ae] [i o sn nt f ck]].
  cbv zeta. unfold login_request, logged_in, dict_get_default.
  cbn [AuthAgentChat.self AuthAgentChat.world AuthAgentChat.api_url stdin sent net
       AuthAgentChat.agent_yaml AuthAgentChat.verbose AuthAgentChat.timeout
       AuthAgentChat.session_id AuthAgentChat.auth_enabled].
  intros ->. unfold AuthAgentChat.login, AuthAgentChat.response_json. xrun.
  destruct (nt _) as [e | r]; xrun; [eexists; reflexivity |].
  destruct (status_code r =? 200)%Z; xrun.
  - destruct (json_loads (content r)) as [[| b | q | str | l | d] |]; xrun;
      try (eexists; reflexivity).
    match goal with
    | |- context [AuthAgentChat._save_credentials ?st] =>
        pose proof (save_credentials_returns st) as (Hret & Hself & _);
        destruct (AuthAgentChat._save_credentials st) as [x [me1 w1]] eqn:Hsave
    end.
    cbn [fst snd AuthAgentChat.self] in Hret, Hself. subst x me1. xrun.
    destruct w1 as [i1 o1 sn1 nt1 f1 ck1].
    exists (((o ++ [Print [Lit (nl ++ "=== User Login ===")%string] nl]) ++
             [Prompt "Email: "]) ++ [Prompt "Password: "]).
    eexists. 
    match goal with
    | |- context [match Dict.get "user" d with Some v => v | None => JNull end] =>
        destruct (match Dict.get "user" d with Some v => v | None => JNull end)
    end; xrun; rewrite ?Hsave; xrun; eexists; reflexivity.
  - destruct (json_loads (content r)) as [[| b | q | str | l | d] |]; xrun;
      eexists; reflexivity.
Qed.

(** X4: [login] checks nothing locally: whatever the password, the empty
    one included, it sends exactly one request, with the email stripped
    and the password as typed, and it returns a boolean. *)
Theorem login_always_asks_the_server :
  forall (json_loads : string -> option json) (s : AuthAgentChat.St)
         (email password : string) (rest : list string),
    stdin (AuthAgentChat.world s) = email :: password :: rest ->
    let r := AuthAgentChat.login json_loads s in
    (exists b, fst r = Ret b) /\
    sent (AuthAgentChat.world (snd r))
    = sent (AuthAgentChat.world s) ++
      [login_request (AuthAgentChat.api_url (AuthAgentChat.self s)) (strip email) password].
Proof.
  intros loads s email password rest Hin. cbv zeta.
  destruct (login_run loads s email password rest Hin) as (o' & H).
  destruct s as [me [i o sn nt f ck]].
  cbn [AuthAgentChat.self AuthAgentChat.world sent net] in *. cbv zeta in H.
  destruct (nt _) as [e | r];
    [rewrite H; split; [eexists; reflexivity | reflexivity] |].
  destruct (status_code r =? 200)%Z;
    [| rewrite H; split; [eexists; reflexivity | reflexivity]].
  destruct (loads (content r)) as [[| b | q | str | l | d] |];
    try (rewrite H; split; [eexists; reflexivity | reflexivity]).
  destruct H as (o1 & o2 & ->). split; [eexists; reflexivity |].
  cbn [snd AuthAgentChat.world].
  match goal with
  | |- context [AuthAgentChat._save_credentials ?st] =>
      pose proof (save_credentials_returns st) as (_ & _ & Hsent & _)
  end.
  cbn [AuthAgentChat.world] in Hsent.
  destruct (AuthAgentChat.world (snd (AuthAgentChat._save_credentials _))).
  cbn in *. exact Hsent.
Qed.

Lemma login_always_asks_the_server_witness :
  stdin (AuthAgentChat.world padded_login_state) = [padded_email; "secret"] /\
  strip padded_email = "a@b.c" /\
  sent (AuthAgentChat.world (snd (AuthAgentChat.login more_loads padded_login_state)))
  = [login_request "http://localhost:8080" "a@b.c" "secret"].
Proof.
  split; [reflexivity |]. split; [reflexivity |].
  exact (proj2 (login_always_asks_the_server more_loads padded_login_state
                  padded_email "secret" [] eq_refl)).
Defined.

(** X5: a login the server does not accept (a transport error, or any
    status other than 200) returns False and leaves the token, the user
    and the credentials file as they were. *)
Theorem login_rejected_keeps_credentials :
  forall (json_loads : string -> option json) (s : AuthAgentChat.St)
         (email password : string) (rest : list string),
    let w := AuthAgentChat.world s in
    let rq := login_request (AuthAgentChat.api_url (AuthAgentChat.self s))
                (strip email) password in
    let r := AuthAgentChat.login json_loads s in
    stdin w = email :: password :: rest ->
    ((exists e, net w (sent w ++ [rq]) = Fails e) \/
     (exists resp, net w (sent w ++ [rq]) = Responds resp /\ status_code resp <> 200%Z)) ->
    fst r = Ret false /\
    AuthAgentChat.self (snd r) = AuthAgentChat.self s /\
    creds (AuthAgentChat.world (snd r)) = creds w.
Proof.
  intros loads s email password rest. cbv zeta. intros Hin Hans.
  destruct (login_run loads s email password rest Hin) as (o' & H).
  destruct s as [me [i o sn nt f ck]].
  cbn [AuthAgentChat.self AuthAgentChat.world sent net creds] in *. cbv zeta in H.
  destruct Hans as [(e & He) | (resp & He & Hst)]; rewrite He in H.
  - rewrite H. repeat split; reflexivity.
  - apply Z.eqb_neq in Hst. rewrite Hst in H. rewrite H. repeat split; reflexivity.
Qed.

Lemma login_rejected_keeps_credentials_witness :
  stdin (AuthAgentChat.world unauthorized_state) = ["a@b.c"; "Ann"; "secret"; "secret"] /\
  status_code unauthorized <> 200%Z /\
  AuthAgentChat.token
    (AuthAgentChat.self (snd (AuthAgentChat.login more_loads unauthorized_state)))
  = JStr "t0".
Proof.
  assert (H : status_code unauthorized <> 200%Z) by (intros E; discriminate E).
  split; [reflexivity |]. split; [exact H |].
  destruct (login_rejected_keeps_credentials more_loads unauthorized_state
              "a@b.c" "Ann" ["secret"; "secret"] eq_refl
              (or_intror (ex_intro _ unauthorized (conj eq_refl H))))
    as (_ & Hself & _).
  now rewrite Hself.
Defined.

(** X6: on a 200 answer whose body is a JSON object, with a credentials
    file that is absent or holds a JSON object, [login] takes the token
    and the user from the answer and saves them; it then returns True
    exactly when the user field is an object: without one the
    credentials are held and saved all the same, and the login is
    reported as failed. *)
Theorem login_accepted_saves_credentials :
  forall (json_loads : string -> option json) (s : AuthAgentChat.St)
         (email password : string) (rest : list string)
         (resp : response) (d : Dict.t),
    let me := AuthAgentChat.self s in
    let w := AuthAgentChat.world s in
    let rq := login_request (AuthAgentChat.api_url me) (strip email) password in
    let tok := dict_get_default "token" d JNull in
    let usr := dict_get_default "user" d JNull in
    let r := AuthAgentChat.login json_loads s in
    stdin w = email :: password :: rest ->
    net w (sent w ++ [rq]) = Responds resp ->
    status_code resp = 200%Z ->
    json_loads (content resp) = Some (JObj d) ->
    store_ok (creds w) ->
    fst r = Ret (is_dict usr) /\
    AuthAgentChat.self (snd r) = logged_in tok usr me /\
    stored (AuthAgentChat.api_url me) (creds (AuthAgentChat.world (snd r)))
    = Some (JObj [("token", tok); ("user", usr); ("saved_at", JStr (clock w))]).
Proof.
  intros loads s email password rest resp d. cbv zeta.
  intros Hin Hans Hst Hbody Hok.
  destruct (login_run loads s email password rest Hin) as (o' & H).
  destruct s as [me [i o sn nt f ck]].
  cbn [AuthAgentChat.self AuthAgentChat.world sent net creds clock] in *.
  cbv zeta in H. rewrite Hans, Hbody in H.
  apply Z.eqb_eq in Hst. rewrite Hst in H.
  destruct H as (o1 & o2 & ->). cbn [fst snd AuthAgentChat.self AuthAgentChat.world].
  split; [reflexivity |]. split; [reflexivity |].
  match goal with
  | |- context [AuthAgentChat._save_credentials ?st] =>
      pose proof (save_credentials_returns st) as (_ & _ & _ & _ & _ & Hsto)
  end.
  cbn [AuthAgentChat.self AuthAgentChat.world creds clock set_stdout set_sent set_stdin
       stdin stdout sent net] in Hsto.
  specialize (Hsto Hok).
  destruct (AuthAgentChat.world (snd (AuthAgentChat._save_credentials _))).
  cbn in *. destruct me. exact Hsto.
Qed.

Lemma login_accepted_saves_credentials_witness :
  store_ok (creds (signup_world (fun _ => Responds (answered "token only")))) /\
  let r := AuthAgentChat.login more_loads
             (AuthAgentChat.mkSt sample_self
                (signup_world (fun _ => Responds (answered "token only")))) in
  fst r = Ret false /\
  AuthAgentChat.token (AuthAgentChat.self (snd r)) = JStr "t1" /\
  stored "http://localhost:8080" (creds (AuthAgentChat.world (snd r)))
  = Some (JObj [("token", JStr "t1"); ("user", JNull);
                ("saved_at", JStr "2025-01-01T00:00:00")]).
Proof.
  assert (H : store_ok (creds (signup_world (fun _ => Responds (answered "token only")))))
    by (left; reflexivity).
  split; [exact H |].
  destruct (login_accepted_saves_credentials more_loads
              (AuthAgentChat.mkSt sample_self
                 (signup_world (fun _ => Responds (answered "token only"))))
              " a@b.c " "Ann" ["longpassword"; "longpassword"]
              (answered "token only") [("token", JStr "t1")]
              eq_refl eq_refl eq_refl eq_refl H)
    as (Hret & Hself & Hsto).
  cbv zeta. split; [exact Hret |]. split; [now rewrite Hself | exact Hsto].
Defined.

(** What [register] does once the two passwords have passed the local
    checks, case by case on the answer of the server. *)
Lemma register_run (json_loads : string -> option json) (s : AuthAgentChat.St)
    (email name password : string) (rest : list string) :
  let me := AuthAgentChat.self s in
  let w := AuthAgentChat.world s in
  let rq := register_request (AuthAgentChat.api_url me) (strip email) (strip name)
              password in
  stdin w = email :: name :: password :: password :: rest ->
  8 <= len_str password ->
  exists o' : list out,
    let w1 := set_stdout o' (set_sent (sent w ++ [rq]) (set_stdin rest w)) in
    match net w (sent w ++ [rq]) with
    | Fails e => AuthAgentChat.register json_loads s = (Ret false, AuthAgentChat.mkSt me w1)
    | Responds r =>
        if (status_code r =? 200)%Z then
          match json_loads (content r) with
          | Some (JObj d) =>
              let tok := dict_get_default "token" d JNull in
              let usr := dict_get_default "user" d JNull in
              exists o1 o2,
                AuthAgentChat.register json_loads s
                = (Ret true,
                   AuthAgentChat.mkSt (logged_in tok usr me)
                     (set_stdout o2
                        (AuthAgentChat.world
                           (snd (AuthAgentChat._save_credentials
                                   (AuthAgentChat.mkSt (logged_in tok usr me)
                                      (set_stdout o1 w1)))))))
          | _ => AuthAgentChat.register json_loads s = (Ret false, AuthAgentChat.mkSt me w1)
          end
        else AuthAgentChat.register json_loads s = (Ret false, AuthAgentChat.mkSt me w1)
    end.
Proof.
  destruct s as [[url ay vb tmo sid tok usr ae] [i o sn nt f ck]].
  cbv zeta. unfold register_request, logged_in, dict_get_default.
  cbn [AuthAgentChat.self AuthAgentChat.world AuthAgentChat.api_url stdin sent net
       AuthAgentChat.agent_yaml AuthAgentChat.verbose AuthAgentChat.timeout
       AuthAgentChat.session_id AuthAgentChat.auth_enabled].
  intros -> Hlen. unfold AuthAgentChat.register, AuthAgentChat.response_json. xrun.
  rewrite String.eqb_refl. xrun.
  apply Nat.ltb_ge in Hlen. rewrite Hlen. xrun.
  destruct (nt _) as [e | r]; xrun; [eexists; reflexivity |].
  destruct (status_code r =? 200)%Z; xrun.
  - destruct (json_loads (content r)) as [[| b | q | str | l | d] |]; xrun;
      try (eexists; reflexivity).
    match goal with
    | |- context [AuthAgentChat._save_credentials ?st] =>
        pose proof (save_credentials_returns st) as (Hret & Hself & _);
        destruct (AuthAgentChat._save_credentials st) as [x [me1 w1]] eqn:Hsave
    end.
    cbn [fst snd AuthAgentChat.self] in Hret, Hself. subst x me1. xrun.
    destruct w1 as [i1 o1 sn1 nt1 f1 ck1].
    exists (((((o ++ [Print [Lit (nl ++ "=== User Registration ===")%string] nl]) ++
               [Prompt "Email: "]) ++ [Prompt "Name: "]) ++ [Prompt "Password: "]) ++
            [Prompt "Confirm Password: "]).
    eexists. rewrite ?Hsave. xrun. eexists. reflexivity.
  - destruct (json_loads (content r)) as [[| b | q | str | l | d] |]; xrun;
      eexists; reflexivity.
Qed.

(** X7: a registration that passes the local checks (the two passwords
    equal, at least 8 characters) sends exactly one request, with the
    email and the name stripped.  When the answer has status 200 and a
    JSON object as body, it returns True, the token and the user of the
    body are held, and they are saved if the credentials file is
    usable.  In every other case it returns False and the token, the
    user and the file are as before. *)
Theorem register_outcome :
  forall (json_loads : string -> option json) (s : AuthAgentChat.St)
         (email name password : string) (rest : list string),
    let me := AuthAgentChat.self s in
    let w := AuthAgentChat.world s in
    let rq := register_request (AuthAgentChat.api_url me) (strip email) (strip name)
                password in
    let r := AuthAgentChat.register json_loads s in
    stdin w = email :: name :: password :: password :: rest ->
    8 <= len_str password ->
    sent (AuthAgentChat.world (snd r)) = sent w ++ [rq] /\
    (forall resp d,
        net w (sent w ++ [rq]) = Responds resp ->
        status_code resp = 200%Z ->
        json_loads (content resp) = Some (JObj d) ->
        fst r = Ret true /\
        AuthAgentChat.self (snd r)
        = logged_in (dict_get_default "token" d JNull) (dict_get_default "user" d JNull) me /\
        (store_ok (creds w) ->
         stored (AuthAgentChat.api_url me) (creds (AuthAgentChat.world (snd r)))
         = Some (JObj [("token", dict_get_default "token" d JNull);
                       ("user", dict_get_default "user" d JNull);
                       ("saved_at", JStr (clock w))]))) /\
    ((forall resp d,
         net w (sent w ++ [rq]) = Responds resp ->
         status_code resp = 200%Z ->
         json_loads (content resp) <> Some (JObj d)) ->
     fst r = Ret false /\
     AuthAgentChat.self (snd r) = me /\
     creds (AuthAgentChat.world (snd r)) = creds w).
Proof.
  intros loads s email name password rest. cbv zeta. intros Hin Hlen.
  destruct (register_run loads s email name password rest Hin Hlen) as (o' & H).
  destruct s as [me [i o sn nt f ck]].
  cbn [AuthAgentChat.self AuthAgentChat.world sent net creds clock] in *.
  cbv zeta in H.
  destruct (nt _) as [e | resp] eqn:Hans;
    [rewrite H; split; [reflexivity |];
     split; [intros ? ? [=] | intros _; repeat split; reflexivity] |].
  destruct (Z.eqb_spec (status_code resp) 200) as [Hst | Hst];
    [| rewrite H; split; [reflexivity |];
       split; [intros ? ? [= <-] ?; contradiction | intros _; repeat split; reflexivity]].
  destruct (loads (content resp)) as [[| b | q | str | l | d] |] eqn:Hbody;
    try (rewrite H; split; [reflexivity |];
         split; [intros ? ? [= <-] _ Hb; congruence
                | intros _; repeat split; reflexivity]).
  destruct H as (o1 & o2 & ->). cbn [fst snd AuthAgentChat.self AuthAgentChat.world].
  match goal with
  | |- context [AuthAgentChat._save_credentials ?st] =>
      pose proof (save_credentials_returns st) as (_ & _ & Hsent & _ & _ & Hsto)
  end.
  cbn [AuthAgentChat.self AuthAgentChat.world creds clock set_stdout set_sent set_stdin
       stdin stdout sent net] in Hsent, Hsto.
  destruct (AuthAgentChat.world (snd (AuthAgentChat._save_credentials _))).
  cbn in *. split; [exact Hsent |]. split.
  - intros resp' d' [= <-] _ Hb. rewrite Hbody in Hb. injection Hb as <-.
    repeat split; auto; destruct me; exact Hsto.
  - intros Hnone. exfalso. exact (Hnone resp d eq_refl Hst Hbody).
Qed.

Lemma register_outcome_witness :
  let s := AuthAgentChat.mkSt sample_self
             (signup_world (fun _ => Responds (answered "auth"))) in
  stdin (AuthAgentChat.world s) = [" a@b.c "; "Ann"; "longpassword"; "longpassword"] /\
  8 <= len_str "longpassword" /\
  sent (AuthAgentChat.world (snd (AuthAgentChat.register more_loads s)))
  = [register_request "http://localhost:8080" "a@b.c" "Ann" "longpassword"] /\
  fst (AuthAgentChat.register more_loads s) = Ret true /\
  AuthAgentChat.token (AuthAgentChat.self (snd (AuthAgentChat.register more_loads s)))
  = JStr "t1".
Proof.
  cbv zeta.
  assert (H : 8 <= len_str "longpassword") by (vm_compute; lia).
  split; [reflexivity |]. split; [exact H |].
  destruct (register_outcome more_loads
              (AuthAgentChat.mkSt sample_self
                 (signup_world (fun _ => Responds (answered "auth"))))
              " a@b.c " "Ann" "longpassword" [] eq_refl H)
    as (Hsent & Hyes & _).
  split; [exact Hsent |].
  destruct (Hyes (answered "auth")
              [("token", JStr "t1");
               ("user", JObj [("email", JStr "a@b.c"); ("name", JStr "Ann")])]
              eq_refl eq_refl eq_refl)
    as (Hret & Hself & _).
  split; [exact Hret |]. rewrite Hself. reflexivity.
Defined.

(** ** The agent catalog and the construction of the client *)

(** X8: [verify_agent] never raises. It sends exactly one request,
    returns a boolean and leaves the client and the credentials file
    as they were; it returns True only when the server answered with a
    success status and a JSON catalog that lists the agent under its
    [.yaml] name. *)
Theorem verify_agent_total :
  forall (json_loads : string -> option json) (s : AuthAgentChat.St),
    let me := AuthAgentChat.self s in
    let w := AuthAgentChat.world s in
    let r := AuthAgentChat.verify_agent json_loads s in
    (exists b, fst r = Ret b) /\
    sent (AuthAgentChat.world (snd r)) = sent w ++ [agents_request me] /\
    AuthAgentChat.self (snd r) = me /\
    creds (AuthAgentChat.world (snd r)) = creds w /\
    (fst r = Ret true ->
     exists resp agents items,
       net w (sent w ++ [agents_request me]) = Responds resp /\
       ok resp = true /\
       json_loads (content resp) = Some agents /\
       py_iter agents = Ret items /\
       In (JStr (AuthAgentChat.agent_check_of (AuthAgentChat.agent_yaml me)))
          (flat_map AuthAgentChat.agent_names_of items)).
Proof.
  intros loads [[url ay vb tmo sid tok usr ae] [i o sn nt f ck]]. cbv zeta.
  unfold agents_request, auth_headers.
  cbn [AuthAgentChat.self AuthAgentChat.world AuthAgentChat.api_url AuthAgentChat.token
       AuthAgentChat.agent_yaml sent net creds].
  unfold AuthAgentChat.verify_agent, AuthAgentChat._headers,
    AuthAgentChat.response_json. xrun.
  destruct (nt _) as [e | resp] eqn:Hnet; xrun;
    [repeat split; try reflexivity; [eexists; reflexivity | discriminate] |].
  destruct (ok resp) eqn:Hok; xrun;
    [| repeat split; try reflexivity; [eexists; reflexivity | discriminate]].
  destruct (loads (content resp)) as [agents |] eqn:Hbody; xrun;
    [| repeat split; try reflexivity; [eexists; reflexivity | discriminate]].
  destruct (py_iter agents) as [items | e] eqn:Hiter; xrun;
    [| repeat split; try reflexivity; [eexists; reflexivity | discriminate]].
  destruct (existsb _ _) eqn:E; xrun.
  - repeat split; try reflexivity; [eexists; reflexivity |].
    intros _. exists resp, agents, items. repeat split; auto.
    now apply existsb_is_str.
  - rewrite for_each_print. xrun.
    repeat split; try reflexivity; [eexists; reflexivity | discriminate].
Qed.

Lemma check_auth_enabled_run (s : AuthAgentChat.St) :
  let me := AuthAgentChat.self s in
  let w := AuthAgentChat.world s in
  let rq := probe_request (AuthAgentChat.api_url me) in
  exists o',
    AuthAgentChat._check_auth_enabled s
    = (Ret (probe_says (net w (sent w ++ [rq]))),
       AuthAgentChat.mkSt me (set_stdout o' (set_sent (sent w ++ [rq]) w))).
Proof.
  destruct s as [[url ay vb tmo sid tok usr ae] [i o sn nt f ck]].
  unfold AuthAgentChat._check_auth_enabled, probe_request, probe_says. xrun.
  destruct (nt _) as [e | r]; xrun.
  - destruct vb; xrun; eexists; reflexivity.
  - destruct ((status_code r =? 401)%Z || (status_code r =? 403)%Z); xrun;
      [destruct vb; xrun; eexists; reflexivity |].
    destruct (status_code r =? 200)%Z; destruct vb; xrun; eexists; reflexivity.
Qed.

Lemma load_credentials_shape (s : AuthAgentChat.St) :
  let me := AuthAgentChat.self s in
  let w := AuthAgentChat.world s in
  exists tok' usr' o',
    AuthAgentChat._load_credentials s
    = (Ret tt, AuthAgentChat.mkSt (logged_in tok' usr' me) (set_stdout o' w)) /\
    (stored (AuthAgentChat.api_url me) (creds w) = None ->
     tok' = AuthAgentChat.token me /\ usr' = AuthAgentChat.user me) /\
    (forall entry,
        stored (AuthAgentChat.api_url me) (creds w) = Some (JObj entry) ->
        tok' = dict_get_default "token" entry JNull /\
        usr' = dict_get_default "user" entry JNull).
Proof.
  destruct s as [[url ay vb tmo sid tok usr ae] [i o sn nt f ck]].
  unfold AuthAgentChat._load_credentials, logged_in, dict_get_default.
  destruct f as [[| d] |]; [| destruct d as [| b | q | str | l | kvs] |];
    cbn [stored AuthAgentChat.self AuthAgentChat.world AuthAgentChat.api_url
         AuthAgentChat.token AuthAgentChat.user creds];
    try (xrun; destruct vb; xrun; do 3 eexists;
         (split; [reflexivity | split; [intros _; split; reflexivity | intros ? [=]]])).
  - xrun. destruct (str_contains url str); xrun; destruct vb; xrun;
      do 3 eexists;
      (split; [reflexivity | split; [intros _; split; reflexivity | intros ? [=]]]).
  - xrun. destruct (existsb _ l); xrun; destruct vb; xrun;
      do 3 eexists;
      (split; [reflexivity | split; [intros _; split; reflexivity | intros ? [=]]]).
  - xrun. destruct (existsb _ (Dict.keys kvs)) eqn:E; xrun.
    + destruct (dict_get_of_key url kvs E) as (v & Hv). rewrite Hv. xrun.
      destruct v as [| b | q | str | l | entry]; xrun;
        try (destruct vb; xrun; do 3 eexists;
             (split; [reflexivity | split; [intros [=] | intros ? [=]]])).
      destruct vb; xrun;
        [| do 3 eexists;
           (split; [reflexivity
                   | split; [intros [=] | intros ? [= <-]; split; reflexivity]])].
      xcrunch; do 3 eexists;
        (split; [reflexivity
                | split; [intros [=]
                         | intros ? [= <-]; split;
                           repeat match goal with
                                  | H : Dict.get _ _ = _ |- _ => rewrite H; clear H
                                  end; reflexivity]]).
    + do 3 eexists. split; [reflexivity |]. split; [intros _; split; reflexivity |].
      intros entry Hget.
      assert (Hk : existsb (fun k' => String.eqb k' url) (Dict.keys kvs) = true).
      { destruct (existsb _ (Dict.keys kvs)) eqn:E'; auto.
        apply dict_has_key in E'. congruence. }
      congruence.
Qed.

Lemma init_run (api_url agent_yaml : string) (verbose : bool) (timeout : Z) (w : World) :
  let url := rstrip_slash api_url in
  let enabled := probe_says (net w (sent w ++ [probe_request url])) in
  exists tok' usr' o',
    AuthAgentChat.__init__ api_url agent_yaml verbose timeout w
    = (Ret tt,
       AuthAgentChat.mkSt
         (AuthAgentChat.mkSelf url agent_yaml verbose timeout JNull tok' usr' enabled)
         (set_stdout o' (set_sent (sent w ++ [probe_request url]) w))) /\
    (stored url (creds w) = None -> tok' = JNull /\ usr' = JNull) /\
    (forall entry,
        stored url (creds w) = Some (JObj entry) ->
        tok' = dict_get_default "token" entry JNull /\
        usr' = dict_get_default "user" entry JNull).
Proof.
  destruct w as [i o sn nt f ck]. cbv zeta.
  unfold AuthAgentChat.__init__. unfold bind at 1.
  match goal with
  | |- context [AuthAgentChat._check_auth_enabled ?st] =>
      destruct (check_auth_enabled_run st) as (o1 & ->)
  end.
  xrun.
  match goal with
  | |- context [AuthAgentChat._load_credentials ?st] =>
      destruct (load_credentials_shape st) as (tok' & usr' & o2 & -> & Hnone & Hsome)
  end.
  unfold logged_in in *. xrun. cbn in Hnone, Hsome.
  exists tok', usr', o2. repeat split; try reflexivity.
  - now apply Hnone.
  - now apply Hnone.
  - now apply (Hsome entry).
  - now apply (Hsome entry).
Qed.

(** X9: constructing the client never raises. [__init__] strips the
    trailing slashes of the server URL, sends exactly one request (the
    unauthenticated probe of the stripped URL), starts without a
    session, leaves the credentials file alone, and holds the token and
    user saved for the stripped URL when the file has an entry for it
    (whatever the probe said), None otherwise. Its auth flag is what
    the probe said: set exactly on an answer with status 401 or 403. *)
Theorem init_normalizes_and_loads :
  forall (api_url agent_yaml : string) (verbose : bool) (timeout : Z) (w : World),
    let r := AuthAgentChat.__init__ api_url agent_yaml verbose timeout w in
    let me := AuthAgentChat.self (snd r) in
    let w' := AuthAgentChat.world (snd r) in
    let url := rstrip_slash api_url in
    fst r = Ret tt /\
    AuthAgentChat.api_url me = url /\
    AuthAgentChat.agent_yaml me = agent_yaml /\
    AuthAgentChat.session_id me = JNull /\
    sent w' = sent w ++ [probe_request url] /\
    creds w' = creds w /\
    stdin w' = stdin w /\
    (stored url (creds w) = None ->
     AuthAgentChat.token me = JNull /\ AuthAgentChat.user me = JNull) /\
    (forall entry,
        stored url (creds w) = Some (JObj entry) ->
        AuthAgentChat.token me = dict_get_default "token" entry JNull /\
        AuthAgentChat.user me = dict_get_default "user" entry JNull) /\
    AuthAgentChat.auth_enabled me = probe_says (net w (sent w ++ [probe_request url])).
Proof.
  intros api_url ay vb tmo w. cbv zeta.
  destruct (init_run api_url ay vb tmo w) as (tok' & usr' & o' & -> & Hnone & Hsome).
  destruct w as [i o sn nt f ck]. cbn in *.
  repeat split; try reflexivity.
  - now apply Hnone.
  - now apply Hnone.
  - now apply (Hsome entry).
  - now apply (Hsome entry).
Qed.

Lemma init_normalizes_and_loads_witness :
  let r := AuthAgentChat.__init__ "http://localhost:8080//" "pirate" false 120
             (stored_world (fun _ => Responds (answered "auth"))) in
  AuthAgentChat.api_url (AuthAgentChat.self (snd r)) = "http://localhost:8080" /\
  AuthAgentChat.token (AuthAgentChat.self (snd r)) = JStr "old" /\
  AuthAgentChat.user (AuthAgentChat.self (snd r)) = JNull.
Proof.
  pose proof (init_normalizes_and_loads "http://localhost:8080//" "pirate"
                false 120 (stored_world (fun _ => Responds (answered "auth")))) as H.
  cbv zeta in H. destruct H as (_ & Hurl & _ & _ & _ & _ & _ & _ & Hsome & _).
  split; [rewrite Hurl; reflexivity |].
  exact (Hsome [("token", JStr "old")] eq_refl).
Defined.

(** ** Sending a message *)







Lemma py_get_raise (x : json) (k : string) (d : json) (e : exn) :
  py_get x k d = Raise e -> is_RequestException e = false.
Proof. destruct x; cbn; intros [= <-]; reflexivity. Qed.

Lemma py_gt0_raise (x : json) (e : exn) :
  py_gt0 x = Raise e -> is_RequestException e = false.
Proof. destruct x; cbn; intros [= <-]; reflexivity. Qed.

Lemma join_raise (parts : list json) (e : exn) :
  join parts = Raise e -> is_RequestException e = false.
Proof.
  induction parts as [| [| b | q | str | l | d] parts IH]; cbn; try (intros [= <-]; reflexivity).
  destruct (join parts); [discriminate | intros [= <-]; auto].
Qed.

Ltac no_request_exn :=
  exfalso;
  match goal with
  | H : py_get _ _ _ = Raise ?e, H' : is_RequestException ?e = true |- _ =>
      apply py_get_raise in H; congruence
  | H : py_gt0 _ = Raise ?e, H' : is_RequestException ?e = true |- _ =>
      apply py_gt0_raise in H; congruence
  | H : join _ = Raise ?e, H' : is_RequestException ?e = true |- _ =>
      apply join_raise in H; congruence
  end.

Ltac hist_none :=
  split; [reflexivity |]; exists [];
  split; [reflexivity |]; split; [now left |];
  split; [intros ? [=] | intros _; reflexivity].

Ltac hist_some :=
  split; [reflexivity |]; eexists;
  split; [rewrite <- app_assoc; reflexivity |];
  split; [right; eexists; reflexivity |];
  split; [first [solve [intros ? [=]] | intros ? [= <-]; split; [reflexivity | assumption]]
         | intros [=]].

(** X11: the history of [CagentChatClient]. Without a session id
    [send_message] returns None, sends nothing and leaves the history
    alone. With one, the user's message is appended before the request
    is made and stays there whatever happens next; the assistant's
    entry follows it whenever a text is returned (a text that is never
    empty), and never when None is returned. *)
Theorem cagent_history_bookkeeping :
  forall (json_loads : string -> option json) (message : string)
         (s : CagentChatClient.St),
    let me := CagentChatClient.self s in
    let w := CagentChatClient.world s in
    let r := CagentChatClient.send_message json_loads message s in
    let me' := CagentChatClient.self (snd r) in
    (truthy (CagentChatClient.session_id me) = false ->
     r = (Ret None,
          CagentChatClient.mkSt me
            (set_stdout (stdout w ++ [no_session_notice (CagentChatClient.colors s)]) w)
            (CagentChatClient.colors s))) /\
    (truthy (CagentChatClient.session_id me) = true ->
     CagentChatClient.session_id me' = CagentChatClient.session_id me /\
     exists tail,
       CagentChatClient.messages_history me'
       = CagentChatClient.messages_history me ++ user_entry message :: tail /\
       (tail = [] \/ exists text, tail = [assistant_entry text]) /\
       (forall text, fst r = Ret (Some text) ->
                     tail = [assistant_entry text] /\ text <> EmptyString) /\
       (fst r = Ret None -> tail = [])).
Proof.
  intros loads message [[name sid hist] [i o sn nt f ck] c]. cbv zeta.
  cbn [CagentChatClient.self CagentChatClient.world CagentChatClient.session_id
       CagentChatClient.messages_history CagentChatClient.colors].
  unfold no_session_notice, user_entry, assistant_entry.
  unfold CagentChatClient.send_message. xrun.
  split; intros Hsid; rewrite Hsid; xrun; [reflexivity |].
  destruct (nt _) as [e | r]; xrun;
    [destruct (is_RequestException e); xrun; hist_none |].
  destruct (ok r); xrun; [| hist_none].
  match goal with
  | |- context [CagentChatClient.lines_loop ?l ?ct ?ch ?fr ?tu
                  (CagentChatClient.mkSt ?m ?ww ?cc)] =>
      destruct (lines_loop_dispatch l ct ch fr tu m ww cc) as (o1 & ->)
  end.
  destruct (dispatch_lines _ _ _) as [[[fr tu] |] | e]; xrun;
    [| hist_none | destruct (is_RequestException e); xrun; hist_none].
  destruct (join fr) as [text | e]; xrun;
    [| destruct (is_RequestException e); xrun; hist_none].
  destruct (String.eqb text EmptyString) eqn:Htext; xrun; [hist_none |].
  apply String.eqb_neq in Htext.
  xcrunch; first [solve [no_request_exn] | hist_some].
Qed.

Lemma cagent_history_bookkeeping_witness :
  truthy (CagentChatClient.session_id (CagentChatClient.self sample_cagent_state)) = true /\
  exists tail,
    CagentChatClient.messages_history
      (CagentChatClient.self
         (snd (CagentChatClient.send_message sample_loads "hi" sample_cagent_state)))
    = [] ++ user_entry "hi" :: tail.
Proof.
  split; [reflexivity |].
  destruct (proj2 (cagent_history_bookkeeping sample_loads "hi" sample_cagent_state) eq_refl)
    as (_ & tail & H & _).
  exists tail. exact H.
Defined.

Lemma dispatch_lines_not_an_object (cut : option exn) (pre rest : list event) :
  forall acc,
    existsb stops pre = false ->
    dispatch_lines cut (pre ++ NotAnObject :: rest) acc = Raise AttributeError.
Proof.
  induction pre as [| e pre IH]; intros acc Hpre; cbn [app dispatch_lines].
  - reflexivity.
  - cbn [existsb] in Hpre. apply orb_false_iff in Hpre as [He Hpre].
    destruct e; try discriminate He; cbn [dispatch_line]; now apply IH.
Qed.

(** X12: the two clients differ on a payload that is JSON but not an
    object (a list, a string, a number, null). [AuthAgentChat] skips
    such an event and goes on with the text and usage it had;
    [CagentChatClient.send_message] is aborted by the AttributeError of
    [data.get], which none of its handlers catches. *)
Theorem non_object_payload_contrast :
  forall (json_loads : string -> option json) (payload : string) (v : json),
    json_loads payload = Some v ->
    is_dict v = false ->
    (forall (show_progress : bool) (full_response : list json) (token_usage : json)
            (s : AuthAgentChat.St),
        fst (AuthAgentChat.handle_event json_loads show_progress payload
               full_response token_usage s)
        = Ret (AuthAgentChat.Continue, (full_response, token_usage))) /\
    (forall (message : string) (s : CagentChatClient.St) (r : response)
            (pre after : list string) (line : string),
        let me := CagentChatClient.self s in
        let w := CagentChatClient.world s in
        truthy (CagentChatClient.session_id me) = true ->
        net w (sent w ++ [cagent_send_request me message]) = Responds r ->
        ok r = true ->
        lines r = pre ++ line :: after ->
        line_payload line = Some payload ->
        existsb stops (decode_lines json_loads pre) = false ->
        fst (CagentChatClient.send_message json_loads message s) = Raise AttributeError).
Proof.
  intros loads payload v Hv Hnot. split.
  - intros sp fr tu [me w].
    destruct (handle_event_dispatch loads sp payload fr tu me w) as (o1 & ->).
    rewrite Hv. destruct v; try discriminate Hnot; reflexivity.
  - intros message [[name sid hist] [i o sn nt f ck] c] r pre after line. cbv zeta.
    unfold cagent_send_request.
    cbn [CagentChatClient.self CagentChatClient.world CagentChatClient.session_id
         CagentChatClient.agent_name sent net].
    intros Hsid Hnet Hok Hlines Hline Hpre.
    unfold CagentChatClient.send_message. xrun. rewrite Hsid. xrun.
    rewrite Hnet. xrun. rewrite Hok. xrun.
    match goal with
    | |- context [CagentChatClient.lines_loop ?l ?ct ?ch ?fr ?tu
                  (CagentChatClient.mkSt ?m ?ww ?cc)] =>
        destruct (lines_loop_dispatch l ct ch fr tu m ww cc) as (o1 & ->)
    end.
    rewrite Hlines. unfold decode_lines. rewrite flat_map_app. cbn [flat_map].
    rewrite Hline, Hv.
    replace (decode (Some v)) with NotAnObject
      by (destruct v; try discriminate Hnot; reflexivity).
    cbn [app]. rewrite dispatch_lines_not_an_object by exact Hpre.
    xrun. reflexivity.
Qed.

Lemma non_object_payload_contrast_witness :
  fst (CagentChatClient.send_message more_loads "hi" listy_state) = Raise AttributeError.
Proof.
  exact (proj2 (non_object_payload_contrast more_loads "list" (JArr [num 1])
                  eq_refl eq_refl)
           "hi" listy_state listy_stream
           ["data: choice a"] ["data: choice b"] "data: list"
           eq_refl eq_refl eq_refl eq_refl eq_refl eq_refl).
Defined.

Lemma send_message_first_attempt_run (json_loads : string -> option json)
    (message : string) (show_progress : bool) (me : AuthAgentChat.Self) (w : World)
    (r : response) :
  let rq := send_request me (user_payload message) in
  let decoded := decode_all json_loads (events r) in
  let usage := snd (dispatch_all decoded ([], JObj [])) in
  truthy (AuthAgentChat.session_id me) = true ->
  net w (sent w ++ [rq]) = Responds r ->
  ok r = true ->
  exists o',
    AuthAgentChat.send_message json_loads message show_progress (AuthAgentChat.mkSt me w)
    = (match stream_end (cut r) decoded tt with
       | Raise e => Raise e
       | Ret _ => if show_progress && truthy usage && negb (is_dict usage)
                  then Raise AttributeError else Ret tt
       end,
       AuthAgentChat.mkSt me (set_stdout o' (set_sent (sent w ++ [rq]) w))).
Proof.
  destruct me as [url ay vb tmo sid tok usr ae]. destruct w as [i o sn nt f ck].
  cbv zeta. cbn [AuthAgentChat.session_id].
  intros Hsid Hnet Hok.
  unfold AuthAgentChat.send_message. xrun. rewrite Hsid. xrun.
  change (AuthAgentChat.max_retries - 0) with 3.
  pose proof (retry_step_success (user_payload message) 2 0 _ _ r Hnet Hok) as Hloop.
  unfold user_payload in Hloop. rewrite Hloop. clear Hloop.
  unfold after_attempt, send_request, auth_headers, user_payload. xrun.
  destruct show_progress; xrun;
    match goal with
    | |- context [AuthAgentChat.events_loop ?l ?sh ?ct ?evs ?fr ?tu
                    (AuthAgentChat.mkSt ?m ?ww)] =>
        destruct (events_loop_dispatch l sh ct evs fr tu m ww) as (o2 & ->)
    end;
    unfold stream_end;
    (destruct (existsb is_error _); [| destruct (cut r) as [e |]]);
    xrun; try (eexists; reflexivity);
    destruct (dispatch_all _ _) as [fr tu]; xrun;
    destruct tu as [| b | q | str | l | d]; cbn [is_dict negb andb truthy];
    rewrite ?andb_true_r, ?andb_false_r;
    xcrunch; eexists; reflexivity.
Qed.

(** X13: [AuthAgentChat.send_message] when the first attempt is
    answered with a success status. One request is sent and the client
    and the credentials file are left as they were. If the stream is
    cut by a transport error before any error event, that error leaves
    the method: the loop over the events is outside every handler.
    Otherwise the method returns normally, except when progress is
    shown and the usage of the last token_usage event consumed is
    truthy but not a dict (a number, a string, a non-empty list): then
    the token line raises AttributeError after the answer was
    streamed. *)
Theorem send_message_first_attempt :
  forall (json_loads : string -> option json) (s : AuthAgentChat.St)
         (message : string) (show_progress : bool) (r : response),
    let me := AuthAgentChat.self s in
    let w := AuthAgentChat.world s in
    let rq := send_request me (user_payload message) in
    let decoded := decode_all json_loads (events r) in
    let usage := snd (dispatch_all decoded ([], JObj [])) in
    let run := AuthAgentChat.send_message json_loads message show_progress s in
    truthy (AuthAgentChat.session_id me) = true ->
    net w (sent w ++ [rq]) = Responds r ->
    ok r = true ->
    (forall e, existsb is_error decoded = false -> cut r = Some e ->
               fst run = Raise e) /\
    (existsb is_error decoded = true \/ cut r = None ->
     fst run = (if show_progress && truthy usage && negb (is_dict usage)
                then Raise AttributeError else Ret tt)) /\
    sent (AuthAgentChat.world (snd run)) = sent w ++ [rq] /\
    AuthAgentChat.self (snd run) = me /\
    creds (AuthAgentChat.world (snd run)) = creds w.
Proof.
  intros loads [me w] message sp r. cbv zeta.
  cbn [AuthAgentChat.self AuthAgentChat.world].
  intros Hsid Hnet Hok.
  destruct (send_message_first_attempt_run loads message sp me w r Hsid Hnet Hok)
    as (o' & ->).
  destruct w as [i o sn nt f ck]. cbn [fst snd]. unfold stream_end.
  split; [| split; [| repeat split; reflexivity]].
  - intros e -> ->. reflexivity.
  - intros [-> | ->]; [reflexivity |].
    destruct (existsb is_error _); reflexivity.
Qed.

Lemma send_message_first_attempt_witness :
  fst (AuthAgentChat.send_message more_loads "hi" true
         (AuthAgentChat.mkSt sample_self (stored_world (fun _ => Responds streamed))))
  = Ret tt /\
  fst (AuthAgentChat.send_message more_loads "hi" true
         (AuthAgentChat.mkSt sample_self (stored_world (fun _ => Responds broken_stream))))
  = Raise ConnectionError.
Proof.
  split.
  - exact (proj1 (proj2 (send_message_first_attempt more_loads
                           (AuthAgentChat.mkSt sample_self
                              (stored_world (fun _ => Responds streamed)))
                           "hi" true streamed eq_refl eq_refl eq_refl))
             (or_intror eq_refl)).
  - exact (proj1 (send_message_first_attempt more_loads
                    (AuthAgentChat.mkSt sample_self
                       (stored_world (fun _ => Responds broken_stream)))
                    "hi" true broken_stream eq_refl eq_refl eq_refl)
             ConnectionError eq_refl eq_refl).
Defined.

(** ** Sessions *)

Lemma create_session_run (json_loads : string -> option json)
    (me : AuthAgentChat.Self) (w : World) (title : option string) (tools_approved : bool) :
  let rq := session_request me (session_title me w title) tools_approved in
  let w1 := set_sent (sent w ++ [rq]) w in
  exists o',
    AuthAgentChat.create_session json_loads title tools_approved (AuthAgentChat.mkSt me w)
    = match session_id_of json_loads (net w (sent w ++ [rq])) with
      | Some sid => (Ret true, AuthAgentChat.mkSt (with_session sid me) (set_stdout o' w1))
      | None => (Ret false, AuthAgentChat.mkSt me (set_stdout o' w1))
      end.
Proof.
  destruct me as [url ay vb tmo sid tok usr ae]. destruct w as [i o sn nt f ck].
  cbv zeta.
  unfold AuthAgentChat.create_session, AuthAgentChat._headers, AuthAgentChat.response_json,
    session_request, session_title, session_id_of, auth_headers, with_session.
  xrun.
  destruct title as [t |]; [destruct (String.eqb t EmptyString) |]; xrun;
    (destruct (nt _) as [e | resp]; xrun; [eexists; reflexivity |];
     destruct (ok resp); xrun; [| eexists; reflexivity];
     destruct (json_loads (content resp)) as [[| b | q | str | l | d] |]; xrun;
     try (eexists; reflexivity);
     destruct (Dict.get "id" d); xrun; destruct vb; xrun; eexists; reflexivity).
Qed.

(** X14: [create_session] never raises and sends exactly one request,
    with the given title or the default one. It returns True exactly
    when the answer has a success status and a JSON object with an
    [id], which becomes the session id whatever its value; otherwise
    it returns False and the client keeps the session id it had. The
    credentials file is not touched. *)
Theorem create_session_outcome :
  forall (json_loads : string -> option json) (s : AuthAgentChat.St)
         (title : option string) (tools_approved : bool),
    let me := AuthAgentChat.self s in
    let w := AuthAgentChat.world s in
    let rq := session_request me (session_title me w title) tools_approved in
    let r := AuthAgentChat.create_session json_loads title tools_approved s in
    sent (AuthAgentChat.world (snd r)) = sent w ++ [rq] /\
    creds (AuthAgentChat.world (snd r)) = creds w /\
    match session_id_of json_loads (net w (sent w ++ [rq])) with
    | Some sid => fst r = Ret true /\ AuthAgentChat.self (snd r) = with_session sid me
    | None => fst r = Ret false /\ AuthAgentChat.self (snd r) = me
    end.
Proof.
  intros loads [me w] title approved. cbv zeta.
  cbn [AuthAgentChat.self AuthAgentChat.world].
  destruct (create_session_run loads me w title approved) as (o' & ->).
  destruct (session_id_of _ _); destruct w; repeat split; reflexivity.
Qed.

(** X15: a session whose id is falsy cannot be used. When the server
    answers the creation with an id that is null, empty or zero,
    [create_session] still reports success, and a following
    [send_message] refuses to send anything. *)
Theorem falsy_session_id_is_unusable :
  forall (json_loads : string -> option json) (s : AuthAgentChat.St)
         (title : option string) (tools_approved : bool) (sid : json)
         (message : string) (show_progress : bool),
    let me := AuthAgentChat.self s in
    let w := AuthAgentChat.world s in
    let rq := session_request me (session_title me w title) tools_approved in
    let created := AuthAgentChat.create_session json_loads title tools_approved s in
    let said := AuthAgentChat.send_message json_loads message show_progress (snd created) in
    session_id_of json_loads (net w (sent w ++ [rq])) = Some sid ->
    truthy sid = false ->
    fst created = Ret true /\
    fst said = Ret tt /\
    sent (AuthAgentChat.world (snd said)) = sent w ++ [rq].
Proof.
  intros loads [me w] title approved sid message sp. cbv zeta.
  cbn [AuthAgentChat.self AuthAgentChat.world]. intros Hid Hsid.
  destruct (create_session_run loads me w title approved) as (o' & ->).
  rewrite Hid. cbn [fst snd].
  destruct me as [url ay vb tmo sid0 tok usr ae]. destruct w as [i o sn nt f ck].
  unfold with_session, AuthAgentChat.send_message. xrun. rewrite Hsid. xrun.
  repeat split; reflexivity.
Qed.

Lemma create_session_outcome_witness :
  let r := AuthAgentChat.create_session more_loads (Some "t") true
             (AuthAgentChat.mkSt sample_self (stored_world (always "session"))) in
  fst r = Ret true /\
  AuthAgentChat.session_id (AuthAgentChat.self (snd r)) = JStr "s7".
Proof.
  pose proof (create_session_outcome more_loads
                (AuthAgentChat.mkSt sample_self (stored_world (always "session")))
                (Some "t") true) as H.
  cbv zeta in H. destruct H as (_ & _ & H).
  change (session_id_of more_loads _) with (Some (JStr "s7")) in H.
  destruct H as (Hr & Hs). cbv zeta. split; [exact Hr |].
  rewrite Hs. reflexivity.
Defined.

Lemma falsy_session_id_is_unusable_witness :
  let s := AuthAgentChat.mkSt sample_self (stored_world (always "null id")) in
  let created := AuthAgentChat.create_session null_id_loads None true s in
  fst created = Ret true /\
  List.length
    (sent (AuthAgentChat.world
             (snd (AuthAgentChat.send_message null_id_loads "hi" true (snd created))))) = 1.
Proof.
  destruct (falsy_session_id_is_unusable null_id_loads
              (AuthAgentChat.mkSt sample_self (stored_world (always "null id")))
              None true JNull "hi" true eq_refl eq_refl) as (Hc & _ & Hs).
  cbv zeta. split; [exact Hc |]. rewrite Hs. reflexivity.
Defined.

Lemma cagent_create_session_run (json_loads : string -> option json)
    (me : CagentChatClient.Self) (w : World) (c : CagentChatClient.Colors) :
  let rq := cagent_session_request me in
  let answer := net w (sent w ++ [rq]) in
  exists o',
    CagentChatClient.create_session json_loads (CagentChatClient.mkSt me w c)
    = (match answer with
       | Fails e => if is_RequestException e then Ret false else Raise e
       | Responds resp =>
           if ok resp then
             match json_loads (content resp) with
             | None => Ret false
             | Some session =>
                 match py_item session "id" with
                 | Ret _ => Ret true
                 | Raise e => Raise e
                 end
             end
           else Ret false
       end,
       CagentChatClient.mkSt
         (match session_id_of json_loads answer with
          | Some sid => cagent_with_session sid me
          | None => me
          end)
         (set_stdout o' (set_sent (sent w ++ [rq]) w)) c).
Proof.
  destruct me as [name sid hist]. destruct w as [i o sn nt f ck]. cbv zeta.
  unfold cagent_session_request, cagent_with_session, session_id_of.
  cbn [CagentChatClient.agent_name CagentChatClient.messages_history sent net].
  unfold CagentChatClient.create_session, CagentChatClient.response_json. xrun.
  destruct (nt _) as [e | resp]; xrun.
  - destruct (is_RequestException e); xrun; eexists; reflexivity.
  - destruct (ok resp); xrun; [| eexists; reflexivity].
    destruct (json_loads (content resp)) as [[| b | q | str | l | d] |]; xrun;
      try (eexists; reflexivity).
    destruct (Dict.get "id" d); xrun; eexists; reflexivity.
Qed.

(** X16: [CagentChatClient.create_session] sends one request and takes
    the [id] of the answer as the session id. A failed request, an
    error status and a body that is not JSON give False; but a JSON
    answer without an [id] is not caught: the KeyError of an object, or
    the TypeError of another value, leaves the method. On every failure
    the client is as before. *)
Theorem cagent_create_session_outcome :
  forall (json_loads : string -> option json) (s : CagentChatClient.St),
    let me := CagentChatClient.self s in
    let w := CagentChatClient.world s in
    let rq := cagent_session_request me in
    let answer := net w (sent w ++ [rq]) in
    let r := CagentChatClient.create_session json_loads s in
    sent (CagentChatClient.world (snd r)) = sent w ++ [rq] /\
    (forall sid, session_id_of json_loads answer = Some sid ->
                 fst r = Ret true /\
                 CagentChatClient.self (snd r) = cagent_with_session sid me) /\
    (session_id_of json_loads answer = None -> CagentChatClient.self (snd r) = me) /\
    (forall resp, answer = Responds resp ->
                  ok resp = false \/ json_loads (content resp) = None ->
                  fst r = Ret false) /\
    (forall e, answer = Fails e -> is_RequestException e = true -> fst r = Ret false) /\
    (forall resp session,
        answer = Responds resp -> ok resp = true ->
        json_loads (content resp) = Some session ->
        session_id_of json_loads answer = None ->
        fst r = Raise (if is_dict session then KeyError else TypeError)).
Proof.
  intros loads [me w c]. cbv zeta.
  cbn [CagentChatClient.self CagentChatClient.world].
  destruct (cagent_create_session_run loads me w c) as (o' & ->).
  cbn [fst snd CagentChatClient.self CagentChatClient.world].
  split; [destruct w; reflexivity |].
  split; [| split; [| split; [| split]]].
  - intros sid Hid. rewrite Hid. split; [| reflexivity].
    unfold session_id_of in Hid.
    destruct (net w _) as [e | resp]; [discriminate |].
    destruct (ok resp); [| discriminate].
    destruct (loads (content resp)) as [[| b | q | str | l | d] |]; try discriminate.
    cbn [py_item]. rewrite Hid. reflexivity.
  - intros ->. reflexivity.
  - intros resp -> [Hok | Hbody].
    + rewrite Hok. reflexivity.
    + rewrite Hbody. destruct (ok resp); reflexivity.
  - intros e -> He. rewrite He. reflexivity.
  - intros resp session -> Hok Hbody Hid. rewrite Hok, Hbody.
    unfold session_id_of in Hid. rewrite Hok, Hbody in Hid.
    destruct session as [| b | q | str | l | d]; try reflexivity.
    cbn [py_item is_dict]. rewrite Hid. reflexivity.
Qed.

Lemma cagent_create_session_outcome_witness :
  fst (CagentChatClient.create_session more_loads
         (CagentChatClient.mkSt (CagentChatClient.mkSelf "pirate" JNull [])
            (stored_world (always "no id")) CagentChatClient.ansi))
  = Raise KeyError.
Proof.
  exact (proj2 (proj2 (proj2 (proj2 (proj2
           (cagent_create_session_outcome more_loads
              (CagentChatClient.mkSt (CagentChatClient.mkSelf "pirate" JNull [])
                 (stored_world (always "no id")) CagentChatClient.ansi))))))
           (answered "no id") (JObj [("title", JStr "t")])
           eq_refl eq_refl eq_refl eq_refl).
Defined.

Lemma for_each_console {A} (f : A -> M AuthAgentChat.St unit) :
  (forall x me w, exists r o',
      f x (AuthAgentChat.mkSt me w) = (r, AuthAgentChat.mkSt me (set_stdout o' w))) ->
  forall (items : list A) (me : AuthAgentChat.Self) (w : World),
  exists r o',
    AuthAgentChat.for_each items f (AuthAgentChat.mkSt me w)
    = (r, AuthAgentChat.mkSt me (set_stdout o' w)).
Proof.
  intros Hf. induction items as [| x items IH]; intros me w.
  - exists (Ret tt), (stdout w). destruct w; reflexivity.
  - cbn [AuthAgentChat.for_each]. unfold bind at 1.
    destruct (Hf x me w) as ([[] | e] & o1 & ->).
    + destruct (IH me (set_stdout o1 w)) as (r & o2 & ->).
      exists r, o2. destruct w; reflexivity.
    + exists (Raise e), o1. reflexivity.
Qed.

Lemma history_line_prints (msg : json) (me : AuthAgentChat.Self) (w : World) :
  exists r o',
    (role <- lift (py_get msg "role" (JStr "unknown")) ;;
     content <- lift (py_get msg "content" (JStr EmptyString)) ;;
     shout <- lift (py_upper role) ;;
     head <- lift (py_slice_to 200 content) ;;
     print [Lit nl; Lit "["; shout; Lit "]: "; Val head; Lit "..."])
      (AuthAgentChat.mkSt me w)
    = (r, AuthAgentChat.mkSt me (set_stdout o' w)).
Proof.
  destruct me as [url ay vb tmo sid tok usr ae]. destruct w as [i o sn nt f ck].
  xrun.
  destruct (py_get msg "role" (JStr "unknown")) as [role | e]; xrun;
    [| do 2 eexists; reflexivity].
  destruct (py_get msg "content" (JStr EmptyString)) as [content | e]; xrun;
    [| do 2 eexists; reflexivity].
  destruct (py_upper role) as [shout | e]; xrun; [| do 2 eexists; reflexivity].
  destruct (py_slice_to 200 content) as [head | e]; xrun;
    do 2 eexists; reflexivity.
Qed.

Lemma get_session_history_run (json_loads : string -> option json)
    (me : AuthAgentChat.Self) (w : World) :
  exists o',
    AuthAgentChat.get_session_history json_loads (AuthAgentChat.mkSt me w)
    = (Ret tt,
       AuthAgentChat.mkSt me (set_stdout o' (set_sent (sent w ++ view_requests me) w))).
Proof.
  destruct me as [url ay vb tmo sid tok usr ae]. destruct w as [i o sn nt f ck].
  unfold AuthAgentChat.get_session_history, AuthAgentChat.session_get,
    AuthAgentChat._headers, AuthAgentChat.response_json, view_requests,
    session_get_request, auth_headers.
  xrun. destruct (truthy sid); xrun;
    [| rewrite app_nil_r; eexists; reflexivity].
  destruct (nt _) as [e | resp]; xrun; [eexists; reflexivity |].
  destruct (ok resp); xrun; [| eexists; reflexivity].
  destruct (json_loads (content resp)) as [session |]; xrun; [| eexists; reflexivity].
  destruct (py_get session "messages" (JArr [])) as [messages | e]; xrun;
    [| eexists; reflexivity].
  destruct (truthy messages); xrun; [| eexists; reflexivity].
  destruct (py_iter messages) as [items | e] eqn:Hiter; xrun;
    [| destruct messages; try discriminate Hiter; xrun; eexists; reflexivity].
  match goal with
  | |- context [AuthAgentChat.for_each items ?f (AuthAgentChat.mkSt ?m ?ww)] =>
      destruct (for_each_console f history_line_prints items m ww) as (r & o2 & ->)
  end.
  destruct r as [[] | e]; xrun; eexists; reflexivity.
Qed.

Lemma show_session_summary_run (json_loads : string -> option json)
    (me : AuthAgentChat.Self) (w : World) :
  exists o',
    AuthAgentChat.show_session_summary json_loads (AuthAgentChat.mkSt me w)
    = (Ret tt,
       AuthAgentChat.mkSt me (set_stdout o' (set_sent (sent w ++ view_requests me) w))).
Proof.
  destruct me as [url ay vb tmo sid tok usr ae]. destruct w as [i o sn nt f ck].
  unfold AuthAgentChat.show_session_summary, AuthAgentChat.session_get,
    AuthAgentChat._headers, AuthAgentChat.response_json, view_requests,
    session_get_request, auth_headers.
  xrun. destruct (truthy sid); xrun;
    [| rewrite app_nil_r; exists o; reflexivity].
  destruct (nt _) as [e | resp]; xrun; [destruct vb; xrun; eexists; reflexivity |].
  destruct (ok resp); xrun; [| destruct vb; xrun; eexists; reflexivity].
  destruct (json_loads (content resp)) as [[| b | q | str | l | d] |]; xrun;
    try (destruct vb; xrun; eexists; reflexivity).
  destruct (match Dict.get "messages" d with Some v => v | None => JArr [] end);
    xrun; destruct vb; xrun; eexists; reflexivity.
Qed.

(** X17: the two views of the session only look. [get_session_history]
    and [show_session_summary] never raise, whatever the server
    answers; they send one GET for the session when there is a session
    id and nothing otherwise, and leave the client, the credentials
    file and the console input as they were. *)
Theorem session_views_are_read_only :
  forall (json_loads : string -> option json),
    read_only (AuthAgentChat.get_session_history json_loads) view_requests /\
    read_only (AuthAgentChat.show_session_summary json_loads) view_requests.
Proof.
  intros loads. split; intros [me w].
  - destruct (get_session_history_run loads me w) as (o' & ->).
    destruct w. repeat split; reflexivity.
  - destruct (show_session_summary_run loads me w) as (o' & ->).
    destruct w. repeat split; reflexivity.
Qed.

(** ** What a whole chat leaves alone *)

Section Respects.
Context (R : AuthAgentChat.St -> AuthAgentChat.St -> Prop) `{Frame R}.
Context {A B : Type}.

Lemma respects_ret (a : A) : respects R (ret a).
Proof. intros s. apply frame_refl. Qed.

Lemma respects_raise (e : exn) : respects R (@raise _ A e).
Proof. intros s. apply frame_refl. Qed.

Lemma respects_lift (r : res A) : respects R (lift r).
Proof. intros s. apply frame_refl. Qed.

Lemma respects_bind (m : M AuthAgentChat.St A) (k : A -> M AuthAgentChat.St B) :
  respects R m -> (forall a, respects R (k a)) -> respects R (bind m k).
Proof.
  intros Hm Hk s. unfold bind. specialize (Hm s).
  destruct (m s) as [[a | e] s']; cbn [snd] in *; [| exact Hm].
  eapply frame_trans; [exact Hm | apply Hk].
Qed.

Lemma respects_try (m : M AuthAgentChat.St A) (h : exn -> M AuthAgentChat.St A) :
  respects R m -> (forall e, respects R (h e)) -> respects R (try_except m h).
Proof.
  intros Hm Hh s. unfold try_except. specialize (Hm s).
  destruct (m s) as [[a | e] s']; cbn [snd] in *; [exact Hm |].
  eapply frame_trans; [exact Hm | apply Hh].
Qed.

Lemma respects_world (m : M AuthAgentChat.St A) :
  (forall me w, exists w',
      snd (m (AuthAgentChat.mkSt me w)) = AuthAgentChat.mkSt me w' /\
      List.length (stdin w') <= List.length (stdin w)) ->
  respects R m.
Proof.
  intros Hm [me w]. destruct (Hm me w) as (w' & -> & Hle). now apply frame_world.
Qed.
End Respects.

Section RespectsSteps.
Context (R : AuthAgentChat.St -> AuthAgentChat.St -> Prop) `{Frame R}.

Lemma respects_when (b : bool) (m : M AuthAgentChat.St unit) :
  respects R m -> respects R (when b m).
Proof. destruct b; cbn; auto using respects_ret. Qed.

Lemma respects_print_end (t : text) (e : string) : respects R (print_end t e).
Proof.
  apply respects_world; [assumption |]. intros me [i o sn nt f ck].
  eexists. split; reflexivity.
Qed.

Lemma respects_print (t : text) : respects R (print t).
Proof. apply respects_print_end. Qed.

Lemma respects_input (p : string) : respects R (input p).
Proof.
  apply respects_world; [assumption |]. intros me [i o sn nt f ck].
  destruct i as [| l rest]; eexists; (split; [reflexivity |]); cbn; lia.
Qed.

Lemma respects_http (r : request) : respects R (http r).
Proof.
  apply respects_world; [assumption |]. intros me [i o sn nt f ck]. unfold http. cbn.
  destruct (nt _); eexists; split; reflexivity.
Qed.

Lemma respects_raise_for_status (r : response) : respects R (raise_for_status r).
Proof.
  unfold raise_for_status. destruct (ok r); [apply respects_ret | apply respects_raise];
    assumption.
Qed.

Lemma respects_creds_exists : respects R creds_exists.
Proof. intros s. apply frame_refl. Qed.

Lemma respects_creds_load : respects R creds_load.
Proof.
  intros [me w]. unfold creds_load. cbn.
  destruct (creds w) as [[|] |]; apply frame_refl.
Qed.

Lemma respects_creds_dump (d : json) : respects R (creds_dump d).
Proof.
  apply respects_world; [assumption |]. intros me [i o sn nt f ck].
  eexists. split; reflexivity.
Qed.

Lemma respects_now : respects R now_isoformat.
Proof. intros s. apply frame_refl. Qed.

Lemma respects_getself : respects R AuthAgentChat.getself.
Proof. intros s. apply frame_refl. Qed.

Lemma respects_set_token (v : json) : respects R (AuthAgentChat.set_token v).
Proof.
  intros [[url ay vb tmo sid tok usr ae] w].
  exact (frame_auth (AuthAgentChat.mkSelf url ay vb tmo sid tok usr ae) w v usr).
Qed.

Lemma respects_set_user (v : json) : respects R (AuthAgentChat.set_user v).
Proof.
  intros [[url ay vb tmo sid tok usr ae] w].
  exact (frame_auth (AuthAgentChat.mkSelf url ay vb tmo sid tok usr ae) w tok v).
Qed.
End RespectsSteps.

Create HintDb respects discriminated.
#[global] Hint Resolve respects_ret respects_raise respects_lift respects_print_end
  respects_print respects_input respects_http respects_raise_for_status
  respects_creds_exists respects_creds_load respects_creds_dump respects_now
  respects_getself respects_set_token respects_set_user : respects.

Ltac respects :=
  repeat first
    [ solve [auto with respects]
    | apply respects_bind; [solve [auto with respects] | | intros ?]
    | apply respects_try; [solve [auto with respects] | | intros ?]
    | apply respects_when; [solve [auto with respects] |]
    | match goal with
      | |- respects _ (if ?b then _ else _) => destruct b
      | |- respects _ (match ?x with _ => _ end) => destruct x
      | |- respects _ (let _ := _ in _) => cbv zeta
      end ].

Section RespectsMethods.
Context (R : AuthAgentChat.St -> AuthAgentChat.St -> Prop) `{Frame R}.
Variable json_loads : string -> option json.

Lemma respects_headers : respects R AuthAgentChat._headers.
Proof. unfold AuthAgentChat._headers. respects. Qed.

Lemma respects_response_json (r : response) :
  respects R (AuthAgentChat.response_json json_loads r).
Proof. unfold AuthAgentChat.response_json. respects. Qed.

Lemma respects_save_credentials : respects R AuthAgentChat._save_credentials.
Proof. unfold AuthAgentChat._save_credentials. respects. Qed.

Lemma respects_clear_credentials : respects R AuthAgentChat._clear_credentials.
Proof. unfold AuthAgentChat._clear_credentials. respects. Qed.
End RespectsMethods.

#[global] Hint Resolve respects_headers respects_response_json respects_save_credentials
  respects_clear_credentials : respects.

Section RespectsChat.
Context (R : AuthAgentChat.St -> AuthAgentChat.St -> Prop) (HR : Frame R).
Variable json_loads : string -> option json.

Lemma respects_register : respects R (AuthAgentChat.register json_loads).
Proof. unfold AuthAgentChat.register, AuthAgentChat.getpass. respects. Qed.

Lemma respects_login : respects R (AuthAgentChat.login json_loads).
Proof. unfold AuthAgentChat.login, AuthAgentChat.getpass. respects. Qed.

Lemma respects_for_each {A} (l : list A) (f : A -> M AuthAgentChat.St unit) :
  (forall a, respects R (f a)) -> respects R (AuthAgentChat.for_each l f).
Proof. intros Hf. induction l; cbn [AuthAgentChat.for_each]; respects. Qed.

Lemma respects_verify_agent : respects R (AuthAgentChat.verify_agent json_loads).
Proof.
  unfold AuthAgentChat.verify_agent. respects.
  apply respects_for_each. intros agent. respects.
Qed.

Lemma respects_retry_loop (payload : json) (remaining : nat) :
  forall retry_count, respects R (AuthAgentChat.retry_loop payload remaining retry_count).
Proof.
  induction remaining as [| remaining IH]; intros retry_count;
    cbn [AuthAgentChat.retry_loop]; respects.
Qed.

Lemma respects_events_loop (show_progress : bool) (cut : option exn)
    (evs : list string) (full_response : list json) (token_usage : json) :
  respects R (AuthAgentChat.events_loop json_loads show_progress cut evs
                full_response token_usage).
Proof.
  apply respects_world; [assumption |]. intros me w.
  destruct (events_loop_dispatch json_loads show_progress cut evs full_response
              token_usage me w) as (o' & ->).
  eexists. split; [reflexivity |]. destruct w; cbn. lia.
Qed.

Lemma respects_send_message (message : string) (show_progress : bool) :
  respects R (AuthAgentChat.send_message json_loads message show_progress).
Proof.
  pose proof respects_retry_loop. pose proof respects_events_loop.
  unfold AuthAgentChat.send_message. respects.
Qed.

Lemma respects_get_session_history :
  respects R (AuthAgentChat.get_session_history json_loads).
Proof.
  apply respects_world; [assumption |]. intros me w.
  destruct (get_session_history_run json_loads me w) as (o' & ->).
  eexists. split; [reflexivity |]. destruct w; cbn. lia.
Qed.

Lemma respects_show_session_summary :
  respects R (AuthAgentChat.show_session_summary json_loads).
Proof.
  apply respects_world; [assumption |]. intros me w.
  destruct (show_session_summary_run json_loads me w) as (o' & ->).
  eexists. split; [reflexivity |]. destruct w; cbn. lia.
Qed.

Lemma respects_validate_token : respects R (AuthAgentChat.validate_token json_loads).
Proof. unfold AuthAgentChat.validate_token. respects. Qed.

Lemma respects_choice_loop (fuel : nat) :
  respects R (AuthAgentChat.choice_loop json_loads fuel).
Proof.
  pose proof respects_login. pose proof respects_register.
  induction fuel as [| fuel IH]; cbn [AuthAgentChat.choice_loop]; respects.
Qed.

Lemma respects_authenticate (fuel : nat) :
  respects R (AuthAgentChat.authenticate json_loads fuel).
Proof.
  pose proof respects_validate_token. pose proof (respects_choice_loop fuel).
  unfold AuthAgentChat.authenticate. respects.
Qed.

Lemma respects_chat_loop (fuel : nat) :
  respects R (AuthAgentChat.chat_loop json_loads fuel).
Proof.
  pose proof respects_get_session_history. pose proof respects_show_session_summary.
  pose proof respects_send_message.
  induction fuel as [| fuel IH]; cbn [AuthAgentChat.chat_loop]; respects.
Qed.

Lemma respects_interactive_chat (initial_prompt : option string) (fuel : nat) :
  respects R (AuthAgentChat.interactive_chat json_loads initial_prompt fuel).
Proof.
  pose proof respects_send_message. pose proof (respects_chat_loop fuel).
  unfold AuthAgentChat.interactive_chat. respects.
Qed.
End RespectsChat.

#[global] Instance only_credentials_frame : Frame only_credentials.
Proof.
  split.
  - intros [[url ay vb tmo sid tok usr ae] w]. exists tok, usr. reflexivity.
  - intros [a wa] [b wb] [c wc] (t1 & u1 & H1) (t2 & u2 & H2). cbn in *.
    exists t2, u2. rewrite H2, H1. destruct a. reflexivity.
  - intros [url ay vb tmo sid tok usr ae] w w' _. exists tok, usr. reflexivity.
  - intros me w tok usr. exists tok, usr. reflexivity.
Qed.

#[global] Instance input_shrinks_frame : Frame input_shrinks.
Proof.
  split; unfold input_shrinks.
  - intros s. lia.
  - intros a b c Hab Hbc. lia.
  - intros me w w' Hle. exact Hle.
  - intros me w tok usr. cbn. lia.
Qed.

(** ** The agent name during a run of [main] *)

#[global] Instance same_agent_frame : Frame same_agent.
Proof.
  split; unfold same_agent.
  - reflexivity.
  - intros a b c Hab Hbc. congruence.
  - reflexivity.
  - reflexivity.
Qed.

Lemma keeps_create_session (json_loads : string -> option json)
    (title : option string) (tools_approved : bool) :
  keeps_name (AuthAgentChat.create_session json_loads title tools_approved).
Proof.
  intros [me w].
  destruct (create_session_run json_loads me w title tools_approved) as (o' & ->).
  destruct (session_id_of _ _); reflexivity.
Qed.

Lemma keeps_try_finally (body : M AuthAgentChat.St (ended unit))
    (cleanup : M AuthAgentChat.St unit) :
  keeps_name body -> keeps_name cleanup ->
  keeps_name (AuthAgentChat.try_finally body cleanup).
Proof.
  intros Hb Hc s. unfold AuthAgentChat.try_finally.
  specialize (Hb s). destruct (body s) as [[[u |] | e] s1]; cbn [snd] in *;
    try exact Hb;
    (specialize (Hc s1); destruct (cleanup s1) as [[u' | e'] s2]; cbn [snd] in *;
     congruence).
Qed.

Lemma keeps_chat_mode (json_loads : string -> option json)
    (args : AuthAgentChat.Args) (fuel : nat) :
  keeps_name (AuthAgentChat.chat_mode json_loads args fuel).
Proof.
  pose proof (respects_authenticate same_agent same_agent_frame json_loads fuel) as Hauth.
  pose proof (respects_interactive_chat same_agent same_agent_frame json_loads
                (AuthAgentChat.prompt args) fuel) as Hchat.
  pose proof (respects_show_session_summary same_agent same_agent_frame json_loads) as Hsum.
  pose proof (keeps_try_finally _ _ Hchat Hsum) as Hfin.
  pose proof (keeps_create_session json_loads None true) as Hnew.
  pose proof (keeps_verify_agent json_loads) as Hver.
  unfold AuthAgentChat.chat_mode. keeps.
Qed.

Lemma init_holds_name (api_url agent_yaml : string) (verbose : bool) (timeout : Z)
    (w : World) :
  AuthAgentChat.agent_yaml
    (AuthAgentChat.self (snd (AuthAgentChat.__init__ api_url agent_yaml verbose timeout w)))
  = agent_yaml.
Proof.
  unfold AuthAgentChat.__init__.
  match goal with
  | |- context [snd (?m ?s0)] =>
      assert (Hm : keeps_name m) by keeps; rewrite (Hm s0)
  end.
  reflexivity.
Qed.

Lemma send_message_requests (json_loads : string -> option json)
    (message : string) (show_progress : bool) (s : AuthAgentChat.St) :
  let me := AuthAgentChat.self s in
  let rq := send_request me (user_payload message) in
  truthy (AuthAgentChat.session_id me) = true ->
  exists n,
    1 <= n <= 3 /\
    sent (AuthAgentChat.world
            (snd (AuthAgentChat.send_message json_loads message show_progress s)))
    = sent (AuthAgentChat.world s) ++ repeat rq n.
Proof.
  destruct s as [me w]. cbv zeta. cbn [AuthAgentChat.self AuthAgentChat.world].
  intros Hsid.
  destruct (retry_loop_attempts (user_payload message) AuthAgentChat.max_retries 0 me w
              eq_refl)
    as (n & exit & s1 & Hrun & Hle & Hsent & _ & _ & Hlast).
  destruct Hlast as (last & -> & _); [unfold AuthAgentChat.max_retries; lia |].
  destruct (send_message_after_loop json_loads message show_progress me w exit s1 Hsid Hrun)
    as (_ & o' & Hafter).
  exists (S last). unfold AuthAgentChat.max_retries in Hle. split; [lia |].
  rewrite Hafter. destruct s1 as [me1 [i1 o1 sn1 nt1 f1 ck1]]. exact Hsent.
Qed.

(** C8, amended: in chat mode [main] of [AuthAgentChat] builds its
    client with the agent name unchanged when it ends in ".yaml" or
    ".yml" and with ".yaml" appended otherwise, so the name ends in
    ".yaml" or ".yml"; the client holds that name when it is built and
    through everything [main] does with it, no method of the client
    changes the name, and every request [send_message] sends (one to
    three of them) has the name as the last part of its URL path.
    [CagentChatClient] holds the name with the occurrences of ".yaml"
    removed, does not change it in [send_message], and sends one request
    whose URL path ends with it. *)
Theorem agent_name_as_held :
  (forall agent,
      let name := AuthAgentChat.main_agent_yaml agent in
      (endswith name ".yaml" = true \/ endswith name ".yml" = true) /\
      (endswith agent ".yaml" = false -> endswith agent ".yml" = false ->
       name = (agent ++ ".yaml")%string) /\
      (endswith agent ".yaml" = true \/ endswith agent ".yml" = true -> name = agent)) /\
  (forall (json_loads : string -> option json) (args : AuthAgentChat.Args) (fuel : nat)
          (w : World) (agent : string),
      AuthAgentChat.logout args = false ->
      AuthAgentChat.arg_register args = false ->
      AuthAgentChat.agent args = Some agent ->
      agent <> EmptyString ->
      let name := AuthAgentChat.main_agent_yaml agent in
      let built := AuthAgentChat.__init__ (AuthAgentChat.url args) name
                     (AuthAgentChat.arg_verbose args) (AuthAgentChat.arg_timeout args) w in
      AuthAgentChat.main json_loads args fuel w
      = match built with
        | (Raise e, s) => (Raise e, AuthAgentChat.world s)
        | (Ret _, s) =>
            (fst (AuthAgentChat.chat_mode json_loads args fuel s),
             AuthAgentChat.world (snd (AuthAgentChat.chat_mode json_loads args fuel s)))
        end /\
      AuthAgentChat.agent_yaml (AuthAgentChat.self (snd built)) = name /\
      AuthAgentChat.agent_yaml
        (AuthAgentChat.self (snd (AuthAgentChat.chat_mode json_loads args fuel (snd built))))
      = name) /\
  (forall (json_loads : string -> option json) (message : string) (show_progress : bool)
          (title prompt : option string) (tools_approved : bool) (fuel : nat),
      keeps_name AuthAgentChat._check_auth_enabled /\
      keeps_name AuthAgentChat._load_credentials /\
      keeps_name AuthAgentChat._save_credentials /\
      keeps_name AuthAgentChat._clear_credentials /\
      keeps_name (AuthAgentChat.register json_loads) /\
      keeps_name (AuthAgentChat.login json_loads) /\
      keeps_name (AuthAgentChat.verify_agent json_loads) /\
      keeps_name (AuthAgentChat.send_message json_loads message show_progress) /\
      keeps_name (AuthAgentChat.authenticate json_loads fuel) /\
      keeps_name (AuthAgentChat.create_session json_loads title tools_approved) /\
      keeps_name (AuthAgentChat.interactive_chat json_loads prompt fuel) /\
      keeps_name (AuthAgentChat.show_session_summary json_loads)) /\
  (forall (json_loads : string -> option json) (message : string) (show_progress : bool)
          (s : AuthAgentChat.St),
      let me := AuthAgentChat.self s in
      let rq := send_request me (user_payload message) in
      let run := AuthAgentChat.send_message json_loads message show_progress s in
      truthy (AuthAgentChat.session_id me) = true ->
      url rq = [Lit (AuthAgentChat.api_url me); Lit "/api/sessions/";
                Val (AuthAgentChat.session_id me); Lit "/agent/";
                Lit (AuthAgentChat.agent_yaml me)] /\
      exists n,
        1 <= n <= 3 /\
        sent (AuthAgentChat.world (snd run)) = sent (AuthAgentChat.world s) ++ repeat rq n) /\
  (forall name,
      CagentChatClient.agent_name (CagentChatClient.__init__ name)
      = replace name ".yaml" EmptyString /\
      (str_contains ".yaml" name = false ->
       CagentChatClient.agent_name (CagentChatClient.__init__ name) = name)) /\
  (forall (json_loads : string -> option json) (message : string)
          (s : CagentChatClient.St),
      let me := CagentChatClient.self s in
      let run := CagentChatClient.send_message json_loads message s in
      truthy (CagentChatClient.session_id me) = true ->
      sent (CagentChatClient.world (snd run))
      = sent (CagentChatClient.world s) ++ [cagent_send_request me message] /\
      CagentChatClient.agent_name (CagentChatClient.self (snd run))
      = CagentChatClient.agent_name me /\
      url (cagent_send_request me message)
      = [Lit CagentChatClient.API_URL; Lit "/api/sessions/";
         Val (CagentChatClient.session_id me); Lit "/agent/";
         Lit (CagentChatClient.agent_name me)]).
Proof.
  split; [| split; [| split; [| split; [| split]]]].
  - intros agent. unfold AuthAgentChat.main_agent_yaml. cbv zeta.
    destruct (endswith agent ".yaml") eqn:E1; destruct (endswith agent ".yml") eqn:E2;
      cbn [negb andb]; rewrite ?E1, ?E2, ?endswith_append;
      (split; [| split]); auto; try discriminate.
    intros [H | H]; discriminate.
  - intros loads args fuel w agent Hlogout Hregister Hagent Hname. cbv zeta.
    split; [| split].
    + unfold AuthAgentChat.main. rewrite Hlogout, Hregister, Hagent.
      apply String.eqb_neq in Hname. rewrite Hname. reflexivity.
    + apply init_holds_name.
    + rewrite (keeps_chat_mode loads args fuel). apply init_holds_name.
  - intros loads message show title prompt tools fuel.
    pose proof (respects_authenticate same_agent same_agent_frame loads fuel).
    pose proof (respects_interactive_chat same_agent same_agent_frame loads prompt fuel).
    pose proof (respects_show_session_summary same_agent same_agent_frame loads).
    repeat split;
      auto using keeps_register, keeps_login, keeps_verify_agent, keeps_send_message,
        keeps_create_session with keeps.
  - intros loads message show s. cbv zeta. intros Hsid.
    split; [reflexivity |]. now apply send_message_requests.
  - intros name. split; [reflexivity |]. intros H. cbn. now apply replace_absent.
  - intros loads message s. cbv zeta. intros Hsid.
    destruct (cagent_send_message_request loads message s Hsid) as [H1 H2].
    repeat split; auto.
Qed.

Lemma agent_name_as_held_witness :
  endswith "pirate" ".yaml" = false /\ endswith "pirate" ".yml" = false /\
  AuthAgentChat.main_agent_yaml "pirate" = "pirate.yaml" /\
  exists n,
    1 <= n <= 3 /\
    sent (AuthAgentChat.world
            (snd (AuthAgentChat.send_message sample_loads "ahoy" false flaky_state)))
    = repeat (send_request sample_self (user_payload "ahoy")) n.
Proof.
  split; [reflexivity |]. split; [reflexivity |]. split.
  - exact (proj1 (proj2 (proj1 agent_name_as_held "pirate")) eq_refl eq_refl).
  - exact (proj2 (proj1 (proj2 (proj2 (proj2 agent_name_as_held)))
                    sample_loads "ahoy" false flaky_state eq_refl)).
Defined.

(** X18: whatever the server answers and the user types, and however
    they end, authentication, the check of the agent, the sending of a
    message and the whole interactive chat change at most the token and
    the user of the client: its server URL, agent, verbosity, timeout,
    auth flag and session id are those it started with. *)
Theorem chat_changes_only_credentials :
  forall (json_loads : string -> option json),
    (forall fuel, respects only_credentials (AuthAgentChat.authenticate json_loads fuel)) /\
    respects only_credentials (AuthAgentChat.verify_agent json_loads) /\
    (forall message show_progress,
        respects only_credentials
          (AuthAgentChat.send_message json_loads message show_progress)) /\
    (forall initial_prompt fuel,
        respects only_credentials
          (AuthAgentChat.interactive_chat json_loads initial_prompt fuel)).
Proof.
  intros loads.
  pose proof only_credentials_frame as HR.
  split; [| split; [| split]].
  - intros fuel. now apply respects_authenticate.
  - now apply respects_verify_agent.
  - intros message sp. now apply respects_send_message.
  - intros prompt fuel. now apply respects_interactive_chat.
Qed.

Lemma choice_loop_ends (json_loads : string -> option json) (fuel : nat) :
  forall s : AuthAgentChat.St,
    List.length (stdin (AuthAgentChat.world s)) < fuel ->
    fst (AuthAgentChat.choice_loop json_loads fuel s) <> Ret OutOfFuel.
Proof.
  induction fuel as [| fuel IH]; intros [me [i o sn nt f ck]] Hlen; [cbn in Hlen; lia |].
  cbn [AuthAgentChat.choice_loop]. unfold bind at 1.
  destruct i as [| line rest]; [xrun; discriminate |].
  cbn in Hlen. xrun.
  assert (Hgo : forall (m : M AuthAgentChat.St bool),
             respects input_shrinks m ->
             fst ((b <- m ;;
                   if b then ret (Ended true)
                   else AuthAgentChat.choice_loop json_loads fuel)
                    (AuthAgentChat.mkSt me
                       (mkWorld rest (o ++ [Prompt AuthAgentChat.choice_prompt]) sn nt f ck)))
             <> Ret OutOfFuel).
  { intros m Hm. unfold bind. specialize (Hm (AuthAgentChat.mkSt me
       (mkWorld rest (o ++ [Prompt AuthAgentChat.choice_prompt]) sn nt f ck))).
    unfold input_shrinks in Hm. cbn [AuthAgentChat.world stdin] in Hm.
    destruct (m _) as [[[|] | e] s1]; cbn [snd] in Hm; cbn [fst ret];
      [discriminate | apply IH; lia | discriminate]. }
  destruct (String.eqb (strip line) "1");
    [apply Hgo, respects_login, input_shrinks_frame |].
  destruct (String.eqb (strip line) "2");
    [apply Hgo, respects_register, input_shrinks_frame |].
  destruct (String.eqb (strip line) "3"); [discriminate |].
  unfold bind. xrun. apply IH. cbn. lia.
Qed.

(** X19: [authenticate] does not loop forever on a finite console
    input. Every turn of its menu reads at least one line, so with more
    turns allowed than lines left it has returned its boolean or
    raised (EOFError at the end of the input) before they are used
    up. *)
Theorem authenticate_ends_on_finite_input :
  forall (json_loads : string -> option json) (fuel : nat) (s : AuthAgentChat.St),
    List.length (stdin (AuthAgentChat.world s)) < fuel ->
    fst (AuthAgentChat.authenticate json_loads fuel s) <> Ret OutOfFuel.
Proof.
  intros loads fuel [me w] Hlen.
  unfold AuthAgentChat.authenticate. unfold bind at 1. cbn [AuthAgentChat.getself].
  cbv beta iota. cbn [AuthAgentChat.self].
  destruct (AuthAgentChat.auth_enabled me); cbn [negb]; [| discriminate].
  unfold bind at 1.
  pose proof (respects_validate_token input_shrinks input_shrinks_frame loads
                (AuthAgentChat.mkSt me w)) as Hv.
  unfold input_shrinks in Hv. cbn [AuthAgentChat.world] in Hv, Hlen.
  destruct (AuthAgentChat.validate_token loads _) as [[[b |] | e] [me1 w1]];
    cbn [snd AuthAgentChat.world] in Hv; try discriminate.
  destruct w1 as [i1 o1 sn1 nt1 f1 ck1]. unfold bind. xrun.
  apply choice_loop_ends. cbn in *. lia.
Qed.

Lemma authenticate_ends_on_finite_input_witness :
  stdin (AuthAgentChat.world unauthorized_state) = ["a@b.c"; "Ann"; "secret"; "secret"] /\
  fst (AuthAgentChat.authenticate sample_loads 5 unauthorized_state) <> Ret OutOfFuel.
Proof.
  split; [reflexivity |].
  apply (authenticate_ends_on_finite_input sample_loads 5 unauthorized_state).
  cbn. lia.
Defined.

(** ** The chat loops *)

Lemma chat_loop_spins (json_loads : string -> option json) (fuel : nat) :
  forall (me : AuthAgentChat.Self) (w : World),
    stdin w = [] ->
    exists o',
      AuthAgentChat.chat_loop json_loads fuel (AuthAgentChat.mkSt me w)
      = (Ret OutOfFuel, AuthAgentChat.mkSt me (set_stdout o' w)).
Proof.
  induction fuel as [| fuel IH]; intros [url ay vb tmo sid tok usr ae] [i o sn nt f ck] Hin;
    cbn in Hin; subst i.
  - exists o. reflexivity.
  - cbn [AuthAgentChat.chat_loop]. xrun.
    destruct vb; xrun;
      match goal with
      | |- context [AuthAgentChat.chat_loop json_loads fuel (AuthAgentChat.mkSt ?m ?ww)] =>
          destruct (IH m ww eq_refl) as (o2 & ->)
      end; exists o2; reflexivity.
Qed.

(** X20: the two chat loops at the end of the console input. In
    [AuthAgentChat.interactive_chat] the EOFError of [input] is caught
    by the handler of the loop, which prints it and goes on: the loop
    never ends, sending nothing and changing nothing but the console.
    The loop of [CagentChatClient.run_chat] catches EOFError around
    [input] and leaves at once. *)
Theorem end_of_input_contrast :
  forall (json_loads : string -> option json),
    (forall (fuel : nat) (s : AuthAgentChat.St),
        stdin (AuthAgentChat.world s) = [] ->
        let r := AuthAgentChat.chat_loop json_loads fuel s in
        fst r = Ret OutOfFuel /\
        AuthAgentChat.self (snd r) = AuthAgentChat.self s /\
        sent (AuthAgentChat.world (snd r)) = sent (AuthAgentChat.world s) /\
        creds (AuthAgentChat.world (snd r)) = creds (AuthAgentChat.world s)) /\
    (forall (fuel : nat) (s : CagentChatClient.St),
        stdin (CagentChatClient.world s) = [] ->
        let r := CagentChatClient.chat_loop json_loads (S fuel) s in
        fst r = Ret (Ended tt) /\
        CagentChatClient.self (snd r) = CagentChatClient.self s /\
        sent (CagentChatClient.world (snd r)) = sent (CagentChatClient.world s)).
Proof.
  intros loads. split.
  - intros fuel [me w] Hin. cbv zeta. cbn [AuthAgentChat.world] in Hin.
    destruct (chat_loop_spins loads fuel me w Hin) as (o' & ->).
    destruct w. repeat split; reflexivity.
  - intros fuel [[name sid hist] [i o sn nt f ck] c] Hin. cbn in Hin. subst i.
    cbv zeta. cbn [CagentChatClient.chat_loop]. unfold bind at 1. xrun.
    repeat split; reflexivity.
Qed.

Lemma end_of_input_contrast_witness :
  fst (AuthAgentChat.chat_loop sample_loads 1000 sample_state) = Ret OutOfFuel /\
  fst (CagentChatClient.chat_loop sample_loads 1 sample_cagent_state) = Ret (Ended tt).
Proof.
  split.
  - exact (proj1 (proj1 (end_of_input_contrast sample_loads) 1000 sample_state eq_refl)).
  - exact (proj1 (proj2 (end_of_input_contrast sample_loads) 0 sample_cagent_state eq_refl)).
Defined.

(** X21: the commands that end the interactive chat, in any letter
    case and with blanks around. [/exit] ends it with nothing sent and
    nothing changed but the console. [/logout] ends it after the token
    and user were dropped and the entry of this server removed from
    the credentials file; the entries of other servers stay, and the
    server is not told: no request is sent. *)
Theorem chat_exit_and_logout :
  forall (json_loads : string -> option json) (fuel : nat) (s : AuthAgentChat.St)
         (line : string) (rest : list string),
    let me := AuthAgentChat.self s in
    let w := AuthAgentChat.world s in
    let r := AuthAgentChat.chat_loop json_loads (S fuel) s in
    stdin w = line :: rest ->
    (lower (strip line) = "/exit" ->
     r = (Ret (Ended tt),
          AuthAgentChat.mkSt me
            (after_command [Print [Lit nl; Lit "Goodbye!"] nl] rest w))) /\
    (lower (strip line) = "/logout" ->
     r = (Ret (Ended tt),
          AuthAgentChat.mkSt (logged_out me)
            (set_creds (cleared (AuthAgentChat.api_url me) (creds w))
               (after_command [Print [Lit "Logged out and credentials cleared"] nl]
                  rest w)))).
Proof.
  intros loads fuel [[url ay vb tmo sid tok usr ae] [i o sn nt f ck]] line rest.
  cbv zeta. cbn [AuthAgentChat.self AuthAgentChat.world stdin]. intros ->.
  unfold after_command.
  assert (Hne : forall t, lower (strip line) = String "/" t ->
                          String.eqb (strip line) EmptyString = false).
  { intros t Ht. destruct (strip line); [discriminate Ht | reflexivity]. }
  split; intros Hcmd;
    cbn [AuthAgentChat.chat_loop]; unfold bind at 1; unfold AuthAgentChat.getself at 1;
    cbv beta iota; unfold bind at 1; unfold try_except at 1; unfold bind at 1;
    unfold input at 1;
    cbn [world_of with_world AuthAgentChat.St_Stateful AuthAgentChat.world
         AuthAgentChat.self stdin stdout set_stdout set_stdin];
    rewrite (Hne _ Hcmd), Hcmd; cbn [String.eqb Ascii.eqb Bool.eqb].
  - xrun. rewrite <- app_assoc. reflexivity.
  - unfold bind at 1.
    rewrite clear_credentials_result. xrun. rewrite <- app_assoc. reflexivity.
Qed.

Lemma chat_exit_and_logout_witness :
  let r := AuthAgentChat.chat_loop sample_loads 1
             (AuthAgentChat.mkSt sample_self logout_world) in
  fst r = Ret (Ended tt) /\
  sent (AuthAgentChat.world (snd r)) = [] /\
  creds (AuthAgentChat.world (snd r)) = Some (Doc (JObj [other_entry])).
Proof.
  pose proof (proj2 (chat_exit_and_logout sample_loads 0
                       (AuthAgentChat.mkSt sample_self logout_world)
                       " /LogOut " [] eq_refl) eq_refl) as H.
  cbv zeta. rewrite H. repeat split.
Defined.

Lemma get_available_agents_run (json_loads : string -> option json)
    (me : CagentChatClient.Self) (w : World) (c : CagentChatClient.Colors) :
  CagentChatClient.get_available_agents json_loads (CagentChatClient.mkSt me w c)
  = (catalog_of json_loads (net w (sent w ++ [catalog_request])),
     CagentChatClient.mkSt me (set_sent (sent w ++ [catalog_request]) w) c).
Proof.
  destruct me as [name sid hist]. destruct w as [i o sn nt f ck].
  unfold CagentChatClient.get_available_agents, CagentChatClient.response_json,
    catalog_of, catalog_request.
  xrun. destruct (nt _) as [e | resp]; xrun.
  - destruct (is_RequestException e); reflexivity.
  - destruct (ok resp); xrun; [| reflexivity].
    destruct (json_loads (content resp)); reflexivity.
Qed.

Lemma verify_agent_exists_run (json_loads : string -> option json)
    (me : CagentChatClient.Self) (w : World) (c : CagentChatClient.Colors) :
  CagentChatClient.verify_agent_exists json_loads (CagentChatClient.mkSt me w c)
  = (found_in (CagentChatClient.agent_name me)
       (catalog_of json_loads (net w (sent w ++ [catalog_request]))),
     CagentChatClient.mkSt me (set_sent (sent w ++ [catalog_request]) w) c).
Proof.
  unfold CagentChatClient.verify_agent_exists. unfold bind at 1.
  unfold CagentChatClient.getself at 1. cbv beta iota. cbn [CagentChatClient.self].
  unfold bind at 1. rewrite get_available_agents_run. unfold found_in.
  destruct (catalog_of _ _) as [agents | e]; [| reflexivity].
  unfold bind, lift, ret.
  destruct (py_iter agents) as [items | e]; [| reflexivity].
  destruct (CagentChatClient.comprehension CagentChatClient.stripped_name items)
    as [agent_names | e]; [| reflexivity].
  destruct (existsb _ agent_names); [reflexivity |].
  destruct (CagentChatClient.comprehension _ items); reflexivity.
Qed.

Lemma for_in_console {A} (f : A -> M CagentChatClient.St unit) :
  (forall x me w c, exists r o',
      f x (CagentChatClient.mkSt me w c)
      = (r, CagentChatClient.mkSt me (set_stdout o' w) c)) ->
  forall (items : list A) (me : CagentChatClient.Self) (w : World)
         (c : CagentChatClient.Colors),
  exists r o',
    for_in items f (CagentChatClient.mkSt me w c)
    = (r, CagentChatClient.mkSt me (set_stdout o' w) c).
Proof.
  intros Hf. induction items as [| x items IH]; intros me w c.
  - exists (Ret tt), (stdout w). destruct w; reflexivity.
  - cbn [for_in]. unfold bind at 1.
    destruct (Hf x me w c) as ([[] | e] & o1 & ->).
    + destruct (IH me (set_stdout o1 w) c) as (r & o2 & ->).
      exists r, o2. destruct w; reflexivity.
    + exists (Raise e), o1. reflexivity.
Qed.

Lemma list_agents_run (agents : json)
    (me : CagentChatClient.Self) (w : World) (c : CagentChatClient.Colors) :
  exists r o',
    CagentChatClient.list_agents agents (CagentChatClient.mkSt me w c)
    = (r, CagentChatClient.mkSt me (set_stdout o' w) c).
Proof.
  unfold CagentChatClient.list_agents. unfold bind at 1, lift at 1.
  destruct (py_iter agents) as [items | e];
    [| exists (Raise e), (stdout w); destruct w; reflexivity].
  apply for_in_console. clear. intros agent [name sid hist] [i o sn nt f ck] c.
  xrun. destruct (py_item agent "name"); xrun; [| do 2 eexists; reflexivity].
  destruct (py_item agent "description"); xrun; do 2 eexists; reflexivity.
Qed.

Lemma run_chat_not_found (json_loads : string -> option json) (fuel : nat)
    (me : CagentChatClient.Self) (w : World) (c : CagentChatClient.Colors) :
  let found := found_in (CagentChatClient.agent_name me)
                 (catalog_of json_loads (net w (sent w ++ [catalog_request]))) in
  found <> Ret true ->
  exists res o',
    CagentChatClient.run_chat json_loads fuel (CagentChatClient.mkSt me w c)
    = (res,
       CagentChatClient.mkSt me
         (set_stdout o'
            (set_sent (sent w ++ catalog_request ::
                         match found with Ret _ => [catalog_request] | Raise _ => [] end)
               w)) c) /\
    res <> Ret OutOfFuel.
Proof.
  destruct me as [name sid hist]. destruct w as [i o sn nt f ck]. cbv zeta.
  cbn [CagentChatClient.agent_name sent net].
  intros Hfound.
  unfold CagentChatClient.run_chat. unfold bind at 1. unfold CagentChatClient.getself at 1.
  cbv beta iota. unfold bind at 1. unfold CagentChatClient.getcolors at 1.
  cbv beta iota. unfold bind at 1. unfold print at 1, print_end at 1.
  cbn [world_of with_world CagentChatClient.St_Stateful CagentChatClient.self
       CagentChatClient.world CagentChatClient.colors set_stdout stdout].
  cbv beta iota zeta. unfold bind at 1. rewrite verify_agent_exists_run.
  cbn [sent net set_sent CagentChatClient.agent_name].
  destruct (found_in name _) as [[|] | e]; [congruence | |].
  - cbn [negb]. xrun. rewrite get_available_agents_run.
    cbn [sent net set_sent].
    destruct (catalog_of json_loads _) as [agents | e]; xrun.
    + match goal with
      | |- context [CagentChatClient.list_agents agents (CagentChatClient.mkSt ?m ?ww ?cc)] =>
          destruct (list_agents_run agents m ww cc) as ([[] | e] & o' & ->)
      end; xrun; rewrite <- ?app_assoc; do 2 eexists;
        (split; [reflexivity | discriminate]).
    + rewrite <- ?app_assoc. do 2 eexists. split; [reflexivity | discriminate].
  - cbv beta iota. do 2 eexists. split; [reflexivity | discriminate].
Qed.

(** X22: [run_chat] creates no session for an agent it did not find.
    When the search of the catalog does not say yes (it says no, or
    raises on an entry without a name), the session id and the history
    are as before, and nothing was sent but requests for the catalog:
    one for the search and, when the search said no, one for the
    listing. The chat loop is not entered, whatever the fuel. *)
Theorem cagent_no_session_without_agent :
  forall (json_loads : string -> option json) (fuel : nat) (s : CagentChatClient.St),
    let me := CagentChatClient.self s in
    let w := CagentChatClient.world s in
    let found := found_in (CagentChatClient.agent_name me)
                   (catalog_of json_loads (net w (sent w ++ [catalog_request]))) in
    let r := CagentChatClient.run_chat json_loads fuel s in
    found <> Ret true ->
    CagentChatClient.self (snd r) = me /\
    stdin (CagentChatClient.world (snd r)) = stdin w /\
    sent (CagentChatClient.world (snd r))
    = sent w ++ catalog_request ::
        match found with Ret _ => [catalog_request] | Raise _ => [] end /\
    fst r <> Ret OutOfFuel.
Proof.
  intros loads fuel [me w c]. cbv zeta.
  cbn [CagentChatClient.self CagentChatClient.world]. intros Hfound.
  destruct (run_chat_not_found loads fuel me w c Hfound) as (res & o' & -> & Hres).
  destruct w. repeat split; try reflexivity. exact Hres.
Qed.

Lemma cagent_no_session_without_agent_witness :
  let r := CagentChatClient.run_chat sample_loads 5
             (CagentChatClient.mkSt (CagentChatClient.__init__ "parrot.yaml")
                (stored_world (fun _ => Responds catalog_response))
                CagentChatClient.ansi) in
  CagentChatClient.session_id (CagentChatClient.self (snd r)) = JNull /\
  List.length (sent (CagentChatClient.world (snd r))) = 1.
Proof.
  destruct (cagent_no_session_without_agent sample_loads 5
              (CagentChatClient.mkSt (CagentChatClient.__init__ "parrot.yaml")
                 (stored_world (fun _ => Responds catalog_response))
                 CagentChatClient.ansi)) as (Hs & _ & Hr & _).
  - vm_compute. discriminate.
  - cbv zeta. rewrite Hs, Hr. split; reflexivity.
Defined.

(** ** The command lines *)

(** X23: [main] under [--logout] removes the whole credentials file:
    the saved login of every server is gone, not only that of the
    server of [--url] (the chat command [/logout] removes one entry).
    Nothing is sent, nothing is read from the console, and the other
    arguments are ignored. *)
Theorem logout_flag_forgets_every_server :
  forall (json_loads : string -> option json) (args : AuthAgentChat.Args)
         (fuel : nat) (w : World),
    AuthAgentChat.logout args = true ->
    let r := AuthAgentChat.main json_loads args fuel w in
    fst r = Ret (Ended Return) /\
    (forall server, stored server (creds (snd r)) = None) /\
    creds (snd r) = None /\
    sent (snd r) = sent w /\
    stdin (snd r) = stdin w.
Proof.
  intros loads args fuel [i o sn nt f ck] Hlogout. cbv zeta.
  unfold AuthAgentChat.main. rewrite Hlogout.
  destruct f as [fl |]; xrun; repeat split; reflexivity.
Qed.

Lemma logout_flag_forgets_every_server_witness :
  stored "http://other:9090"
    (creds (snd (AuthAgentChat.main sample_loads (logout_args (Some "pirate")) 0
                   (stored_world (fun _ => Fails ConnectionError))))) = None.
Proof.
  exact (proj1 (proj2 (logout_flag_forgets_every_server sample_loads
                         (logout_args (Some "pirate")) 0
                         (stored_world (fun _ => Fails ConnectionError)) eq_refl))
           "http://other:9090").
Defined.

Lemma main_authentication_refused (json_loads : string -> option json)
    (args : AuthAgentChat.Args) (fuel : nat) (w : World)
    (name choice : string) (rest : list string) :
  let url := rstrip_slash (AuthAgentChat.url args) in
  let rq := probe_request url in
  AuthAgentChat.logout args = false ->
  AuthAgentChat.arg_register args = false ->
  AuthAgentChat.agent args = Some name ->
  name <> EmptyString ->
  AuthAgentChat.no_auth args = false ->
  probe_says (net w (sent w ++ [rq])) = true ->
  stored url (creds w) = None ->
  menu_left choice rest w ->
  exists o',
    AuthAgentChat.main json_loads args (S fuel) w
    = (Ret (Ended Return),
       set_stdout o' (set_sent (sent w ++ [rq]) (set_stdin rest w))).
Proof.
  destruct w as [i o sn nt f ck]. cbv zeta. unfold menu_left. cbn [sent net creds stdin].
  intros Hlogout Hregister Hagent Hname Hnoauth Hprobe Hstored [-> Hchoice].
  unfold AuthAgentChat.main. rewrite Hlogout, Hregister, Hagent.
  apply String.eqb_neq in Hname. rewrite Hname. cbn [negb].
  unfold AuthAgentChat.with_chat.
  match goal with
  | |- context [AuthAgentChat.__init__ ?u ?a ?v ?t ?ww] =>
      destruct (init_run u a v t ww) as (tok' & usr' & o1 & Hinit & Hnone & _)
  end.
  rewrite Hinit. clear Hinit. cbn [sent net creds set_sent set_stdout] in *.
  destruct (Hnone Hstored) as [-> ->]. rewrite Hprobe.
  unfold AuthAgentChat.chat_mode, AuthAgentChat.authenticate,
    AuthAgentChat.validate_token.
  rewrite Hnoauth. xrun. cbn [AuthAgentChat.choice_loop]. xrun.
  rewrite Hchoice. cbn [String.eqb Ascii.eqb Bool.eqb]. xrun.
  eexists. reflexivity.
Qed.

(** X24: [AuthAgentChat.main] stops before it asks for any agent or
    session when it has no agent or no authentication. Without an
    agent (and without [--logout] or [--register]) it ends with exit
    status 2, having sent nothing, read no input and left the
    credentials file alone. With an agent, on a server whose probe
    says that authentication is required, without saved credentials
    for it and with the menu left by 3, it returns after the probe,
    its only request, and the credentials file is as before. *)
Theorem main_stops_early :
  forall (json_loads : string -> option json) (args : AuthAgentChat.Args)
         (fuel : nat) (w : World),
    let url := rstrip_slash (AuthAgentChat.url args) in
    let rq := probe_request url in
    AuthAgentChat.logout args = false ->
    AuthAgentChat.arg_register args = false ->
    (no_agent (AuthAgentChat.agent args) ->
     let r := AuthAgentChat.main json_loads args fuel w in
     fst r = Ret (Ended (SysExit 2)) /\
     sent (snd r) = sent w /\ creds (snd r) = creds w /\ stdin (snd r) = stdin w) /\
    (forall name choice rest,
        AuthAgentChat.agent args = Some name ->
        name <> EmptyString ->
        AuthAgentChat.no_auth args = false ->
        probe_says (net w (sent w ++ [rq])) = true ->
        stored url (creds w) = None ->
        menu_left choice rest w ->
        let r := AuthAgentChat.main json_loads args (S fuel) w in
        fst r = Ret (Ended Return) /\
        sent (snd r) = sent w ++ [rq] /\ creds (snd r) = creds w /\ stdin (snd r) = rest).
Proof.
  intros loads args fuel w. cbv zeta. intros Hlogout Hregister. split.
  - intros Hagent. destruct w as [i o sn nt f ck].
    unfold AuthAgentChat.main. rewrite Hlogout, Hregister.
    destruct Hagent as [-> | ->]; xrun; repeat split; reflexivity.
  - intros name choice rest Hagent Hname Hnoauth Hprobe Hstored Hmenu.
    destruct (main_authentication_refused loads args fuel w name choice rest
                Hlogout Hregister Hagent Hname Hnoauth Hprobe Hstored Hmenu)
      as (o' & ->).
    destruct w. repeat split; reflexivity.
Qed.

Lemma main_stops_early_witness :
  let args := AuthAgentChat.mkArgs "chat" (Some "pirate") None "http://localhost:8080/"
                false 120 false false false in
  let w := mkWorld ["3"] [] [] (fun _ => Responds unauthorized) None
             "2025-01-01T00:00:00" in
  fst (AuthAgentChat.main sample_loads args 1 w) = Ret (Ended Return) /\
  List.length (sent (snd (AuthAgentChat.main sample_loads args 1 w))) = 1.
Proof.
  cbv zeta.
  destruct (proj2 (main_stops_early sample_loads
                     (AuthAgentChat.mkArgs "chat" (Some "pirate") None
                        "http://localhost:8080/" false 120 false false false)
                     0
                     (mkWorld ["3"] [] [] (fun _ => Responds unauthorized) None
                        "2025-01-01T00:00:00")
                     eq_refl eq_refl)
              "pirate" "3" [] eq_refl) as (Hr & Hs & _).
  - discriminate.
  - reflexivity.
  - reflexivity.
  - reflexivity.
  - split; reflexivity.
  - split; [exact Hr | rewrite Hs; reflexivity].
Defined.

Lemma for_in_world_console {A} (f : A -> M World unit) :
  (forall x w, exists r o', f x w = (r, set_stdout o' w)) ->
  forall (items : list A) (w : World),
  exists r o', for_in items f w = (r, set_stdout o' w).
Proof.
  intros Hf. induction items as [| x items IH]; intros w.
  - exists (Ret tt), (stdout w). destruct w; reflexivity.
  - cbn [for_in]. unfold bind at 1.
    destruct (Hf x w) as ([[] | e] & o1 & ->).
    + destruct (IH (set_stdout o1 w)) as (r & o2 & ->).
      exists r, o2. destruct w; reflexivity.
    + exists (Raise e), o1. reflexivity.
Qed.

Lemma list_mode_run (json_loads : string -> option json) (args : CagentChatClient.Args)
    (c : CagentChatClient.Colors) (w : World) :
  exists r o',
    CagentChatClient.list_mode json_loads args c w
    = (r, set_stdout o' (set_sent (sent w ++ [catalog_request]) w)).
Proof.
  destruct w as [i o sn nt f ck].
  unfold CagentChatClient.list_mode, catalog_request. xrun.
  destruct (nt _) as [e | resp]; xrun;
    [destruct (is_RequestException e); xrun; do 2 eexists; reflexivity |].
  destruct (ok resp); xrun; [| do 2 eexists; reflexivity].
  destruct (json_loads (content resp)) as [agents |]; xrun;
    [| do 2 eexists; reflexivity].
  destruct (py_iter agents) as [items | e]; xrun;
    [| destruct (is_RequestException e); xrun; do 2 eexists; reflexivity].
  match goal with
  | |- context [for_in items ?f ?ww] =>
      destruct (for_in_world_console f) with (items := items) (w := ww)
        as ([[] | e] & o' & ->)
  end.
  - clear. intros agent [i o sn nt f ck].
    destruct (py_item agent "name"); xrun; [| do 2 eexists; reflexivity].
    destruct (py_item agent "description"); xrun; do 2 eexists; reflexivity.
  - xrun. do 2 eexists. reflexivity.
  - xrun. destruct (is_RequestException e); xrun; do 2 eexists; reflexivity.
Qed.

(** X25: [cagent_chat.main] under [--list], or without an agent, only
    lists the catalog: exactly one request is sent, the one for the
    catalog; no client is made, no session created and no line read
    from the console. [--list] wins over an agent given with it. *)
Theorem cagent_list_mode_only_lists :
  forall (json_loads : string -> option json) (args : CagentChatClient.Args)
         (fuel : nat) (w : World),
    CagentChatClient.arg_list args = true \/ no_agent (CagentChatClient.agent args) ->
    let r := CagentChatClient.main json_loads args fuel w in
    sent (snd r) = sent w ++ [catalog_request] /\
    stdin (snd r) = stdin w /\
    fst r <> Ret OutOfFuel.
Proof.
  intros loads args fuel w Hmode. cbv zeta.
  assert (Hlist : CagentChatClient.main loads args fuel w
                  = (CagentChatClient.list_mode loads args
                       (if CagentChatClient.arg_no_color args
                        then CagentChatClient.no_color else CagentChatClient.ansi) ;;
                     ret (Ended tt)) w).
  { unfold CagentChatClient.main.
    destruct Hmode as [-> | [-> | ->]]; [reflexivity | |];
      destruct (CagentChatClient.arg_list args); reflexivity. }
  rewrite Hlist. unfold bind.
  destruct (list_mode_run loads args
              (if CagentChatClient.arg_no_color args
               then CagentChatClient.no_color else CagentChatClient.ansi) w)
    as ([[] | e] & o' & ->);
    destruct w; cbn; repeat split; discriminate.
Qed.

Lemma cagent_list_mode_only_lists_witness :
  sent (snd (CagentChatClient.main sample_loads
               (CagentChatClient.mkArgs "cagent_chat.py" (Some "pirate") true false) 5
               (stored_world (fun _ => Responds catalog_response))))
  = [catalog_request].
Proof.
  exact (proj1 (cagent_list_mode_only_lists sample_loads
                  (CagentChatClient.mkArgs "cagent_chat.py" (Some "pirate") true false) 5
                  (stored_world (fun _ => Responds catalog_response))
                  (or_introl eq_refl))).
Defined.

Lemma register_flag_main (json_loads : string -> option json) (args : AuthAgentChat.Args)
    (fuel : nat) (w : World) :
  let url := rstrip_slash (AuthAgentChat.url args) in
  let rq := probe_request url in
  AuthAgentChat.logout args = false ->
  AuthAgentChat.arg_register args = true ->
  exists tok usr o',
    let s := AuthAgentChat.mkSt
               (AuthAgentChat.mkSelf url "dummy" (AuthAgentChat.arg_verbose args)
                  (AuthAgentChat.arg_timeout args) JNull tok usr
                  (probe_says (net w (sent w ++ [rq]))))
               (set_stdout o' (set_sent (sent w ++ [rq]) w)) in
    AuthAgentChat.main json_loads args fuel w
    = (fst (AuthAgentChat.register_mode json_loads args s),
       AuthAgentChat.world (snd (AuthAgentChat.register_mode json_loads args s))).
Proof.
  destruct w as [i o sn nt f ck]. cbv zeta. cbn [sent net].
  intros Hlogout Hregister.
  unfold AuthAgentChat.main. rewrite Hlogout, Hregister.
  unfold bind at 1. unfold print at 1, print_end at 1.
  cbn [world_of with_world World_Stateful stdout set_stdout].
  cbv beta iota zeta.
  unfold bind at 1. unfold print at 1, print_end at 1.
  cbn [world_of with_world World_Stateful stdout set_stdout].
  cbv beta iota zeta.
  unfold bind at 1. unfold print at 1, print_end at 1.
  cbn [world_of with_world World_Stateful stdout set_stdout].
  cbv beta iota zeta.
  unfold AuthAgentChat.with_chat.
  match goal with
  | |- context [AuthAgentChat.__init__ ?u ?a ?v ?t ?ww] =>
      destruct (init_run u a v t ww) as (tok' & usr' & o1 & Hinit & _)
  end.
  rewrite Hinit. clear Hinit. cbn [sent net set_sent set_stdout].
  exists tok', usr', o1. reflexivity.
Qed.

Lemma register_flag_run (json_loads : string -> option json) (args : AuthAgentChat.Args)
    (fuel : nat) (w : World) :
  let rq := probe_request (rstrip_slash (AuthAgentChat.url args)) in
  AuthAgentChat.logout args = false ->
  AuthAgentChat.arg_register args = true ->
  (probe_says (net w (sent w ++ [rq])) = false ->
   exists o',
     AuthAgentChat.main json_loads args fuel w
     = (Ret (Ended Return), set_stdout o' (set_sent (sent w ++ [rq]) w))) /\
  (forall email name password confirm rest,
      probe_says (net w (sent w ++ [rq])) = true ->
      stdin w = email :: name :: password :: confirm :: rest ->
      password <> confirm \/ len_str password < 8 ->
      exists o',
        AuthAgentChat.main json_loads args fuel w
        = (Ret (Ended (SysExit 1)),
           set_stdout o' (set_sent (sent w ++ [rq]) (set_stdin rest w)))).
Proof.
  cbv zeta. intros Hlogout Hregister.
  destruct (register_flag_main json_loads args fuel w Hlogout Hregister)
    as (tok & usr & o1 & ->).
  destruct w as [i o sn nt f ck]. cbn [sent net stdin].
  split.
  - intros Hprobe. rewrite Hprobe.
    unfold AuthAgentChat.register_mode. xrun. eexists. reflexivity.
  - intros email name password confirm rest Hprobe -> Hbad. rewrite Hprobe.
    unfold AuthAgentChat.register_mode, AuthAgentChat.register. xrun.
    destruct (String.eqb password confirm) eqn:Heq; xrun;
      [| eexists; reflexivity].
    apply String.eqb_eq in Heq. destruct Hbad as [Hne | Hlen]; [contradiction |].
    apply Nat.ltb_lt in Hlen. rewrite Hlen. xrun. eexists. reflexivity.
Qed.

(** X26: [main] under [--register]. When the probe does not find
    authentication enabled (also when the server could not be reached),
    it returns without asking anything: the probe is the only request
    and the console input is untouched. When authentication is enabled
    and the passwords typed differ or are shorter than 8 characters,
    it exits with status 1, the probe again being the only request. In
    both cases the credentials file is as before. *)
Theorem register_flag_outcomes :
  forall (json_loads : string -> option json) (args : AuthAgentChat.Args)
         (fuel : nat) (w : World),
    let rq := probe_request (rstrip_slash (AuthAgentChat.url args)) in
    let r := AuthAgentChat.main json_loads args fuel w in
    AuthAgentChat.logout args = false ->
    AuthAgentChat.arg_register args = true ->
    (probe_says (net w (sent w ++ [rq])) = false ->
     fst r = Ret (Ended Return) /\
     sent (snd r) = sent w ++ [rq] /\
     stdin (snd r) = stdin w /\ creds (snd r) = creds w) /\
    (forall email name password confirm rest,
        probe_says (net w (sent w ++ [rq])) = true ->
        stdin w = email :: name :: password :: confirm :: rest ->
        password <> confirm \/ len_str password < 8 ->
        fst r = Ret (Ended (SysExit 1)) /\
        sent (snd r) = sent w ++ [rq] /\
        stdin (snd r) = rest /\ creds (snd r) = creds w).
Proof.
  intros loads args fuel w. cbv zeta. intros Hlogout Hregister.
  destruct (register_flag_run loads args fuel w Hlogout Hregister) as (Hoff & Hon).
  split.
  - intros Hprobe. destruct (Hoff Hprobe) as (o' & ->).
    destruct w; repeat split; reflexivity.
  - intros email name password confirm rest Hprobe Hin Hbad.
    destruct (Hon email name password confirm rest Hprobe Hin Hbad) as (o' & ->).
    destruct w; repeat split; reflexivity.
Qed.

Lemma register_flag_outcomes_witness :
  fst (AuthAgentChat.main sample_loads (register_args "http://localhost:8080/") 0
         sample_world)
  = Ret (Ended Return) /\
  probe_says (net weak_signup_world
                [probe_request (rstrip_slash "http://localhost:8080/")]) = true /\
  len_str kanji_password < 8 /\
  fst (AuthAgentChat.main sample_loads (register_args "http://localhost:8080/") 0
         weak_signup_world)
  = Ret (Ended (SysExit 1)) /\
  sent (snd (AuthAgentChat.main sample_loads (register_args "http://localhost:8080/") 0
               weak_signup_world))
  = [probe_request "http://localhost:8080"].
Proof.
  assert (Hlen : len_str kanji_password < 8) by (vm_compute; lia).
  split; [| split; [reflexivity | split; [exact Hlen |]]].
  - exact (proj1 (proj1 (register_flag_outcomes sample_loads
                           (register_args "http://localhost:8080/") 0 sample_world
                           eq_refl eq_refl) eq_refl)).
  - destruct (proj2 (register_flag_outcomes sample_loads
                       (register_args "http://localhost:8080/") 0 weak_signup_world
                       eq_refl eq_refl)
                "a@b.c" "Ann" kanji_password kanji_password [] eq_refl eq_refl
                (or_intror Hlen))
      as (Hret & Hsent & _).
    split; [exact Hret | exact Hsent].
Defined.

(** ** The saved token *)

Lemma authenticate_token_accepted (json_loads : string -> option json) (fuel : nat)
    (me : AuthAgentChat.Self) (w : World) (resp : response) (d : Dict.t) :
  AuthAgentChat.auth_enabled me = true ->
  truthy (AuthAgentChat.token me) = true ->
  net w (sent w ++ [me_request me]) = Responds resp ->
  status_code resp = 200%Z ->
  json_loads (content resp) = Some (JObj d) ->
  exists o',
    AuthAgentChat.authenticate json_loads fuel (AuthAgentChat.mkSt me w)
    = (Ret (Ended true),
       AuthAgentChat.mkSt (logged_in (AuthAgentChat.token me) (JObj d) me)
         (set_stdout o' (set_sent (sent w ++ [me_request me]) w))).
Proof.
  destruct me as [url ay vb tmo sid tok usr ae]. destruct w as [i o sn nt f ck].
  unfold me_request, auth_headers, logged_in. cbn [AuthAgentChat.auth_enabled
    AuthAgentChat.token AuthAgentChat.api_url sent net].
  intros -> Htok Hnet Hstatus Hbody.
  unfold AuthAgentChat.authenticate, AuthAgentChat.validate_token,
    AuthAgentChat._headers, AuthAgentChat.response_json.
  xrun. rewrite Htok. xrun. rewrite Hnet. xrun. rewrite Hstatus. cbn [Z.eqb Pos.eqb].
  rewrite Hbody. xrun. rewrite ?Htok. eexists. reflexivity.
Qed.

Lemma authenticate_token_refused (json_loads : string -> option json) (fuel : nat)
    (me : AuthAgentChat.Self) (w : World) (choice : string) (rest : list string) :
  AuthAgentChat.auth_enabled me = true ->
  truthy (AuthAgentChat.token me) = true ->
  menu_left choice rest w ->
  exists o',
    AuthAgentChat.authenticate json_loads (S fuel) (AuthAgentChat.mkSt me w)
    = match net w (sent w ++ [me_request me]) with
      | Fails _ =>
          (Ret (Ended false),
           AuthAgentChat.mkSt me
             (set_stdout o' (set_sent (sent w ++ [me_request me]) (set_stdin rest w))))
      | Responds resp =>
          if (status_code resp =? 200)%Z then
            AuthAgentChat.authenticate json_loads (S fuel) (AuthAgentChat.mkSt me w)
          else
            (Ret (Ended false),
             AuthAgentChat.mkSt (logged_out me)
               (set_creds (cleared (AuthAgentChat.api_url me) (creds w))
                  (set_stdout o'
                     (set_sent (sent w ++ [me_request me]) (set_stdin rest w)))))
      end.
Proof.
  destruct me as [url ay vb tmo sid tok usr ae]. destruct w as [i o sn nt f ck].
  unfold me_request, auth_headers, menu_left. cbn [AuthAgentChat.auth_enabled
    AuthAgentChat.token AuthAgentChat.api_url sent net stdin creds].
  intros -> Htok [-> Hchoice].
  destruct (nt _) as [e | resp] eqn:Hnet;
    [| destruct (status_code resp =? 200)%Z eqn:Hstatus; [exists o; reflexivity |]];
    unfold AuthAgentChat.authenticate, AuthAgentChat.validate_token,
      AuthAgentChat._headers;
    xrun; rewrite Htok; xrun; rewrite Hnet; xrun.
  - cbn [AuthAgentChat.choice_loop]. xrun. rewrite Hchoice. cbn [String.eqb Ascii.eqb Bool.eqb].
    xrun. rewrite ?Htok. eexists. reflexivity.
  - rewrite Hstatus. xrun.
    rewrite clear_credentials_result. unfold logged_out, cleared. xrun.
    cbn [AuthAgentChat.choice_loop]. xrun. rewrite Hchoice.
    cbn [String.eqb Ascii.eqb Bool.eqb]. xrun.
    rewrite ?Htok. destruct f as [[| [| b | q | str | l | kvs]] |]; eexists; reflexivity.
Qed.

(** X27: what [authenticate] does with a saved token when the server
    requires authentication. A token the server accepts (status 200
    and a JSON object) gives True without a question: the user is
    refreshed from the answer, the token and the file stay. A token the
    server refuses (another status) is dropped with the user, and the
    entry of the server is removed from the file, before the menu is
    shown. When the check fails in transport the token and the file are
    kept and the menu is shown all the same. Leaving the menu with 3
    gives False. *)
Theorem authenticate_with_saved_token :
  forall (json_loads : string -> option json) (fuel : nat) (s : AuthAgentChat.St),
    let me := AuthAgentChat.self s in
    let w := AuthAgentChat.world s in
    let rq := me_request me in
    AuthAgentChat.auth_enabled me = true ->
    truthy (AuthAgentChat.token me) = true ->
    (forall resp d,
        net w (sent w ++ [rq]) = Responds resp ->
        status_code resp = 200%Z ->
        json_loads (content resp) = Some (JObj d) ->
        let r := AuthAgentChat.authenticate json_loads fuel s in
        fst r = Ret (Ended true) /\
        AuthAgentChat.self (snd r) = logged_in (AuthAgentChat.token me) (JObj d) me /\
        sent (AuthAgentChat.world (snd r)) = sent w ++ [rq] /\
        stdin (AuthAgentChat.world (snd r)) = stdin w /\
        creds (AuthAgentChat.world (snd r)) = creds w) /\
    (forall resp choice rest,
        net w (sent w ++ [rq]) = Responds resp ->
        status_code resp <> 200%Z ->
        menu_left choice rest w ->
        let r := AuthAgentChat.authenticate json_loads (S fuel) s in
        fst r = Ret (Ended false) /\
        AuthAgentChat.self (snd r) = logged_out me /\
        creds (AuthAgentChat.world (snd r)) = cleared (AuthAgentChat.api_url me) (creds w) /\
        sent (AuthAgentChat.world (snd r)) = sent w ++ [rq]) /\
    (forall e choice rest,
        net w (sent w ++ [rq]) = Fails e ->
        menu_left choice rest w ->
        let r := AuthAgentChat.authenticate json_loads (S fuel) s in
        fst r = Ret (Ended false) /\
        AuthAgentChat.self (snd r) = me /\
        creds (AuthAgentChat.world (snd r)) = creds w /\
        sent (AuthAgentChat.world (snd r)) = sent w ++ [rq]).
Proof.
  intros loads fuel [me w]. cbv zeta. cbn [AuthAgentChat.self AuthAgentChat.world].
  intros Hauth Htok. split; [| split].
  - intros resp d Hnet Hstatus Hbody.
    destruct (authenticate_token_accepted loads fuel me w resp d Hauth Htok Hnet
                Hstatus Hbody) as (o' & ->).
    destruct w. repeat split; reflexivity.
  - intros resp choice rest Hnet Hstatus Hmenu.
    destruct (authenticate_token_refused loads fuel me w choice rest Hauth Htok Hmenu)
      as (o' & Hrun).
    rewrite Hnet in Hrun. apply Z.eqb_neq in Hstatus. rewrite Hstatus in Hrun.
    rewrite Hrun. destruct w. repeat split; reflexivity.
  - intros e choice rest Hnet Hmenu.
    destruct (authenticate_token_refused loads fuel me w choice rest Hauth Htok Hmenu)
      as (o' & Hrun).
    rewrite Hnet in Hrun. rewrite Hrun. destruct w. repeat split; reflexivity.
Qed.

Lemma authenticate_with_saved_token_witness :
  let r := AuthAgentChat.authenticate sample_loads 1
             (AuthAgentChat.mkSt sample_self
                (leaving_world (fun _ => Responds unauthorized))) in
  fst r = Ret (Ended false) /\
  creds (AuthAgentChat.world (snd r)) = Some (Doc (JObj [other_entry])).
Proof.
  destruct (proj1 (proj2 (authenticate_with_saved_token sample_loads 0
                            (AuthAgentChat.mkSt sample_self
                               (leaving_world (fun _ => Responds unauthorized)))
                            eq_refl eq_refl))
              unauthorized " 3 " [] eq_refl) as (Hr & _ & Hc & _).
  - discriminate.
  - split; reflexivity.
  - cbv zeta. rewrite Hr, Hc. split; reflexivity.
Defined.

(** ** The parser of the test script *)

Lemma split_lines_nonempty (s : string) : TestCagentSse.split_lines s <> [].
Proof.
  induction s as [| c s IH]; cbn [TestCagentSse.split_lines]; [discriminate |].
  destruct (Ascii.eqb c (ascii_of_nat 10)); [discriminate |].
  destruct (TestCagentSse.split_lines s); [contradiction | discriminate].
Qed.

Lemma split_lines_one_line (s : string) :
  one_line s = true -> TestCagentSse.split_lines s = [s].
Proof.
  induction s as [| c s IH]; cbn [TestCagentSse.split_lines one_line]; [reflexivity |].
  destruct (Ascii.eqb c (ascii_of_nat 10)); cbn [negb andb]; [discriminate |].
  intros Hs. apply andb_true_iff in Hs as [_ Hs]. now rewrite (IH Hs).
Qed.

Lemma split_lines_break (a b : string) :
  TestCagentSse.split_lines (a ++ nl ++ b)
  = match TestCagentSse.split_lines a with
    | [] => TestCagentSse.split_lines b
    | _ => removelast (TestCagentSse.split_lines a)
           ++ [last (TestCagentSse.split_lines a) EmptyString]
           ++ TestCagentSse.split_lines b
    end.
Proof.
  induction a as [| c a IH].
  - reflexivity.
  - cbn [append TestCagentSse.split_lines].
    destruct (Ascii.eqb c (ascii_of_nat 10)).
    + rewrite IH. pose proof (split_lines_nonempty a) as Hne.
      destruct (TestCagentSse.split_lines a) as [| p ps]; [contradiction |].
      reflexivity.
    + rewrite IH. pose proof (split_lines_nonempty a) as Hne.
      destruct (TestCagentSse.split_lines a) as [| p ps]; [contradiction |].
      destruct ps; reflexivity.
Qed.

Lemma split_lines_app (a b : string) :
  TestCagentSse.split_lines (a ++ nl ++ b)
  = TestCagentSse.split_lines a ++ TestCagentSse.split_lines b.
Proof.
  rewrite split_lines_break. pose proof (split_lines_nonempty a) as Hne.
  destruct (TestCagentSse.split_lines a) as [| p ps] eqn:E; [contradiction |].
  rewrite app_assoc. rewrite <- app_removelast_last by discriminate. reflexivity.
Qed.

Lemma split_lines_unlines (lines : list string) :
  forallb one_line lines = true ->
  lines <> [] ->
  TestCagentSse.split_lines (unlines lines) = lines.
Proof.
  induction lines as [| line rest IH]; intros Hall Hne; [contradiction |].
  cbn [forallb] in Hall. apply andb_true_iff in Hall as [Hline Hrest].
  destruct rest as [| line' rest'].
  - cbn [unlines]. now apply split_lines_one_line.
  - change (unlines (line :: line' :: rest'))
      with (line ++ nl ++ unlines (line' :: rest'))%string.
    rewrite split_lines_app, (split_lines_one_line line Hline), IH by (auto; discriminate).
    reflexivity.
Qed.

(** X28: [parse_sse_stream] can be fed piece by piece: the values it
    yields for two texts joined by a line feed are those of the first
    text followed by those of the second. *)
Theorem parse_sse_stream_by_pieces :
  forall (json_loads : string -> option json) (a b : string),
    TestCagentSse.parse_sse_stream json_loads (a ++ nl ++ b)
    = TestCagentSse.parse_sse_stream json_loads a
      ++ TestCagentSse.parse_sse_stream json_loads b.
Proof.
  intros loads a b. unfold TestCagentSse.parse_sse_stream.
  rewrite split_lines_app. apply flat_map_app.
Qed.

(** X29: the parser of the test script and [CagentChatClient] read a
    stream alike. For the lines [iter_lines] delivers, none of them
    holding a line feed or a carriage return, the values
    [parse_sse_stream] yields for these lines joined by line feeds
    decode to exactly the events [send_message] tells apart, those of
    undecodable payloads left out, in the same order. *)
Theorem parse_sse_stream_agrees_with_client :
  forall (json_loads : string -> option json) (lines : list string),
    forallb one_line lines = true ->
    map (fun data => decode (Some data))
      (TestCagentSse.parse_sse_stream json_loads (unlines lines))
    = filter parsed (decode_lines json_loads lines).
Proof.
  intros loads lines Hall.
  destruct lines as [| l0 rest]; [reflexivity |].
  unfold TestCagentSse.parse_sse_stream.
  rewrite split_lines_unlines by (auto; discriminate).
  clear Hall. unfold decode_lines.
  induction (l0 :: rest) as [| line lines IH]; [reflexivity |].
  cbn [flat_map]. rewrite map_app, filter_app, IH. f_equal.
  unfold line_payload.
  destruct (String.eqb line EmptyString) eqn:Hempty.
  - apply String.eqb_eq in Hempty. subst line. reflexivity.
  - cbn [negb andb].
    destruct (startswith line "data: "); [| reflexivity]. cbn [andb].
    destruct (negb (String.eqb (drop 6 line) EmptyString)
              && negb (String.eqb (drop 6 line) " ")); [| reflexivity].
    destruct (loads (drop 6 line)) as [v |]; [| reflexivity].
    cbn [map filter decode parsed].
    destruct v as [| b | q | str | l | d]; try reflexivity.
    cbn [decode]. repeat (destruct (is_str _ _); [reflexivity |]). reflexivity.
Qed.

Lemma parse_sse_stream_agrees_with_client_witness :
  TestCagentSse.parse_sse_stream sample_loads
    (unlines ["data: choice a"; ": ping"; "data: oops"; "data: usage"])
  = [JObj [("type", JStr "agent_choice"); ("content", JStr "a")];
     JObj [("type", JStr "token_usage"); ("usage", JObj [("total_tokens", num 7)])]] /\
  map (fun data => decode (Some data))
    (TestCagentSse.parse_sse_stream sample_loads
       (unlines ["data: choice a"; ": ping"; "data: oops"; "data: usage"]))
  = [AgentChoice (JStr "a"); TokenUsage (JObj [("total_tokens", num 7)])].
Proof.
  split; [reflexivity |].
  rewrite (parse_sse_stream_agrees_with_client sample_loads
             ["data: choice a"; ": ping"; "data: oops"; "data: usage"] eq_refl).
  reflexivity.
Defined.

(** ** The history of [CagentChatClient] *)

Ltac hist_leaf :=
  first
    [ eexists; exists []; eexists;
      split; [rewrite app_nil_r; reflexivity | constructor]
    | eexists; eexists [_]; eexists;
      split; [reflexivity |];
      repeat constructor; do 2 eexists; reflexivity
    | eexists; eexists [_; _]; eexists;
      split; [rewrite <- app_assoc; reflexivity |];
      repeat constructor; do 2 eexists; reflexivity ].

Lemma send_message_history_grows (json_loads : string -> option json) (message : string)
    (name : string) (sid : json) (hist : list json) (w : World)
    (c : CagentChatClient.Colors) :
  exists res added w',
    CagentChatClient.send_message json_loads message
      (CagentChatClient.mkSt (CagentChatClient.mkSelf name sid hist) w c)
    = (res, CagentChatClient.mkSt (CagentChatClient.mkSelf name sid (hist ++ added)) w' c) /\
    Forall chat_entry added.
Proof.
  destruct w as [i o sn nt f ck].
  unfold CagentChatClient.send_message. xrun.
  destruct (truthy sid); xrun; [| hist_leaf].
  destruct (nt _) as [e | r]; xrun;
    [destruct (is_RequestException e); xrun; hist_leaf |].
  destruct (ok r); xrun; [| hist_leaf].
  match goal with
  | |- context [CagentChatClient.lines_loop ?l ?ct ?ch ?fr ?tu
                  (CagentChatClient.mkSt ?m ?ww ?cc)] =>
      destruct (lines_loop_dispatch l ct ch fr tu m ww cc) as (o1 & ->)
  end.
  destruct (dispatch_lines _ _ _) as [[[fr tu] |] | e]; xrun;
    [| hist_leaf | destruct (is_RequestException e); xrun; hist_leaf].
  destruct (join fr) as [text | e]; xrun;
    [| destruct (is_RequestException e); xrun; hist_leaf].
  destruct (String.eqb text EmptyString); xrun; [hist_leaf |].
  xcrunch; hist_leaf.
Qed.

Lemma for_in_entries (f : json -> M CagentChatClient.St unit)
    (me : CagentChatClient.Self) (c : CagentChatClient.Colors) :
  (forall m w, chat_entry m ->
               exists o', f m (CagentChatClient.mkSt me w c)
                          = (Ret tt, CagentChatClient.mkSt me (set_stdout o' w) c)) ->
  forall items w,
    Forall chat_entry items ->
    exists o', for_in items f (CagentChatClient.mkSt me w c)
               = (Ret tt, CagentChatClient.mkSt me (set_stdout o' w) c).
Proof.
  intros Hf. induction items as [| m items IH]; intros w Hall.
  - exists (stdout w). destruct w; reflexivity.
  - inversion Hall as [| ? ? Hm Hitems]; subst.
    cbn [for_in]. unfold bind at 1.
    destruct (Hf m w Hm) as (o1 & ->).
    destruct (IH (set_stdout o1 w) Hitems) as (o2 & ->).
    exists o2. destruct w; reflexivity.
Qed.

Lemma show_history_run (me : CagentChatClient.Self) (w : World)
    (c : CagentChatClient.Colors) :
  printable_history me ->
  exists o',
    CagentChatClient.show_history (CagentChatClient.mkSt me w c)
    = (Ret tt, CagentChatClient.mkSt me (set_stdout o' w) c).
Proof.
  destruct me as [name sid hist]. unfold printable_history.
  cbn [CagentChatClient.messages_history]. intros Hhist.
  destruct w as [i o sn nt f ck].
  unfold CagentChatClient.show_history. xrun.
  match goal with
  | |- context [for_in hist ?body (CagentChatClient.mkSt ?m ?ww ?cc)] =>
      destruct (for_in_entries body m cc) with (items := hist) (w := ww)
        as (o2 & ->); [| exact Hhist |]
  end.
  - clear. intros m [i o sn nt f ck] (role & text & ->). xrun.
    change (Dict.get "role" [("role", JStr role); ("content", JStr text)])
      with (Some (JStr role)).
    change (Dict.get "content" [("role", JStr role); ("content", JStr text)])
      with (Some (JStr text)).
    cbn [is_str]. destruct (String.eqb role "user"); xrun; eexists; reflexivity.
  - xrun. eexists. reflexivity.
Qed.

(** X30: the history command of [run_chat] cannot fail. Whatever
    [send_message] does, it leaves a history in which every entry is a
    dict with a role and a content, if the history it found was such
    (the empty history of a new client is); on such a history
    [show_history] returns normally, sends nothing and changes nothing
    but the console. *)
Theorem history_stays_printable :
  forall (json_loads : string -> option json) (message : string)
         (s : CagentChatClient.St),
    printable_history (CagentChatClient.self s) ->
    let s' := snd (CagentChatClient.send_message json_loads message s) in
    let shown := CagentChatClient.show_history s' in
    printable_history (CagentChatClient.self s') /\
    fst shown = Ret tt /\
    CagentChatClient.self (snd shown) = CagentChatClient.self s' /\
    sent (CagentChatClient.world (snd shown)) = sent (CagentChatClient.world s').
Proof.
  intros loads message [[name sid hist] w c] Hhist. cbv zeta.
  destruct (send_message_history_grows loads message name sid hist w c)
    as (res & added & w' & -> & Hadded).
  cbn [snd CagentChatClient.self].
  assert (Hall : printable_history (CagentChatClient.mkSelf name sid (hist ++ added))).
  { unfold printable_history in *. cbn [CagentChatClient.messages_history] in *.
    apply Forall_app. split; assumption. }
  split; [exact Hall |].
  destruct (show_history_run (CagentChatClient.mkSelf name sid (hist ++ added)) w' c Hall)
    as (o' & ->).
  destruct w'. repeat split; reflexivity.
Qed.

Lemma history_stays_printable_witness :
  fst (CagentChatClient.show_history
         (snd (CagentChatClient.send_message sample_loads "hi" sample_cagent_state)))
  = Ret tt.
Proof.
  exact (proj1 (proj2 (history_stays_printable sample_loads "hi" sample_cagent_state
                         (Forall_nil chat_entry)))).
Defined.
